(** * MikroTik RouterBOOT hard_config driver

    A shallow embedding of [drivers/platform/mikrotik/rb_hardconfig.c]:
    the WLAN calibration unpacking pipeline ([hc_wlan_data_unpack] and its
    ERD and LZOR strategies), the sysfs attribute reader [hc_attr_show],
    the binary reader [hc_wlan_data_bin_read] and the tag-locating part of
    [rb_hardconfig_init].

    C objects are modelled as follows.
    - Integers are [Z]; every conversion to a fixed-width C type is written
      out ([C.u16], [C.size_t], [C.int], ...).
    - A buffer is the list of its bytes.  A pointer into a buffer is the list
      of the bytes from the pointed-to byte up to the end of the allocation,
      so that [p + k] is [skipn k p] and an access is inside the allocation
      exactly when the list is long enough.  A pointer that the code tests
      against NULL is an optional buffer.
    - Functions run in a small monad [M] that threads a call log and an
      allocation counter, and that distinguishes a normal return from an
      access outside an allocation ([Crashes]) and from a loop that does not
      end ([Hangs]).
    - Code that the driver calls but does not define (routerboot.c, the LZO
      library, the allocator, MTD, sysfs) and the constants of routerboot.h
      are fields of the record [externals]; every statement is proved for
      all of them. *)

From Stdlib Require Import ZArith List Lia Bool String Ascii.
From Stdlib.Strings Require Import Byte.
Import ListNotations.
Local Open Scope Z_scope.

(* ================================================================== *)
(** ** C integer types *)

Module C.

Inductive arch := ILP32 | LP64.

(** Width of [size_t], [ssize_t] and of pointers. *)
Definition size_bits (a : arch) : Z :=
  match a with ILP32 => 32 | LP64 => 64 end.

(** Conversion to an unsigned type of [bits] bits. *)
Definition wrap (bits x : Z) : Z := x mod 2 ^ bits.

(** Conversion to a signed two's complement type of [bits] bits. *)
Definition swrap (bits x : Z) : Z :=
  let u := wrap bits x in
  if u <? 2 ^ (bits - 1) then u else u - 2 ^ bits.

Definition u16 : Z -> Z := wrap 16.
Definition u32 : Z -> Z := wrap 32.
Definition int : Z -> Z := swrap 32.
Definition size_t (a : arch) : Z -> Z := wrap (size_bits a).
Definition ssize_t (a : arch) : Z -> Z := swrap (size_bits a).

(** The common type of a [loff_t] and a [size_t] operand (usual arithmetic
    conversions): [long long] where [size_t] has 32 bits, [unsigned long
    long] where it has 64. *)
Definition loff_size (a : arch) : Z -> Z :=
  match a with ILP32 => swrap 64 | LP64 => wrap 64 end.

End C.

(** Error numbers of linux/errno.h and the one LZO status the driver names
    (linux/lzo.h). *)
Definition ENOENT : Z := 2.
Definition EIO : Z := 5.
Definition ENOMEM : Z := 12.
Definition ENODEV : Z := 19.
Definition EINVAL : Z := 22.
Definition EFBIG : Z := 27.
Definition ENODATA : Z := 61.
Definition LZO_E_INPUT_NOT_CONSUMED : Z := -8.

(* ================================================================== *)
(** ** Bytes, buffers and pointers *)

Definition bytes := list byte.

Definition len (b : bytes) : Z := Z.of_nat (List.length b).

Definition byte_val (b : byte) : Z := Z.of_N (Byte.to_N b).

Inductive endian := LittleEndian | BigEndian.

(** The 32-bit value whose least significant byte is [b0]. *)
Definition word32 (b0 b1 b2 b3 : byte) : Z :=
  Z.lor (byte_val b0)
    (Z.lor (Z.shiftl (byte_val b1) 8)
       (Z.lor (Z.shiftl (byte_val b2) 16) (Z.shiftl (byte_val b3) 24))).

(** The 32-bit load through a [u32] pointer [p], in cpu byte order; [None]
    when fewer than four bytes of the allocation remain at [p]. *)
Definition load_u32 (e : endian) (p : bytes) : option Z :=
  match p with
  | b0 :: b1 :: b2 :: b3 :: _ =>
      Some (match e with
            | LittleEndian => word32 b0 b1 b2 b3
            | BigEndian => word32 b3 b2 b1 b0
            end)
  | _ => None
  end.

(** [p + k] for a byte pointer. *)
Definition ptr_add (p : bytes) (k : Z) : bytes := skipn (Z.to_nat k) p.

(** [dst] after [n] bytes of [src] are stored at [dst + dofs]; [None] when
    the read or the write leaves its allocation. *)
Definition blit (dst : bytes) (dofs : Z) (src : bytes) (n : Z) : option bytes :=
  if (0 <=? n) && (n <=? len src) && (0 <=? dofs) && (dofs + n <=? len dst)
  then Some (firstn (Z.to_nat dofs) dst ++ firstn (Z.to_nat n) src
             ++ skipn (Z.to_nat (dofs + n)) dst)
  else None.

(** The bytes a decoder produced, stored at the start of [dst]; the
    allocation keeps its size. *)
Definition deposit (written dst : bytes) : bytes :=
  firstn (List.length dst) written ++ skipn (List.length written) dst.

(** The [n] bytes at [p + ofs]; [None] when they are not all inside the
    allocation. *)
Definition read_bytes (p : bytes) (ofs n : Z) : option bytes :=
  if (0 <=? ofs) && (0 <=? n) && (ofs + n <=? len p)
  then Some (firstn (Z.to_nat n) (skipn (Z.to_nat ofs) p))
  else None.

(** A pointer that may be NULL is an optional buffer, as [kmalloc] returns
    it; through NULL no byte is accessible. *)
Definition pointee (p : option bytes) : bytes :=
  match p with
  | Some b => b
  | None => []
  end.

(** *** Text produced by the kernel's sprintf *)

Definition TAB : string := String "009"%char EmptyString.
Definition NL : string := String "010"%char EmptyString.

Definition strcat (l : list string) : string :=
  fold_right String.append EmptyString l.

Definition hex_digits : list ascii :=
  ["0"; "1"; "2"; "3"; "4"; "5"; "6"; "7";
   "8"; "9"; "a"; "b"; "c"; "d"; "e"; "f"]%char.

Definition hex_digit (n : Z) : ascii := nth (Z.to_nat n) hex_digits "0"%char.

(** The [digits] least significant hexadecimal digits of [v]: the
    conversions %02x and %08x of values that fit. *)
Fixpoint hex_of (digits : nat) (v : Z) : string :=
  match digits with
  | O => EmptyString
  | S k => String.append (hex_of k (v / 16))
             (String (hex_digit (v mod 16)) EmptyString)
  end.

(** The conversion %pM of six bytes. *)
Definition sprintf_pM (b0 b1 b2 b3 b4 b5 : byte) : string :=
  let h b := hex_of 2 (byte_val b) in
  let c := ":"%string in
  strcat [h b0; c; h b1; c; h b2; c; h b3; c; h b4; c; h b5].

(** Reading two hexadecimal digits back: the byte that [hex_of 2] prints
    as [t], if there is one. *)
Definition all_bytes : list byte :=
  flat_map (fun n => match Byte.of_N (N.of_nat n) with
                     | Some b => [b]
                     | None => []
                     end) (seq 0 256).

Definition unhex2 (t : string) : option byte :=
  find (fun b => String.eqb (hex_of 2 (byte_val b)) t) all_bytes.

(** Bit definitions for hardware options. *)
Definition BIT (n : Z) : Z := Z.shiftl 1 n.
Definition RB_HW_OPT_NO_UART : Z := BIT 0.
Definition RB_HW_OPT_HAS_VOLTAGE : Z := BIT 1.
Definition RB_HW_OPT_HAS_USB : Z := BIT 2.
Definition RB_HW_OPT_HAS_ATTINY : Z := BIT 3.
Definition RB_HW_OPT_PULSE_DUTY_CYCLE : Z := BIT 9.
Definition RB_HW_OPT_NO_NAND : Z := BIT 14.
Definition RB_HW_OPT_HAS_LCD : Z := BIT 15.
Definition RB_HW_OPT_HAS_POE_OUT : Z := BIT 16.
Definition RB_HW_OPT_HAS_uSD : Z := BIT 17.
Definition RB_HW_OPT_HAS_SIM : Z := BIT 18.
Definition RB_HW_OPT_HAS_SFP : Z := BIT 20.
Definition RB_HW_OPT_HAS_WIFI : Z := BIT 21.
Definition RB_HW_OPT_HAS_TS_FOR_ADC : Z := BIT 22.
Definition RB_HW_OPT_HAS_PLC : Z := BIT 29.

(** Array of known hw_options bits with human-friendly parsing. *)
Definition hc_hwopts : list (Z * string) :=
  [ (RB_HW_OPT_NO_UART, strcat ["no UART"; TAB; TAB]);
    (RB_HW_OPT_HAS_VOLTAGE, strcat ["has Vreg"; TAB]);
    (RB_HW_OPT_HAS_USB, strcat ["has usb"; TAB; TAB]);
    (RB_HW_OPT_HAS_ATTINY, strcat ["has ATtiny"; TAB]);
    (RB_HW_OPT_NO_NAND, strcat ["no NAND"; TAB; TAB]);
    (RB_HW_OPT_HAS_LCD, strcat ["has LCD"; TAB; TAB]);
    (RB_HW_OPT_HAS_POE_OUT, strcat ["has POE out"; TAB]);
    (RB_HW_OPT_HAS_uSD, strcat ["has MicroSD"; TAB]);
    (RB_HW_OPT_HAS_SIM, strcat ["has SIM"; TAB; TAB]);
    (RB_HW_OPT_HAS_SFP, strcat ["has SFP"; TAB; TAB]);
    (RB_HW_OPT_HAS_WIFI, strcat ["has WiFi"; TAB]);
    (RB_HW_OPT_HAS_TS_FOR_ADC, strcat ["has TS ADC"; TAB]);
    (RB_HW_OPT_HAS_PLC, strcat ["has PLC"; TAB; TAB]) ]%string.

(** For LZOR style WLAN data unpacking: the blob that is prepended to the
    data before LZO decompression. *)
Definition hc_lzor_prefix : bytes :=
  [
    x00; x05; x4c; x4c; x44; x00; x34; xfe;
    xfe; x34; x11; x3c; x1e; x3c; x2e; x3c;
    x4c; x34; x00; x52; x62; x92; xa2; xb2;
    xc3; x2a; x14; x00; x00; x05; xfe; x6a;
    x3c; x16; x32; x16; x11; x1e; x12; x46;
    x32; x46; x11; x4e; x12; x36; x32; x36;
    x11; x3e; x12; x5a; x9a; x64; x00; x04;
    xfe; x10; x3c; x00; x01; x00; x00; x28;
    x0c; x00; x0f; xfe; x14; x00; x24; x24;
    x23; x24; x24; x23; x25; x22; x21; x21;
    x23; x22; x21; x22; x21; x2d; x38; x00;
    x0c; x25; x25; x24; x25; x25; x24; x23;
    x22; x21; x20; x23; x21; x21; x22; x21;
    x2d; x38; x00; x28; xb0; x00; x00; x22;
    x00; x00; xc0; xfe; x03; x00; xc0; x00;
    x62; xff; x62; xff; xfe; x06; x00; xbb;
    xff; xba; xff; xfe; x08; x00; x9e; xff;
    xfe; x0a; x00; x53; xff; xfe; x02; x00;
    x20; xff; xb1; xfe; xfe; xb2; xfe; xfe;
    xed; xfe; xfe; xfe; x04; x00; x3a; xff;
    x3a; xff; xde; xfd; x5f; x04; x33; xff;
    x4c; x74; x03; x05; x05; xff; x6d; xfe;
    xfe; x6d; xfe; xfe; xaf; x08; x63; xff;
    x64; x6f; x08; xac; xff; xbf; x6d; x08;
    x7a; x6d; x08; x96; x74; x04; x00; x08;
    x79; xff; xda; xfe; xfe; xdb; xfe; xfe;
    x56; xff; xfe; x04; x00; x5e; xff; x5e;
    xff; x6c; xfe; xfe; xfe; x06; x00; x41;
    xff; x7f; x74; x03; x00; x11; x44; xff;
    xa9; xfe; xfe; xa9; xfe; xfe; xa5; x8f;
    x01; x00; x08; x01; x01; x02; x04; x08;
    x02; x04; x08; x08; x01; x01; xfe; x22;
    x00; x4c; x60; x64; x8c; x90; xd0; xd4;
    xd8; x5c; x10; x09; xd8; xff; xb0; xff;
    x00; x00; xba; xff; x14; x00; xba; xff;
    x64; x00; x00; x08; xfe; x06; x00; x74;
    xff; x42; xff; xce; xff; x60; xff; x0a;
    x00; xb4; x00; xa0; x00; xa0; xfe; x07;
    x00; x0a; x00; xb0; xff; x96; x4d; x00;
    x56; x57; x18; xa6; xff; x92; x70; x11;
    x00; x12; x90; x90; x76; x5a; x54; x54;
    x4c; x46; x38; x00; x10; x10; x08; xfe;
    x05; x00; x38; x29; x25; x23; x22; x22;
    x1f; x00; x00; x00; xf6; xe1; xdd; xf8;
    xfe; x00; xfe; x15; x00; x00; xd0; x02;
    x74; x02; x08; xf8; xe5; xde; x02; x04;
    x04; xfd; x00; x00; x00; x07; x50; x2d;
    x01; x90; x90; x76; x60; xb0; x07; x07;
    x0c; x0c; x04; xfe; x05; x00; x66; x66;
    x5a; x56; xbc; x01; x06; xfc; xfc; xf1;
    xfe; x07; x00; x24; x95; x70; x64; x18;
    x06; x2c; xff; xb5; xfe; xfe; xb5; xfe;
    xfe; xe2; x8c; x24; x02; x2f; xff; x2f;
    xff; xb4; x78; x02; x05; x73; xff; xed;
    xfe; xfe; x4f; xff; x36; x74; x1e; x09;
    x4f; xff; x50; xff; xfe; x16; x00; x70;
    xac; x70; x8e; xac; x40; x0e; x01; x70;
    x7f; x8e; xac; x6c; x00; x0b; xfe; x02;
    x00; xfe; x0a; x2c; x2a; x2a; x28; x26;
    x1e; x1e; xfe; x02; x20; x65; x20; x00;
    x00; x05; x12; x00; x11; x1e; x11; x11;
    x41; x1e; x41; x11; x31; x1e; x31; x11;
    x70; x75; x7a; x7f; x84; x89; x8e; x93;
    x98; x30; x20; x00; x02; x00; xfe; x06;
    x3c; xbc; x32; x0c; x00; x00; x2a; x12;
    x1e; x12; x2e; x12; xcc; x12; x11; x1a;
    x1e; x1a; x2e; x1a; x4c; x10; x1e; x10;
    x11; x18; x1e; x42; x1e; x42; x2e; x42;
    xcc; x42; x11; x4a; x1e; x4a; x2e; x4a;
    x4c; x40; x1e; x40; x11; x48; x1e; x32;
    x1e; x32; x2e; x32; xcc; x32; x11; x3a;
    x1e; x3a; x2e; x3a; x4c; x30; x1e; x30;
    x11; x38; x1e; x27; x9a; x01; x9d; xa2;
    x2f; x28; x00; x00; x46; xde; xc4; xbf;
    xa6; x9d; x81; x7b; x5c; x61; x40; xc7;
    xc0; xae; xa9; x8c; x83; x6a; x62; x50;
    x3e; xce; xc2; xae; xa3; x8c; x7b; x6a;
    x5a; x50; x35; xd7; xc2; xb7; xa4; x95;
    x7e; x72; x5a; x59; x37; xfe; x02; xf8;
    x8c; x95; x90; x8f; x00; xd7; xc0; xb7;
    xa2; x95; x7b; x72; x56; x59; x32; xc7;
    xc3; xae; xad; x8c; x85; x6a; x63; x50;
    x3e; xce; xc3; xae; xa4; x8c; x7c; x6a;
    x59; x50; x34; xd7; xc2; xb7; xa5; x95;
    x7e; x72; x59; x59; x36; xfc; x05; x00;
    x02; xce; xc5; xae; xa5; x95; x83; x72;
    x5c; x59; x36; xbf; xc6; xa5; xab; x8c;
    x8c; x6a; x67; x50; x41; x64; x07; x00;
    x02; x95; x8c; x72; x65; x59; x3f; xce;
    xc7; xae; xa8; x95; x86; x72; x5f; x59;
    x39; xfe; x02; xf8; x8b; x7c; x0b; x09;
    xb7; xc2; x9d; xa4; x83; x85; x6a; x6b;
    x50; x44; xb7; xc1; x64; x01; x00; x06;
    x61; x5d; x48; x3d; xae; xc4; x9d; xad;
    x7b; x85; x61; x66; x48; x46; xae; xc3;
    x95; xa3; x72; x7c; x59; x56; x38; x31;
    x7c; x0b; x00; x0c; x96; x91; x8f; x00;
    xb7; xc0; xa5; xab; x8c; x8a; x6a; x64;
    x50; x3c; xb7; xc0; x9d; xa0; x83; x80;
    x6a; x64; x50; x3d; xb7; xc5; x9d; xa5;
    x83; x87; x6c; x08; x07; xae; xc0; x9d;
    xa8; x83; x88; x6a; x6d; x50; x46; xfc;
    x05; x00; x16; xbf; xc0; xa5; xa2; x8c;
    x7f; x6a; x57; x50; x2f; xb7; xc7; xa5;
    xb1; x8c; x8e; x72; x6d; x59; x45; xbf;
    xc6; xa5; xa8; x8c; x87; x6a; x5f; x50;
    x37; xbf; xc2; xa5; xa4; x8c; x83; x6a;
    x5c; x50; x34; xbc; x05; x00; x0e; x90;
    x00; xc7; xc2; xae; xaa; x95; x82; x7b;
    x60; x61; x3f; xb7; xc6; xa5; xb1; x8c;
    x8d; x72; x6b; x61; x51; xbf; xc4; xa5;
    xa5; x8c; x82; x72; x61; x59; x39; x6c;
    x26; x03; x95; x82; x7b; x61; x61; x40;
    xfc; x05; x00; x00; x7e; xd7; xc3; xb7;
    xa8; x9d; x80; x83; x5d; x6a; x3f; xbf;
    xc7; xa5; xa8; x8c; x84; x72; x60; x61;
    x46; xbf; xc2; xae; xb0; x9d; x92; x83;
    x6f; x6a; x50; xd7; xc3; xb7; xa7; x9d;
    x80; x83; x5e; x6a; x40; xfe; x02; xf8;
    x8d; x96; x90; x90; xfe; x05; x00; x8a;
    xc4; x63; xb8; x3c; xa6; x29; x97; x16;
    x81; x84; xb7; x5b; xa9; x33; x94; x1e;
    x83; x11; x70; xb8; xc2; x70; xb1; x4d;
    xa3; x2a; x8d; x1b; x7b; xa8; xbc; x68;
    xab; x47; x9d; x27; x87; x18; x75; xae;
    xc6; x7d; xbb; x4d; xaa; x1c; x84; x11;
    x72; xa3; xbb; x6e; xad; x3c; x97; x24;
    x85; x16; x71; x80; xb2; x57; xa4; x30;
    x8e; x1c; x7c; x10; x68; xbb; xbd; x75;
    xac; x4f; x9e; x2b; x87; x1a; x76; x96;
    xc5; x5e; xb5; x3e; xa5; x1f; x8c; x12;
    x7a; xc1; xc6; x42; x9f; x27; x8c; x16;
    x77; x0f; x67; x9d; xbc; x68; xad; x36;
    x95; x20; x83; x11; x6d; x9b; xb8; x67;
    xa8; x34; x90; x1f; x7c; x10; x67; x9e;
    xc9; x6a; xbb; x37; xa4; x20; x90; x11;
    x7b; xc6; xc8; x47; xa4; x2a; x90; x18;
    x7b; x10; x6c; xae; xc4; x5d; xad; x37;
    x9a; x1f; x85; x13; x75; x70; xad; x42;
    x99; x25; x84; x17; x74; x0b; x56; x87;
    xc8; x57; xb8; x2b; x9e; x19; x8a; x0d;
    x74; xa7; xc8; x6e; xb9; x36; xa0; x1f;
    x8b; x11; x75; x94; xbe; x4b; xa5; x2a;
    x92; x18; x7c; x0f; x6b; xaf; xc0; x58;
    xa8; x34; x94; x1d; x7d; x12; x6d; x82;
    xc0; x52; xb0; x25; x94; x14; x7f; x0c;
    x68; x84; xbf; x3e; xa4; x22; x8e; x10;
    x76; x0b; x65; x88; xb6; x42; x9b; x26;
    x87; x14; x70; x0c; x5f; xc5; xc2; x3e;
    x97; x23; x83; x13; x6c; x0c; x5c; xb1;
    xc9; x76; xbc; x4a; xaa; x20; x8d; x12;
    x78; x93; xbf; x46; xa3; x26; x8d; x14;
    x74; x0c; x62; xc8; xc4; x3b; x97; x21;
    x82; x11; x6a; x0a; x59; xa3; xb9; x68;
    xa9; x30; x8d; x1a; x78; x0f; x61; xa0;
    xc9; x73; xbe; x50; xb1; x30; x9f; x14;
    x80; x83; xb7; x3c; x9a; x20; x84; x0e;
    x6a; x0a; x57; xac; xc2; x68; xb0; x2e;
    x92; x19; x7c; x0d; x63; x93; xbe; x62;
    xb0; x3c; x9e; x1a; x80; x0e; x6b; xbb;
    x02; xa0; x02; xa0; x02; x6f; x00; x75;
    x00; x75; x00; x00; x00; xad; x02; xb3;
    x02; x6f; x00; x87; x00; x85; xfe; x03;
    x00; xc2; x02; x82; x4d; x92; x6e; x4d;
    xb1; xa8; x84; x01; x00; x07; x7e; x00;
    xa8; x02; xa4; x02; xa4; x02; xa2; x00;
    xa6; x00; xa6; x00; x00; x00; xb4; x02;
    xb4; x02; x92; x00; x96; x00; x96; x46;
    x04; xb0; x02; x64; x02; x0a; x8c; x00;
    x90; x02; x98; x02; x98; x02; x0e; x01;
    x11; x01; x11; x50; xc3; x08; x88; x02;
    x88; x02; x19; x01; x02; x01; x02; x01;
    xf3; x2d; x00; x00
  ]%byte.

Definition sizeof_hc_lzor_prefix : Z := Eval cbv in len hc_lzor_prefix.

(* ================================================================== *)
(** ** Execution monad *)

(** The renderers an attribute can name in its [tshow] field. *)
Inductive tshow_fn := Show_string | Show_u32s | Show_mac | Show_hwoptions.

(** What a run leaves in the call log. *)
Inductive event :=
| EvKmalloc (size : Z)
| EvKfree
| EvStore (dst_ofs n : Z)               (* memcpy into the output buffer *)
| EvLoad32 (ofs : Z)                    (* 32-bit load from the scratch buffer *)
| EvLzo (src : bytes) (src_len dst_cap : Z)
| EvRle (src : bytes) (src_len dst_cap : Z)
| EvTagFind (buf : bytes) (buflen tag_id : Z)
| EvTshow (f : tshow_fn) (pld : bytes) (pld_len : Z)
| EvUnpack (tofs tlen : Z)              (* entry of hc_wlan_data_unpack *)
| EvSysfsFile (name : option string)    (* sysfs_create_file *)
| EvSysfsBinFile (name : string).       (* sysfs_create_bin_file *)

Record kstate := { klog : list event; kallocs : nat }.

Inductive outcome (A : Type) :=
| Returns (a : A) (s : kstate)
| Crashes (s : kstate)      (* access outside an allocation, NULL pointer *)
| Hangs (s : kstate).       (* a loop that does not end *)
Arguments Returns {A} a s.
Arguments Crashes {A} s.
Arguments Hangs {A} s.

Definition M (A : Type) : Type := kstate -> outcome A.

Definition pure {A} (a : A) : M A := fun s => Returns a s.

Definition bind {A B} (c : M A) (k : A -> M B) : M B :=
  fun s =>
    match c s with
    | Returns a s' => k a s'
    | Crashes s' => Crashes s'
    | Hangs s' => Hangs s'
    end.

Definition crash {A} : M A := fun s => Crashes s.

Definition record (es : list event) (s : kstate) : kstate :=
  {| klog := klog s ++ es; kallocs := kallocs s |}.

Definition emit (e : event) : M unit := fun s => Returns tt (record [e] s).

Definition outcome_state {A} (o : outcome A) : kstate :=
  match o with
  | Returns _ s => s
  | Crashes s => s
  | Hangs s => s
  end.

(** What a run from [s] adds to the call log. *)
Definition events_of {A} (c : M A) (s : kstate) : list event :=
  skipn (List.length (klog s)) (klog (outcome_state (c s))).

Definition is_tag_find (e : event) : bool :=
  match e with EvTagFind _ _ _ => true | _ => false end.

(** Calls of the decompressor and of the run-length decoder: the events
    that read an embedded payload. *)
Definition is_decode (e : event) : bool :=
  match e with EvLzo _ _ _ | EvRle _ _ _ => true | _ => false end.

Definition is_kmalloc (e : event) : bool :=
  match e with EvKmalloc _ => true | _ => false end.

Definition is_kfree (e : event) : bool :=
  match e with EvKfree => true | _ => false end.

(** The sysfs files a run creates. *)
Definition is_sysfs (e : event) : bool :=
  match e with EvSysfsFile _ | EvSysfsBinFile _ => true | _ => false end.

(** The accesses the driver makes itself: the copies into the output
    buffer and the loads of the search.  What the decoders of the
    environment read and write is theirs. *)
Definition is_access (e : event) : bool :=
  match e with EvStore _ _ | EvLoad32 _ => true | _ => false end.

(** How often a run allocates, and how often it frees. *)
Definition allocations (es : list event) : nat :=
  List.length (filter is_kmalloc es).

Definition releases (es : list event) : nat :=
  List.length (filter is_kfree es).

Declare Scope kmonad_scope.
Delimit Scope kmonad_scope with kmonad.
Notation "x <- c ;; k" := (bind c (fun x => k))
  (at level 61, c at next level, right associativity) : kmonad_scope.
Notation "' pat <- c ;; k" := (bind c (fun x => match x with pat => k end))
  (at level 61, pat pattern, c at next level, right associativity) : kmonad_scope.
Local Open Scope kmonad_scope.

(* ================================================================== *)
(** ** The environment of the driver *)

(** An MTD partition: its size and what [mtd_read] of the whole of it
    gives (status, bytes read, data). *)
Record mtd_info := {
  mtd_size : Z;
  mtd_read_fn : Z * Z * bytes
}.

Record externals := {
  (* routerboot.h *)
  RB_MAGIC_HARD : Z;
  RB_MAGIC_ERD : Z;
  RB_MAGIC_LZOR : Z;
  RB_ART_SIZE : Z;
  (* routerboot.c: status, payload offset, payload length *)
  routerboot_tag_find_fn : bytes -> Z -> Z -> Z * Z * Z;
  (* routerboot.c: status, bytes produced, output length *)
  routerboot_rle_decode_fn : bytes -> Z -> Z -> Z * bytes * Z;
  routerboot_tag_show_string_fn : bytes -> Z -> Z * string;
  routerboot_tag_show_u32s_fn : bytes -> Z -> Z * string;
  (* lib/lzo: status, bytes produced, output length *)
  lzo1x_decompress_safe_fn : bytes -> Z -> Z -> Z * bytes * Z;
  (* the allocator: for the n-th request of a size, NULL or the bytes that
     happen to be in the block *)
  kmalloc_fn : nat -> Z -> option (nat -> byte);
  get_mtd_device_nm_fn : option mtd_info;
  kobject_create_and_add_fn : bool
}.

(** ID values for hardware settings. *)
Definition RB_ID_FLASH_INFO : Z := 0x03.
Definition RB_ID_MAC_ADDRESS_PACK : Z := 0x04.
Definition RB_ID_BOARD_PRODUCT_CODE : Z := 0x05.
Definition RB_ID_BIOS_VERSION : Z := 0x06.
Definition RB_ID_SDRAM_TIMINGS : Z := 0x08.
Definition RB_ID_DEVICE_TIMINGS : Z := 0x09.
Definition RB_ID_SOFTWARE_ID : Z := 0x0A.
Definition RB_ID_SERIAL_NUMBER : Z := 0x0B.
Definition RB_ID_MEMORY_SIZE : Z := 0x0D.
Definition RB_ID_MAC_ADDRESS_COUNT : Z := 0x0E.
Definition RB_ID_HW_OPTIONS : Z := 0x15.
Definition RB_ID_WLAN_DATA : Z := 0x16.
Definition RB_ID_BOARD_IDENTIFIER : Z := 0x17.
Definition RB_ID_PRODUCT_NAME : Z := 0x21.
Definition RB_ID_DEFCONF : Z := 0x26.
Definition RB_ID_BOARD_REVISION : Z := 0x27.

(** [struct hc_attr]; [kattr] is the name of the sysfs file. *)
Record hc_attr := {
  tag_id : Z;
  tshow : option tshow_fn;
  kattr : option string;
  pld_ofs : Z;
  pld_len : Z
}.

(** [struct hc_wlan_attr]. *)
Record hc_wlan_attr := {
  wpld_ofs : Z;
  wpld_len : Z
}.

(** The file-scope variables of the driver. *)
Record driver := {
  hc_buf : bytes;
  hc_buflen : Z;
  hc_attrs : list hc_attr;
  hc_wlandata_battr : hc_wlan_attr
}.

Definition attr (id : Z) (f : option tshow_fn) (name : option string) : hc_attr :=
  {| tag_id := id; tshow := f; kattr := name; pld_ofs := 0; pld_len := 0 |}.

(** Array of known tags to publish in sysfs. *)
Definition hc_attrs_init : list hc_attr :=
  [ attr RB_ID_FLASH_INFO (Some Show_u32s) (Some "flash_info"%string);
    attr RB_ID_MAC_ADDRESS_PACK (Some Show_mac) (Some "mac_base"%string);
    attr RB_ID_BOARD_PRODUCT_CODE (Some Show_string) (Some "board_product_code"%string);
    attr RB_ID_BIOS_VERSION (Some Show_string) (Some "booter_version"%string);
    attr RB_ID_SERIAL_NUMBER (Some Show_string) (Some "board_serial"%string);
    attr RB_ID_MEMORY_SIZE (Some Show_u32s) (Some "mem_size"%string);
    attr RB_ID_MAC_ADDRESS_COUNT (Some Show_u32s) (Some "mac_count"%string);
    attr RB_ID_HW_OPTIONS (Some Show_hwoptions) (Some "hw_options"%string);
    attr RB_ID_WLAN_DATA None None;
    attr RB_ID_BOARD_IDENTIFIER (Some Show_string) (Some "board_identifier"%string);
    attr RB_ID_PRODUCT_NAME (Some Show_string) (Some "product_name"%string);
    attr RB_ID_DEFCONF (Some Show_string) (Some "defconf"%string);
    attr RB_ID_BOARD_REVISION (Some Show_string) (Some "board_revision"%string) ].

Definition hc_wlandata_battr_init : hc_wlan_attr :=
  {| wpld_ofs := 0; wpld_len := 0 |}.

(* ================================================================== *)
(** ** A small environment to run the driver on

    Stand-ins for the code and the constants that are not in this file,
    used by the examples only; the theorems are proved for every
    environment. *)

Module Sample.

Definition MAGIC_HARD : Z := 0x64726148.
Definition MAGIC_ERD : Z := 0x00455244.
Definition MAGIC_LZOR : Z := 0x524F5A4C.
Definition ART_SIZE : Z := 0x10000.

Definition take (n : Z) (p : bytes) : bytes :=
  firstn (Z.to_nat (Z.min n (len p))) p.

(** Stand-in for routerboot_tag_find: the region is a sequence of records,
    each a 16-bit identifier, a 16-bit payload length (least significant
    byte first) and the payload; the first record of the wanted identifier
    is reported, as the offset and the length of its payload. *)
Fixpoint tag_scan (fuel : nat) (region : bytes) (pos id : Z) : Z * Z * Z :=
  match fuel with
  | O => (- ENOENT, 0, 0)
  | S fuel' =>
      match region with
      | i0 :: i1 :: l0 :: l1 :: payload =>
          let rid := byte_val i0 + 256 * byte_val i1 in
          let rlen := byte_val l0 + 256 * byte_val l1 in
          if rid =? id then (0, pos + 4, rlen)
          else tag_scan fuel' (skipn (Z.to_nat rlen) payload) (pos + 4 + rlen) id
      | _ => (- ENOENT, 0, 0)
      end
  end.

Definition tag_find (buf : bytes) (buflen id : Z) : Z * Z * Z :=
  let region := take buflen buf in
  tag_scan (List.length region) region 0 id.

(** Stand-in for routerboot_rle_decode: the input is a sequence of (value,
    count) pairs. *)
Fixpoint rle_expand (src : bytes) : option bytes :=
  match src with
  | [] => Some []
  | v :: c :: rest =>
      option_map (app (repeat v (Z.to_nat (byte_val c)))) (rle_expand rest)
  | _ => None
  end.

Definition rle_decode (src : bytes) (src_len cap : Z) : Z * bytes * Z :=
  match rle_expand (take src_len src) with
  | Some out =>
      if len out <=? cap then (0, out, len out) else (- EINVAL, [], cap)
  | None => (- EINVAL, [], cap)
  end.

Definition bytes_eqb (a b : bytes) : bool :=
  (List.length a =? List.length b)%nat
  && forallb (fun ab : byte * byte => Byte.eqb (fst ab) (snd ab)) (combine a b).

Definition LZO_E_INPUT_OVERRUN : Z := -4.
Definition LZO_E_OUTPUT_OVERRUN : Z := -5.

(** Stand-in for lzo1x_decompress_safe: past the dictionary, when the input
    starts with it, a stream is a count followed by that many literal
    bytes. *)
Definition unstore (src : bytes) (src_len cap : Z) : Z * bytes * Z :=
  let input := take src_len src in
  let dict := List.length hc_lzor_prefix in
  let input :=
    if bytes_eqb (firstn dict input) hc_lzor_prefix then skipn dict input
    else input in
  match input with
  | [] => (LZO_E_INPUT_OVERRUN, [], 0)
  | n :: rest =>
      let k := byte_val n in
      if k >? cap then (LZO_E_OUTPUT_OVERRUN, [], 0)
      else if len rest <? k then (LZO_E_INPUT_OVERRUN, rest, len rest)
      else ((if len rest =? k then 0 else LZO_E_INPUT_NOT_CONSUMED),
            firstn (Z.to_nat k) rest, k)
  end.

Definition show_string (pld : bytes) (pld_len : Z) : Z * string :=
  let out := String.append (string_of_list_byte (take pld_len pld)) NL in
  (Z.of_nat (String.length out), out).

(** The environment in which the partition holds [flash] and every block
    the allocator hands out holds [stale]. *)
Definition env (flash stale : bytes) (art_size : Z) : externals :=
  {| RB_MAGIC_HARD := MAGIC_HARD;
     RB_MAGIC_ERD := MAGIC_ERD;
     RB_MAGIC_LZOR := MAGIC_LZOR;
     RB_ART_SIZE := art_size;
     routerboot_tag_find_fn := tag_find;
     routerboot_rle_decode_fn := rle_decode;
     routerboot_tag_show_string_fn := show_string;
     routerboot_tag_show_u32s_fn := fun _ _ => (0, EmptyString);
     lzo1x_decompress_safe_fn := unstore;
     kmalloc_fn := fun _ _ => Some (fun i => nth i stale x00%byte);
     get_mtd_device_nm_fn :=
       Some {| mtd_size := len flash; mtd_read_fn := (0, len flash, flash) |};
     kobject_create_and_add_fn := true |}.

Definition hard : bytes := [x48; x61; x72; x64]%byte.

Definition mac_record : bytes :=
  [x04; x00; x08; x00; x00; x0c; x42; xaa; xbb; xcc; x00; x00]%byte.

Definition hwopt_record : bytes :=
  [x15; x00; x04; x00; x05; x00; x20; x00]%byte.

(** A board revision record with an empty payload. *)
Definition empty_record : bytes := [x27; x00; x00; x00]%byte.

(** Calibration data stored run-length encoded. *)
Definition wlan_raw : bytes :=
  [x16; x00; x08; x00; xa5; x03; x5a; x02; x00; x01; xff; x02]%byte.

(** Calibration data behind RB_MAGIC_ERD: an embedded record of id 1 that
    holds a stream of four literal bytes. *)
Definition wlan_erd : bytes :=
  [x16; x00; x0d; x00; x44; x52; x45; x00;
   x01; x00; x05; x00; x04; xde; xad; xbe; xef]%byte.

(** Calibration data behind RB_MAGIC_LZOR: a stream of 16 literal bytes, in
    which RB_MAGIC_ERD is the second word and a record of id 1 follows,
    then three bytes of padding. *)
Definition wlan_lzor : bytes :=
  [x16; x00; x18; x00; x4c; x5a; x4f; x52;
   x10; x01; x02; x03; x04; x44; x52; x45; x00;
   x01; x00; x04; x00; xa5; x02; x5a; x02;
   x00; x00; x00]%byte.

(** The same, with a count that the stream does not honour. *)
Definition wlan_lzor_short : bytes :=
  [x16; x00; x08; x00; x4c; x5a; x4f; x52; x10; x01; x02; x03]%byte.

Definition flash (wlan : bytes) : bytes :=
  hard ++ mac_record ++ hwopt_record ++ empty_record ++ wlan.

Definition boot : kstate := {| klog := []; kallocs := 0 |}.

End Sample.

(* ================================================================== *)
(** ** The driver *)

Section Driver.

Variable arch : C.arch.
Variable cpu : endian.
Variable X : externals.

(** *** Calls into the environment *)

Definition kmalloc (size : Z) : M (option bytes) :=
  fun s =>
    Returns
      (option_map (fun block => map block (seq 0 (Z.to_nat size)))
         (kmalloc_fn X (kallocs s) size))
      {| klog := klog s ++ [EvKmalloc size]; kallocs := S (kallocs s) |}.

Definition kfree : M unit := emit EvKfree.

(** [memcpy(outbuf + dofs, src, n)]. *)
Definition memcpy (outbuf : bytes) (dofs : Z) (src : bytes) (n : Z) : M bytes :=
  _ <- emit (EvStore dofs n) ;;
  match blit outbuf dofs src n with
  | Some outbuf' => pure outbuf'
  | None => crash
  end.

(** The results come back through [u16] objects. *)
Definition routerboot_tag_find (buf : bytes) (buflen id : Z) : M (Z * Z * Z) :=
  _ <- emit (EvTagFind buf buflen id) ;;
  let '(ret, ofs, n) := routerboot_tag_find_fn X buf buflen id in
  pure (C.int ret, C.u16 ofs, C.u16 n).

Definition lzo1x_decompress_safe (src : bytes) (src_len : Z)
    (dst : bytes) (dst_len : Z) : M (Z * bytes * Z) :=
  _ <- emit (EvLzo src src_len dst_len) ;;
  let '(ret, written, out_len) := lzo1x_decompress_safe_fn X src src_len dst_len in
  pure (C.int ret, deposit written dst, C.size_t arch out_len).

Definition routerboot_rle_decode (src : bytes) (src_len : Z)
    (dst : bytes) (dst_len : Z) : M (Z * bytes * Z) :=
  _ <- emit (EvRle src src_len dst_len) ;;
  let '(ret, written, out_len) := routerboot_rle_decode_fn X src src_len dst_len in
  pure (C.int ret, deposit written dst, C.size_t arch out_len).

(** *** hc_wlan_data_unpack_erd *)

(** If the RB_ID_WLAN_DATA payload starts with RB_MAGIC_ERD, then past that
    magic number the payload itself contains a routerboot tag node locating
    the LZO-compressed calibration data at id 0x1.
    The result is the status with the output buffer and [*outlen]. *)
Definition hc_wlan_data_unpack_erd (inbuf : bytes) (inlen : Z)
    (outbuf : bytes) (outlen : Z) : M (Z * bytes * Z) :=
  (* Find embedded tag *)
  '(ret, lzo_ofs, lzo_len) <- routerboot_tag_find inbuf inlen 0x1 ;;
  if negb (ret =? 0) then pure (ret, outbuf, outlen)
  else if lzo_len >? inlen then pure (C.int (- EINVAL), outbuf, outlen)
  else lzo1x_decompress_safe (ptr_add inbuf lzo_ofs) lzo_len outbuf outlen.

(** *** The search for RB_MAGIC_ERD in the decompressed blob *)

Inductive scan_result :=
| ScanFound (needle : Z)     (* loop left with [needle] just past the magic *)
| ScanNotFound               (* ret = -ENODATA; goto fail *)
| ScanStray.                 (* the load left the allocation *)

(** One evaluation of [RB_MAGIC_ERD != *needle++] and, when it holds, of
    the loop body.  [needle] is the offset of the pointer from [tempbuf];
    [inr] is the pointer of the next iteration. *)
Definition needle_step (tempbuf : bytes) (templen needle : Z) : scan_result + Z :=
  match load_u32 cpu (ptr_add tempbuf needle) with
  | None => inl ScanStray
  | Some w =>
      let needle' := needle + 4 in
      if C.u32 (RB_MAGIC_ERD X) =? w then inl (ScanFound needle')
      else if needle' >=? templen then inl ScanNotFound
      else inr needle'
  end.

(** The loop, for at most [fuel] iterations, with the offsets it loaded
    from; [None] when the iterations do not suffice. *)
Fixpoint needle_loop (fuel : nat) (tempbuf : bytes) (templen needle : Z)
  : option (scan_result * list Z) :=
  match fuel with
  | O => None
  | S fuel' =>
      match needle_step tempbuf templen needle with
      | inl r => Some (r, [needle])
      | inr needle' =>
          match needle_loop fuel' tempbuf templen needle' with
          | Some (r, probes) => Some (r, needle :: probes)
          | None => None
          end
      end
  end.

Definition scan_fuel (templen : Z) : nat := S (Z.to_nat (templen / 4)).

Definition needle_scan (tempbuf : bytes) (templen : Z) : M scan_result :=
  fun s =>
    match needle_loop (scan_fuel templen) tempbuf templen 0 with
    | None => Hangs s
    | Some (ScanStray, probes) => Crashes (record (map EvLoad32 probes) s)
    | Some (r, probes) => Returns r (record (map EvLoad32 probes) s)
    end.

(** *** hc_wlan_data_unpack_lzor *)

(** The second half of [hc_wlan_data_unpack_lzor], from the search for the
    magic number to the label [fail]: [tempbuf] holds the decompressed blob,
    [templen] is its length as the decompressor stored it. *)
Definition lzor_after_decompress (tempbuf : bytes) (templen : Z)
    (outbuf : bytes) (outlen : Z) : M (Z * bytes * Z) :=
  found <- needle_scan tempbuf templen ;;
  match found with
  | ScanFound needle =>
      let templen := C.size_t arch (templen - needle) in
      (* Past magic. Look for tag node *)
      '(ret, rle_ofs, rle_len) <-
        routerboot_tag_find (ptr_add tempbuf needle) templen 0x1 ;;
      if negb (ret =? 0) then
        _ <- kfree ;; pure (ret, outbuf, outlen)
      else if rle_len >? templen then
        _ <- kfree ;; pure (C.int (- EINVAL), outbuf, outlen)
      else
        (* RLE-decode tempbuf from needle back into the outbuf *)
        '(ret, outbuf, outlen) <-
          routerboot_rle_decode (ptr_add tempbuf (needle + rle_ofs))
            rle_len outbuf outlen ;;
        _ <- kfree ;; pure (ret, outbuf, outlen)
  | _ =>
      _ <- kfree ;; pure (C.int (- ENODATA), outbuf, outlen)
  end.

(** If the RB_ID_WLAN_DATA payload starts with RB_MAGIC_LZOR, then past that
    magic number is a payload that must be appended to the hc_lzor_prefix,
    the resulting blob is LZO-compressed. In the LZO decompression result,
    the RB_MAGIC_ERD magic number (aligned) must be located. Following that
    magic, there is a routerboot tag node (id 0x1) locating the RLE-encoded
    calibration data payload. *)
Definition hc_wlan_data_unpack_lzor (inbuf : bytes) (inlen : Z)
    (outbuf : option bytes) (outlen : Z) : M (Z * bytes * Z) :=
  let lzo_len := C.size_t arch (inlen + sizeof_hc_lzor_prefix) in
  if lzo_len >? outlen then pure (C.int (- EFBIG), pointee outbuf, outlen)
  else
    (* Temporary buffer same size as the outbuf *)
    let templen := outlen in
    tempbuf <- kmalloc templen ;;
    match outbuf with
    | None =>
        (* the test that follows the allocation is on outbuf, not on
           tempbuf: this return leaves the block allocated *)
        pure (C.int (- ENOMEM), pointee outbuf, outlen)
    | Some outbuf =>
        (* Concatenate into the outbuf *)
        outbuf <- memcpy outbuf 0 hc_lzor_prefix sizeof_hc_lzor_prefix ;;
        outbuf <- memcpy outbuf sizeof_hc_lzor_prefix inbuf inlen ;;
        match tempbuf with
        | None =>                (* the decompressor stores through NULL *)
            _ <- emit (EvLzo outbuf lzo_len templen) ;; crash
        | Some tempbuf =>
            (* LZO-decompress lzo_len bytes of outbuf into the tempbuf *)
            '(ret, tempbuf, templen) <-
              lzo1x_decompress_safe outbuf lzo_len tempbuf templen ;;
            if negb (ret =? 0) && negb (LZO_E_INPUT_NOT_CONSUMED =? ret) then
              (* LZOR: LZO decompression error *)
              _ <- kfree ;; pure (ret, outbuf, outlen)
            else
              (* success, or LZO EOF before buffer end - this may be
                 harmless *)
              lzor_after_decompress tempbuf templen outbuf outlen
        end
    end.

(** *** hc_wlan_data_unpack *)

Definition load32 (p : bytes) : M Z :=
  match load_u32 cpu p with
  | Some w => pure w
  | None => crash
  end.

(** [outbuf] is an allocated buffer: the function does not test it, and
    [hc_wlan_data_bin_read] tests its allocation before the call. *)
Definition hc_wlan_data_unpack (d : driver) (tofs tlen : Z)
    (outbuf : bytes) (outlen : Z) : M (Z * bytes * Z) :=
  _ <- emit (EvUnpack tofs tlen) ;;
  (* Caller ensure tlen > 0. tofs is aligned *)
  if C.size_t arch (tofs + tlen) >? hc_buflen d then
    pure (C.int (- EIO), outbuf, outlen)
  else
    let lbuf := ptr_add (hc_buf d) tofs in
    magic <- load32 lbuf ;;
    if magic =? C.u32 (RB_MAGIC_LZOR X) then
      (* Skip magic *)
      let lbuf := ptr_add lbuf 4 in
      let tlen := C.size_t arch (tlen - 4) in
      hc_wlan_data_unpack_lzor lbuf tlen (Some outbuf) outlen
    else if magic =? C.u32 (RB_MAGIC_ERD X) then
      (* Skip magic *)
      let lbuf := ptr_add lbuf 4 in
      let tlen := C.size_t arch (tlen - 4) in
      hc_wlan_data_unpack_erd lbuf tlen outbuf outlen
    else
      (* the payload itself is the raw RLE-encoded calibration data *)
      routerboot_rle_decode lbuf tlen outbuf outlen.

(** *** The attribute renderers *)

(** The MAC is stored network-endian on all devices, in 2 32-bit segments:
    <XX:XX:XX:XX> <XX:XX:00:00>. Kernel print has us covered.
    The result is the status with the text stored in [buf]. *)
Definition hc_tag_show_mac (pld : bytes) (pld_len : Z) : M (Z * string) :=
  if negb (8 =? pld_len) then pure (- EINVAL, EmptyString)
  else
    match pld with
    | b0 :: b1 :: b2 :: b3 :: b4 :: b5 :: _ =>
        let out := String.append (sprintf_pM b0 b1 b2 b3 b4 b5) NL in
        pure (Z.of_nat (String.length out), out)
    | _ => crash
    end.

(** Print HW options in a human readable way: the raw number and in decoded
    form. *)
Definition hc_tag_show_hwoptions (pld : bytes) (pld_len : Z) : M (Z * string) :=
  if negb (4 =? pld_len) then pure (- EINVAL, EmptyString)
  else
    match load_u32 cpu pld with
    | None => crash
    | Some data =>
        let out :=
          String.append
            (strcat ["raw"; TAB; TAB; ": 0x"; hex_of 8 data; NL; NL]%string)
            (strcat
               (map (fun o : Z * string =>
                       strcat [snd o; ": ";
                               if negb (Z.eqb (Z.land data (fst o)) 0)
                               then "true" else "false";
                               NL]%string)
                  hc_hwopts)) in
        pure (Z.of_nat (String.length out), out)
    end.

(** The call [hc_attr->tshow(pld, pld_len, buf)]. *)
Definition tshow_call (f : option tshow_fn) (pld : bytes) (pld_len : Z)
  : M (Z * string) :=
  match f with
  | None => crash                       (* .tshow = NULL *)
  | Some f =>
      _ <- emit (EvTshow f pld pld_len) ;;
      match f with
      | Show_string =>
          let '(ret, out) := routerboot_tag_show_string_fn X pld pld_len in
          pure (C.ssize_t arch ret, out)
      | Show_u32s =>
          let '(ret, out) := routerboot_tag_show_u32s_fn X pld pld_len in
          pure (C.ssize_t arch ret, out)
      | Show_mac => hc_tag_show_mac pld pld_len
      | Show_hwoptions => hc_tag_show_hwoptions pld pld_len
      end
  end.

(** *** hc_attr_show *)

Definition hc_attr_show (d : driver) (hc_attr : hc_attr) : M (Z * string) :=
  if pld_len hc_attr =? 0 then pure (- ENOENT, EmptyString)
  else
    let pld := ptr_add (hc_buf d) (pld_ofs hc_attr) in
    let pld_len := pld_len hc_attr in
    tshow_call (tshow hc_attr) pld pld_len.

(** *** hc_wlan_data_bin_read *)

(** This function will allocate and free memory every time it is called.
    The result is the status with the bytes stored in [buf]. *)
Definition hc_wlan_data_bin_read (d : driver) (off count : Z) : M (Z * bytes) :=
  let hc_wattr := hc_wlandata_battr d in
  if wpld_len hc_wattr =? 0 then pure (- ENOENT, [])
  else
    let outlen := C.size_t arch (RB_ART_SIZE X) in
    (* Don't bother unpacking if the source is already too large *)
    if wpld_len hc_wattr >? outlen then pure (- EFBIG, [])
    else
      outbuf <- kmalloc outlen ;;
      match outbuf with
      | None => pure (- ENOMEM, [])
      | Some outbuf =>
          '(ret, outbuf, outlen) <-
            hc_wlan_data_unpack d (wpld_ofs hc_wattr) (wpld_len hc_wattr)
              outbuf outlen ;;
          if negb (ret =? 0) then
            _ <- kfree ;; pure (ret, [])
          else if C.loff_size arch off >=? outlen then
            _ <- kfree ;; pure (0, [])
          else
            let count :=
              if C.loff_size arch (off + count) >? outlen
              then C.size_t arch (outlen - off) else count in
            match read_bytes outbuf off count with
            | None => crash
            | Some data => _ <- kfree ;; pure (C.ssize_t arch count, data)
            end
      end.

(** *** rb_hardconfig_init *)

Definition set_pld (a : hc_attr) (ofs n : Z) : hc_attr :=
  {| tag_id := tag_id a; tshow := tshow a; kattr := kattr a;
     pld_ofs := ofs; pld_len := n |}.

(** One iteration of the loop that locates and publishes all known tags. *)
Definition locate (buf : bytes) (buflen : Z) (a : hc_attr) (w : hc_wlan_attr)
  : M (hc_attr * hc_wlan_attr) :=
  '(ret, ofs, n) <- routerboot_tag_find buf buflen (tag_id a) ;;
  if negb (ret =? 0) then pure (set_pld a 0 0, w)
  else
    (* Account for skipped magic *)
    let a := set_pld a (C.u16 (ofs + 4)) n in
    (* Special case RB_ID_WLAN_DATA to prep and create the binary attribute *)
    if (RB_ID_WLAN_DATA =? tag_id a) && negb (pld_len a =? 0) then
      let w := {| wpld_ofs := pld_ofs a; wpld_len := pld_len a |} in
      _ <- emit (EvSysfsBinFile "wlan_data") ;; pure (a, w)
    (* All other tags are published via standard attributes *)
    else
      _ <- emit (EvSysfsFile (kattr a)) ;; pure (a, w).

Fixpoint locate_all (buf : bytes) (buflen : Z) (attrs : list hc_attr)
    (w : hc_wlan_attr) : M (list hc_attr * hc_wlan_attr) :=
  match attrs with
  | [] => pure ([], w)
  | a :: rest =>
      '(a', w') <- locate buf buflen a w ;;
      '(rest', w'') <- locate_all buf buflen rest w' ;;
      pure (a' :: rest', w'')
  end.

(** The status and, when it is 0, the file-scope variables as they are
    left. *)
Definition rb_hardconfig_init : M (Z * option driver) :=
  match get_mtd_device_nm_fn X with
  | None => pure (- ENODEV, None)
  | Some mtd =>
      let hc_buflen := C.size_t arch (mtd_size mtd) in
      hc_buf <- kmalloc hc_buflen ;;
      match hc_buf with
      | None => pure (- ENOMEM, None)
      | Some hc_buf =>
          let '(ret, bytes_read, data) := mtd_read_fn mtd in
          let hc_buf := deposit data hc_buf in
          if negb (C.int ret =? 0) then
            _ <- kfree ;; pure (C.int ret, None)
          else if negb (C.size_t arch bytes_read =? hc_buflen) then
            _ <- kfree ;; pure (- EIO, None)
          else
            (* Check we have what we expect *)
            magic <- load32 hc_buf ;;
            if negb (C.u32 (RB_MAGIC_HARD X) =? magic) then
              _ <- kfree ;; pure (- EINVAL, None)
            else
              (* Skip magic *)
              let buf := ptr_add hc_buf 4 in
              let buflen := C.size_t arch (hc_buflen - 4) in
              if negb (kobject_create_and_add_fn X) then
                _ <- kfree ;; pure (- ENOMEM, None)
              else
                '(attrs, w) <-
                  locate_all buf buflen hc_attrs_init hc_wlandata_battr_init ;;
                pure (0, Some {| hc_buf := hc_buf; hc_buflen := hc_buflen;
                                 hc_attrs := attrs; hc_wlandata_battr := w |})
      end
  end.

(** The attribute as one iteration of the loop of [rb_hardconfig_init]
    leaves it: what [locate] computes, without the log. *)
Definition located (buf : bytes) (buflen : Z) (a : hc_attr) : hc_attr :=
  let '(ret, ofs, n) := routerboot_tag_find_fn X buf buflen (tag_id a) in
  if negb (C.int ret =? 0) then set_pld a 0 0
  else set_pld a (C.u16 (C.u16 ofs + 4)) (C.u16 n).

(** What every path through the unpacking code keeps true of the output
    buffer and of the length stored through [outlen]. *)
Definition keeps_buffer (outbuf : bytes) (c : M (Z * bytes * Z)) : Prop :=
  forall s ret outbuf' outlen' s',
    c s = Returns (ret, outbuf', outlen') s' ->
    List.length outbuf' = List.length outbuf
    /\ 0 <= outlen' < 2 ^ C.size_bits arch.

(** The sysfs files one iteration of the loop of [rb_hardconfig_init]
    creates for an attribute. *)
Definition published (buf : bytes) (buflen : Z) (a : hc_attr) : list event :=
  let '(ret, ofs, n) := routerboot_tag_find_fn X buf buflen (tag_id a) in
  if negb (C.int ret =? 0) then []
  else if (RB_ID_WLAN_DATA =? tag_id a) && negb (C.u16 n =? 0)
       then [EvSysfsBinFile "wlan_data"]
       else [EvSysfsFile (kattr a)].

(** Unfolds the monad and the calls into the environment. *)
Ltac run :=
  unfold kfree, memcpy, load32, routerboot_tag_find, lzo1x_decompress_safe,
    routerboot_rle_decode;
  unfold bind, pure, emit, crash;
  cbv beta iota zeta.

Ltac run_in H :=
  unfold kfree, memcpy, load32, routerboot_tag_find, lzo1x_decompress_safe,
    routerboot_rle_decode in H;
  unfold bind, pure, emit, crash in H;
  cbv beta iota zeta in H.

(** A run that returned: its result and its final state. *)
Ltac returned H := inversion H; subst; clear H.

(* ================================================================== *)
(** ** Properties *)

(** *** Integer conversions *)

Lemma wrap_small (bits x : Z) : 0 <= x < 2 ^ bits -> C.wrap bits x = x.
Proof. intros H. unfold C.wrap. apply Z.mod_small. exact H. Qed.

Lemma wrap_range (bits x : Z) : 0 <= bits -> 0 <= C.wrap bits x < 2 ^ bits.
Proof.
  intros H. unfold C.wrap. apply Z.mod_pos_bound.
  apply Z.pow_pos_nonneg; lia.
Qed.

Lemma size_bits_cases : C.size_bits arch = 32 \/ C.size_bits arch = 64.
Proof. destruct arch; simpl; auto. Qed.

Lemma size_t_range (x : Z) : 0 <= C.size_t arch x < 2 ^ C.size_bits arch.
Proof. apply wrap_range. destruct size_bits_cases as [E | E]; rewrite E; lia. Qed.

Lemma size_t_small (x : Z) :
  0 <= x < 2 ^ C.size_bits arch -> C.size_t arch x = x.
Proof. apply wrap_small. Qed.

Lemma swrap_small (bits x : Z) :
  0 < bits -> - 2 ^ (bits - 1) <= x < 2 ^ (bits - 1) -> C.swrap bits x = x.
Proof.
  intros Hb H. unfold C.swrap, C.wrap.
  assert (E : 2 ^ bits = 2 * 2 ^ (bits - 1)).
  { replace bits with (Z.succ (bits - 1)) at 1 by lia.
    rewrite Z.pow_succ_r by lia. reflexivity. }
  destruct (Z_lt_le_dec x 0) as [Hneg | Hpos].
  - replace (x mod 2 ^ bits) with (x + 2 ^ bits).
    + destruct (Z.ltb_spec (x + 2 ^ bits) (2 ^ (bits - 1))); lia.
    + apply Z.mod_unique with (q := -1); lia.
  - rewrite Z.mod_small by lia.
    destruct (Z.ltb_spec x (2 ^ (bits - 1))); lia.
Qed.

Lemma ssize_t_small (x : Z) :
  - 2 ^ 31 <= x < 2 ^ 31 -> C.ssize_t arch x = x.
Proof.
  intros H. unfold C.ssize_t. apply swrap_small; destruct arch; simpl; lia.
Qed.

(** *** Buffers *)

Lemma len_nonneg (b : bytes) : 0 <= len b.
Proof. unfold len. lia. Qed.

Lemma len_ptr_add (b : bytes) (k : Z) :
  0 <= k <= len b -> len (ptr_add b k) = len b - k.
Proof.
  intros H. unfold ptr_add, len in *. rewrite length_skipn. lia.
Qed.

Lemma load_u32_some (p : bytes) :
  4 <= len p -> exists w, load_u32 cpu p = Some w.
Proof.
  unfold len. intros H.
  destruct p as [| b0 [| b1 [| b2 [| b3 rest]]]]; simpl in H; try lia.
  simpl. eauto.
Qed.

Lemma load_u32_none (p : bytes) : len p < 4 -> load_u32 cpu p = None.
Proof.
  unfold len. intros H.
  destruct p as [| b0 [| b1 [| b2 [| b3 rest]]]]; simpl in H; try lia;
    reflexivity.
Qed.

(** *** The search for the magic number *)

Lemma needle_step_next (tempbuf : bytes) (templen needle needle' : Z) :
  needle_step tempbuf templen needle = inr needle' ->
  needle' = needle + 4 /\ needle' < templen.
Proof.
  unfold needle_step. intros H.
  destruct (load_u32 cpu (ptr_add tempbuf needle)) as [w |]; [| discriminate].
  destruct (C.u32 (RB_MAGIC_ERD X) =? w); [discriminate |].
  destruct (Z.geb_spec (needle + 4) templen) as [Hge | Hlt]; [discriminate |].
  inversion H. subst. split; [reflexivity | lia].
Qed.

Lemma map_seq_shift (f : nat -> Z) (n : nat) :
  map f (seq 1 n) = map (fun i => f (S i)) (seq 0 n).
Proof. rewrite <- seq_shift, map_map. reflexivity. Qed.

(** Enough iterations end the loop: each one moves the pointer four bytes
    closer to [tempbuf + templen]. *)
Lemma needle_loop_total (tempbuf : bytes) (templen : Z) (fuel : nat) :
  forall needle,
    templen - needle < 4 * Z.of_nat fuel -> (0 < fuel)%nat ->
    exists r probes,
      needle_loop fuel tempbuf templen needle = Some (r, probes)
      /\ (0 < List.length probes <= fuel)%nat
      /\ probes = map (fun i => needle + 4 * Z.of_nat i)
                    (seq 0 (List.length probes))
      /\ (forall p, In p probes -> p = needle \/ p < templen).
Proof.
  induction fuel as [| fuel IH]; intros needle Hm Hpos; [lia |].
  cbn [needle_loop]. destruct (needle_step tempbuf templen needle) as [r | needle'] eqn:Hs.
  - exists r, [needle]. cbn [List.length seq map In].
    split; [reflexivity |]. split; [lia |]. split; [f_equal; lia |].
    intros p [Hp | []]. left. congruence.
  - apply needle_step_next in Hs. destruct Hs as [-> Hlt].
    destruct (IH (needle + 4)) as (r & probes & Hrun & Hlen & Hshape & Hin);
      [lia | lia |].
    rewrite Hrun. exists r, (needle :: probes). cbn [List.length seq map In].
    split; [reflexivity |]. split; [lia |]. split.
    + f_equal; [lia |]. rewrite map_seq_shift.
      rewrite Hshape at 1. apply map_ext. intros i. lia.
    + intros p [Hp | Hp]; [left; congruence |].
      right. destruct (Hin p Hp); lia.
Qed.

Lemma needle_loop_more_fuel (tempbuf : bytes) (templen : Z) (fuel : nat) :
  forall fuel' needle res,
    needle_loop fuel tempbuf templen needle = Some res ->
    (fuel <= fuel')%nat ->
    needle_loop fuel' tempbuf templen needle = Some res.
Proof.
  induction fuel as [| fuel IH]; intros fuel' needle res Hrun Hle;
    [discriminate |].
  destruct fuel' as [| fuel']; [lia |].
  simpl in *. destruct (needle_step tempbuf templen needle) as [r | needle'];
    [exact Hrun |].
  destruct (needle_loop fuel tempbuf templen needle') as [[r probes] |] eqn:E;
    [| discriminate].
  rewrite (IH fuel' needle' (r, probes) E) by lia. exact Hrun.
Qed.

Lemma scan_fuel_enough (templen : Z) :
  templen - 0 < 4 * Z.of_nat (scan_fuel templen) /\ (0 < scan_fuel templen)%nat.
Proof.
  unfold scan_fuel. split; [| lia].
  destruct (Z_lt_le_dec templen 0) as [Hneg | Hpos]; [lia |].
  rewrite Nat2Z.inj_succ, Z2Nat.id by (apply Z.div_pos; lia).
  pose proof (Z.mod_pos_bound templen 4 ltac:(lia)).
  pose proof (Z.div_mod templen 4 ltac:(lia)). lia.
Qed.

(** C7: the aligned magic-scan loop of the Lzor strategy ends for every
    content of the scratch buffer and every filled length.  The loop runs
    to completion within [scan_fuel templen] iterations (one more than a
    quarter of the filled length), more iterations change nothing, the
    offsets it loads from are 0, 4, 8, ... in this order, every offset
    after the first is below the filled length, and the strategy's scan
    never hangs. *)
Theorem needle_scan_terminates (tempbuf : bytes) (templen : Z) :
  exists (r : scan_result) (probes : list Z),
    needle_loop (scan_fuel templen) tempbuf templen 0 = Some (r, probes)
    /\ (0 < List.length probes <= scan_fuel templen)%nat
    /\ probes = map (fun i => 4 * Z.of_nat i) (seq 0 (List.length probes))
    /\ (forall p, In p probes -> p = 0 \/ p < templen)
    /\ (forall fuel, (scan_fuel templen <= fuel)%nat ->
         needle_loop fuel tempbuf templen 0 = Some (r, probes))
    /\ (forall s s', needle_scan tempbuf templen s <> Hangs s').
Proof.
  destruct (scan_fuel_enough templen) as [Hm Hpos].
  destruct (needle_loop_total tempbuf templen (scan_fuel templen) 0 Hm Hpos)
    as (r & probes & Hrun & Hlen & Hshape & Hin).
  exists r, probes. repeat split; try assumption; try lia.
  - intros fuel Hle. eapply needle_loop_more_fuel; eassumption.
  - intros s s'. unfold needle_scan. rewrite Hrun.
    destruct r; discriminate.
Qed.

(** A match ends the loop with the pointer just past the matching word,
    which lies at an offset the loop loaded from, a multiple of four bytes
    past the start. *)
Lemma needle_loop_found (tempbuf : bytes) (templen : Z) (fuel : nat) :
  forall start needle probes,
    needle_loop fuel tempbuf templen start = Some (ScanFound needle, probes) ->
    start + 4 <= needle
    /\ (needle - 4 - start) mod 4 = 0
    /\ In (needle - 4) probes
    /\ load_u32 cpu (ptr_add tempbuf (needle - 4)) = Some (C.u32 (RB_MAGIC_ERD X)).
Proof.
  induction fuel as [| fuel IH]; intros start needle probes Hrun;
    [discriminate |].
  cbn [needle_loop] in Hrun.
  destruct (needle_step tempbuf templen start) as [r | next] eqn:Hs.
  - inversion Hrun; subst. clear Hrun. unfold needle_step in Hs.
    destruct (load_u32 cpu (ptr_add tempbuf start)) as [w |] eqn:Hw;
      [| discriminate].
    destruct (Z.eqb_spec (C.u32 (RB_MAGIC_ERD X)) w) as [-> | _].
    + inversion Hs; subst.
      replace (start + 4 - 4) with start by lia.
      replace (start - start) with 0 by lia.
      repeat split; [lia | simpl; auto | exact Hw].
    + destruct (start + 4 >=? templen); discriminate.
  - apply needle_step_next in Hs. destruct Hs as [-> _].
    destruct (needle_loop fuel tempbuf templen (start + 4))
      as [[r probes'] |] eqn:E; [| discriminate].
    inversion Hrun; subst. clear Hrun.
    destruct (IH _ _ _ E) as (Hle & Hmod & Hin & Hw).
    repeat split; [lia | | right; exact Hin | exact Hw].
    replace (needle - 4 - start) with (needle - 4 - (start + 4) + 1 * 4) by lia.
    rewrite Z.mod_add by lia. exact Hmod.
Qed.

(** *** The call log *)

Lemma skipn_app_exact {A} (l r : list A) : skipn (List.length l) (l ++ r) = r.
Proof. induction l as [| a l IH]; simpl; auto. Qed.

Lemma events_of_returns {A} (c : M A) (s : kstate) (a : A) (es : list event) :
  c s = Returns a (record es s) -> events_of c s = es.
Proof.
  intros H. unfold events_of. rewrite H. simpl. apply skipn_app_exact.
Qed.

Lemma events_of_unchanged {A} (c : M A) (s : kstate) (a : A) :
  c s = Returns a s -> events_of c s = [].
Proof.
  intros H. unfold events_of. rewrite H. simpl.
  rewrite <- (app_nil_r (klog s)) at 2. apply skipn_app_exact.
Qed.

Lemma record_record (es1 es2 : list event) (s : kstate) :
  record es2 (record es1 s) = record (es1 ++ es2) s.
Proof. unfold record. simpl. rewrite app_assoc. reflexivity. Qed.

(** *** The LZOR strategy *)

Lemma filter_loads (f : event -> bool) (probes : list Z) :
  (forall p, f (EvLoad32 p) = false) ->
  filter f (map EvLoad32 probes) = [].
Proof.
  intros H. induction probes as [| p probes IH]; simpl; [reflexivity |].
  rewrite H. exact IH.
Qed.

(** The first offset the loop loads from is 0. *)
Lemma needle_loop_first (tempbuf : bytes) (templen : Z) :
  exists r probes,
    needle_loop (scan_fuel templen) tempbuf templen 0 = Some (r, 0 :: probes).
Proof.
  destruct (scan_fuel_enough templen) as [Hm Hpos].
  destruct (needle_loop_total tempbuf templen (scan_fuel templen) 0 Hm Hpos)
    as (r & probes & Hrun & Hlen & Hshape & _).
  destruct probes as [| p probes]; [simpl in Hlen; lia |].
  assert (Hp : p = 0).
  { cbn [List.length seq map] in Hshape. injection Hshape as Hp _. lia. }
  subst p. exists r, probes. exact Hrun.
Qed.

(** How [lzor_after_decompress] runs once the loop has found the magic. *)
Lemma lzor_after_decompress_found (tempbuf : bytes) (templen : Z)
    (outbuf : bytes) (outlen : Z) (s : kstate) (needle : Z) (probes : list Z) :
  needle_loop (scan_fuel templen) tempbuf templen 0
    = Some (ScanFound needle, probes) ->
  lzor_after_decompress tempbuf templen outbuf outlen s =
    let region := ptr_add tempbuf needle in
    let taillen := C.size_t arch (templen - needle) in
    let loads := map EvLoad32 probes in
    let '(ret, ofs, n) := routerboot_tag_find_fn X region taillen 0x1 in
    if negb (C.int ret =? 0) then
      Returns (C.int ret, outbuf, outlen)
        (record (loads ++ [EvTagFind region taillen 0x1; EvKfree]) s)
    else if C.u16 n >? taillen then
      Returns (C.int (- EINVAL), outbuf, outlen)
        (record (loads ++ [EvTagFind region taillen 0x1; EvKfree]) s)
    else
      let src := ptr_add tempbuf (needle + C.u16 ofs) in
      let '(ret', written, out_len) :=
        routerboot_rle_decode_fn X src (C.u16 n) outlen in
      Returns (C.int ret', deposit written outbuf, C.size_t arch out_len)
        (record (loads ++ [EvTagFind region taillen 0x1;
                           EvRle src (C.u16 n) outlen; EvKfree]) s).
Proof.
  intros Hrun. unfold lzor_after_decompress, needle_scan. run.
  rewrite Hrun. cbv beta iota zeta.
  destruct (routerboot_tag_find_fn X (ptr_add tempbuf needle)
              (C.size_t arch (templen - needle)) 1) as [[ret ofs] n].
  cbv beta iota zeta.
  destruct (negb (C.int ret =? 0)).
  - rewrite !record_record. reflexivity.
  - destruct (C.u16 n >? C.size_t arch (templen - needle)).
    + rewrite !record_record. reflexivity.
    + destruct (routerboot_rle_decode_fn X
                  (ptr_add tempbuf (needle + C.u16 ofs)) (C.u16 n) outlen)
        as [[ret' written] out_len].
      cbv beta iota zeta.
      rewrite !record_record. reflexivity.
Qed.

(** The region of the tag scan when the match lies inside the decompressed
    data.  In the Lzor strategy, once the aligned scan has located the ERD
    magic at offset [m] of the decompressed data (the loop ends with the
    pointer at [m + 4], not past the decompressed length), the tag scanner
    is called exactly once, on the region that starts at byte [m + 4] of
    the scratch buffer, with the length [templen - m - 4] and for the
    identifier 1.  The offset [m] is a multiple of four and the word there
    is the magic. *)
Theorem lzor_tag_region (tempbuf : bytes) (out_len : Z) (outbuf : bytes)
    (outlen : Z) (s : kstate) (m : Z) (probes : list Z) :
  let templen := C.size_t arch out_len in
  needle_loop (scan_fuel templen) tempbuf templen 0
    = Some (ScanFound (m + 4), probes) ->
  m + 4 <= templen ->
  (0 <= m /\ m mod 4 = 0
   /\ load_u32 cpu (ptr_add tempbuf m) = Some (C.u32 (RB_MAGIC_ERD X)))
  /\ filter is_tag_find
       (events_of (lzor_after_decompress tempbuf templen outbuf outlen) s)
     = [EvTagFind (ptr_add tempbuf (m + 4)) (templen - m - 4) 0x1].
Proof.
  intros templen Hrun Hin.
  destruct (needle_loop_found _ _ _ _ _ _ Hrun) as (Hle & Hmod & _ & Hw).
  replace (m + 4 - 4) with m in * by lia.
  replace (m - 0) with m in Hmod by lia.
  split; [repeat split; [lia | exact Hmod | exact Hw] |].
  pose proof (size_t_range out_len) as Hrange. fold templen in Hrange.
  assert (Hlen : C.size_t arch (templen - (m + 4)) = templen - m - 4).
  { rewrite size_t_small by lia. lia. }
  pose proof (lzor_after_decompress_found tempbuf templen outbuf outlen s
                _ _ Hrun) as Heq.
  cbv zeta in Heq. rewrite Hlen in Heq.
  destruct (routerboot_tag_find_fn X (ptr_add tempbuf (m + 4))
              (templen - m - 4) 1) as [[ret ofs] n].
  assert (Hloads : filter is_tag_find (map EvLoad32 probes) = [])
    by (apply filter_loads; reflexivity).
  destruct (negb (C.int ret =? 0)).
  - rewrite (events_of_returns _ _ _ _ Heq), filter_app, Hloads. reflexivity.
  - destruct (C.u16 n >? templen - m - 4).
    + rewrite (events_of_returns _ _ _ _ Heq), filter_app, Hloads. reflexivity.
    + destruct (routerboot_rle_decode_fn X
                  (ptr_add tempbuf (m + 4 + C.u16 ofs)) (C.u16 n) outlen)
        as [[ret' written] out_len'].
      rewrite (events_of_returns _ _ _ _ Heq), filter_app, Hloads. reflexivity.
Qed.

Lemma klog_returns {A} (c : M A) (s : kstate) (a : A) (es : list event) :
  c s = Returns a (record es s) ->
  klog (outcome_state (c s)) = klog s ++ es.
Proof. intros H. rewrite H. reflexivity. Qed.

(** What [lzor_after_decompress] leaves in the log starts with the loads
    of the loop, the first of them from offset 0. *)
Lemma lzor_after_decompress_log (tempbuf : bytes) (templen : Z)
    (outbuf : bytes) (outlen : Z) (s : kstate) :
  exists probes rest,
    klog (outcome_state (lzor_after_decompress tempbuf templen outbuf outlen s))
    = klog s ++ map EvLoad32 (0 :: probes) ++ rest.
Proof.
  destruct (needle_loop_first tempbuf templen) as (r & probes & Hrun).
  exists probes. destruct r as [needle | |].
  - pose proof (lzor_after_decompress_found tempbuf templen outbuf outlen s
                  _ _ Hrun) as Heq.
    cbv zeta in Heq.
    destruct (routerboot_tag_find_fn X (ptr_add tempbuf needle)
                (C.size_t arch (templen - needle)) 1) as [[ret ofs] n].
    destruct (negb (C.int ret =? 0));
      [eexists; apply (klog_returns _ _ _ _ Heq) |].
    destruct (C.u16 n >? C.size_t arch (templen - needle));
      [eexists; apply (klog_returns _ _ _ _ Heq) |].
    destruct (routerboot_rle_decode_fn X
                (ptr_add tempbuf (needle + C.u16 ofs)) (C.u16 n) outlen)
      as [[ret' written] out_len'].
    eexists; apply (klog_returns _ _ _ _ Heq).
  - exists [EvKfree].
    apply klog_returns with (a := (C.int (- ENODATA), outbuf, outlen)).
    unfold lzor_after_decompress, needle_scan. run. rewrite Hrun.
    rewrite record_record. reflexivity.
  - exists []. unfold lzor_after_decompress, needle_scan. run.
    rewrite Hrun. cbn [outcome_state record klog].
    rewrite app_nil_r. reflexivity.
Qed.

(** The size test when the sum does not wrap.  In the Lzor strategy, when
    the remaining record length plus the length of the dictionary prefix
    exceeds the output capacity, the sum being a [size_t] value, the strategy
    returns -EFBIG with the output buffer and its length as they were, and
    nothing has happened before: no allocation, no store into the output
    buffer, no call of the decompressor. *)
Theorem lzor_too_big (inbuf : bytes) (inlen : Z) (outbuf : bytes)
    (outlen : Z) (s : kstate) :
  0 <= inlen ->
  inlen + sizeof_hc_lzor_prefix < 2 ^ C.size_bits arch ->
  inlen + sizeof_hc_lzor_prefix > outlen ->
  hc_wlan_data_unpack_lzor inbuf inlen (Some outbuf) outlen s
    = Returns (- EFBIG, outbuf, outlen) s
  /\ events_of (hc_wlan_data_unpack_lzor inbuf inlen (Some outbuf) outlen) s = [].
Proof.
  intros Hpos Hfit Hbig.
  assert (Heq : hc_wlan_data_unpack_lzor inbuf inlen (Some outbuf) outlen s
                = Returns (- EFBIG, outbuf, outlen) s).
  { unfold hc_wlan_data_unpack_lzor.
    rewrite size_t_small by (unfold sizeof_hc_lzor_prefix in *; lia).
    destruct (Z.gtb_spec (inlen + sizeof_hc_lzor_prefix) outlen); [| lia].
    reflexivity. }
  split; [exact Heq |]. apply (events_of_unchanged _ _ _ Heq).
Qed.

(** The first half of [hc_wlan_data_unpack_lzor], when the size test
    passes, the scratch buffer is allocated and the two copies stay inside
    their buffers. *)
Lemma lzor_front (inbuf : bytes) (inlen : Z) (outbuf : bytes) (outlen : Z)
    (s : kstate) (block : nat -> byte) (ob1 ob2 : bytes)
    (ret : Z) (written : bytes) (out_len : Z) :
  let lzo_len := C.size_t arch (inlen + sizeof_hc_lzor_prefix) in
  lzo_len <= outlen ->
  kmalloc_fn X (kallocs s) outlen = Some block ->
  blit outbuf 0 hc_lzor_prefix sizeof_hc_lzor_prefix = Some ob1 ->
  blit ob1 sizeof_hc_lzor_prefix inbuf inlen = Some ob2 ->
  lzo1x_decompress_safe_fn X ob2 lzo_len outlen = (ret, written, out_len) ->
  let s4 :=
    {| klog := klog s ++ [EvKmalloc outlen; EvStore 0 sizeof_hc_lzor_prefix;
                          EvStore sizeof_hc_lzor_prefix inlen;
                          EvLzo ob2 lzo_len outlen];
       kallocs := S (kallocs s) |} in
  hc_wlan_data_unpack_lzor inbuf inlen (Some outbuf) outlen s =
    if negb (C.int ret =? 0) && negb (LZO_E_INPUT_NOT_CONSUMED =? C.int ret)
    then Returns (C.int ret, ob2, outlen) (record [EvKfree] s4)
    else lzor_after_decompress
           (deposit written (map block (seq 0 (Z.to_nat outlen))))
           (C.size_t arch out_len) ob2 outlen s4.
Proof.
  intros lzo_len Hfit Hblock Hb1 Hb2 Hlzo s4.
  unfold hc_wlan_data_unpack_lzor. fold lzo_len.
  destruct (Z.gtb_spec lzo_len outlen); [lia |].
  unfold kmalloc. run. rewrite Hblock. cbn [option_map].
  rewrite Hb1. cbv beta iota zeta. rewrite Hb2. cbv beta iota zeta.
  rewrite Hlzo. cbv beta iota zeta.
  assert (Hs4 : record [EvLzo ob2 lzo_len outlen]
                  (record [EvStore sizeof_hc_lzor_prefix inlen]
                     (record [EvStore 0 sizeof_hc_lzor_prefix]
                        {| klog := klog s ++ [EvKmalloc outlen];
                           kallocs := S (kallocs s) |})) = s4).
  { unfold record, s4. cbn [klog kallocs]. rewrite <- !app_assoc. reflexivity. }
  rewrite Hs4.
  destruct (negb (C.int ret =? 0) && negb (LZO_E_INPUT_NOT_CONSUMED =? C.int ret));
    reflexivity.
Qed.

(** C6: in the Lzor strategy, when the decompressor reports "input not
    consumed" the run continues with the search for the magic number (what
    follows in the log are the loads of the scan, the first from offset 0),
    and when it reports any other failure the strategy frees the scratch
    buffer and returns the decompressor's status: no load, no tag scan, no
    run-length decoding. *)
Theorem lzor_decompressor_status (inbuf : bytes) (inlen : Z) (outbuf : bytes)
    (outlen : Z) (s : kstate) (block : nat -> byte) (ob1 ob2 : bytes)
    (ret : Z) (written : bytes) (out_len : Z) :
  let lzo_len := C.size_t arch (inlen + sizeof_hc_lzor_prefix) in
  lzo_len <= outlen ->
  kmalloc_fn X (kallocs s) outlen = Some block ->
  blit outbuf 0 hc_lzor_prefix sizeof_hc_lzor_prefix = Some ob1 ->
  blit ob1 sizeof_hc_lzor_prefix inbuf inlen = Some ob2 ->
  lzo1x_decompress_safe_fn X ob2 lzo_len outlen = (ret, written, out_len) ->
  let front :=
    [EvKmalloc outlen; EvStore 0 sizeof_hc_lzor_prefix;
     EvStore sizeof_hc_lzor_prefix inlen; EvLzo ob2 lzo_len outlen] in
  let s4 := {| klog := klog s ++ front; kallocs := S (kallocs s) |} in
  let tempbuf := deposit written (map block (seq 0 (Z.to_nat outlen))) in
  let templen := C.size_t arch out_len in
  (C.int ret = LZO_E_INPUT_NOT_CONSUMED ->
   hc_wlan_data_unpack_lzor inbuf inlen (Some outbuf) outlen s
     = lzor_after_decompress tempbuf templen ob2 outlen s4
   /\ exists probes rest,
        events_of (hc_wlan_data_unpack_lzor inbuf inlen (Some outbuf) outlen) s
        = front ++ map EvLoad32 (0 :: probes) ++ rest)
  /\ (C.int ret <> 0 -> C.int ret <> LZO_E_INPUT_NOT_CONSUMED ->
      hc_wlan_data_unpack_lzor inbuf inlen (Some outbuf) outlen s
        = Returns (C.int ret, ob2, outlen) (record [EvKfree] s4)
      /\ events_of (hc_wlan_data_unpack_lzor inbuf inlen (Some outbuf) outlen) s
         = front ++ [EvKfree]).
Proof.
  intros lzo_len Hfit Hblock Hb1 Hb2 Hlzo front s4 tempbuf templen.
  pose proof (lzor_front inbuf inlen outbuf outlen s block ob1 ob2 ret written
                out_len Hfit Hblock Hb1 Hb2 Hlzo) as Heq.
  cbv zeta in Heq. subst lzo_len front s4 tempbuf templen.
  set (s4 := {| klog := _; kallocs := _ |}) in *.
  split.
  - intros Hret. rewrite Hret in Heq.
    change (LZO_E_INPUT_NOT_CONSUMED =? LZO_E_INPUT_NOT_CONSUMED) with true in Heq.
    change (LZO_E_INPUT_NOT_CONSUMED =? 0) with false in Heq.
    cbn [negb andb] in Heq.
    split; [exact Heq |].
    match type of Heq with _ = lzor_after_decompress ?t ?l _ _ _ =>
      destruct (lzor_after_decompress_log t l ob2 outlen s4)
        as (probes & rest & Hlog)
    end.
    exists probes, rest. unfold events_of. rewrite Heq, Hlog.
    unfold s4. cbn [klog]. rewrite <- app_assoc. apply skipn_app_exact.
  - intros Hnz Hnc.
    destruct (Z.eqb_spec (C.int ret) 0) as [E | _]; [contradiction |].
    destruct (Z.eqb_spec LZO_E_INPUT_NOT_CONSUMED (C.int ret)) as [E | _];
      [symmetry in E; contradiction |].
    cbn [negb andb] in Heq.
    split; [exact Heq |].
    unfold events_of. rewrite Heq. unfold s4. cbn [outcome_state record klog].
    rewrite <- app_assoc. apply skipn_app_exact.
Qed.

(** *** The dispatch on the magic number *)

Lemma ptr_add_add (b : bytes) (k j : Z) :
  0 <= k -> 0 <= j -> ptr_add (ptr_add b k) j = ptr_add b (k + j).
Proof.
  intros Hk Hj. unfold ptr_add. rewrite skipn_skipn.
  f_equal. lia.
Qed.

Lemma load_u32_head (b0 b1 b2 b3 : byte) (rest : bytes) :
  load_u32 cpu (b0 :: b1 :: b2 :: b3 :: rest) = load_u32 cpu [b0; b1; b2; b3].
Proof. reflexivity. Qed.

(** The dispatch on a record of four bytes or more.  For a calibration
    record that lies inside the blob and has its four
    magic bytes, [hc_wlan_data_unpack] reads the first four bytes of the
    record as a 32-bit number in cpu byte order and goes one of three ways:
    on RB_MAGIC_LZOR it runs the Lzor strategy on the record without its
    first four bytes, on RB_MAGIC_ERD the Erd strategy on the same, and on
    any other value it run-length-decodes the whole record, magic bytes
    included, into the output buffer and returns the decoder's status (so
    that a decoder failure is the failure of the call). *)
Theorem hc_wlan_data_unpack_dispatch (d : driver) (tofs tlen : Z)
    (outbuf : bytes) (outlen : Z) (s : kstate) :
  hc_buflen d = len (hc_buf d) ->
  hc_buflen d < 2 ^ C.size_bits arch ->
  0 <= tofs -> 4 <= tlen -> tofs + tlen <= hc_buflen d ->
  C.u32 (RB_MAGIC_LZOR X) <> C.u32 (RB_MAGIC_ERD X) ->
  let whole := ptr_add (hc_buf d) tofs in
  let past := ptr_add (hc_buf d) (tofs + 4) in
  let s1 := record [EvUnpack tofs tlen] s in
  exists b0 b1 b2 b3 rest magic,
    firstn (Z.to_nat tlen) whole = b0 :: b1 :: b2 :: b3 :: rest
    /\ firstn (Z.to_nat (tlen - 4)) past = rest
    /\ len rest = tlen - 4
    /\ load_u32 cpu [b0; b1; b2; b3] = Some magic
    /\ (magic = C.u32 (RB_MAGIC_LZOR X) ->
        hc_wlan_data_unpack d tofs tlen outbuf outlen s
        = hc_wlan_data_unpack_lzor past (tlen - 4) (Some outbuf) outlen s1)
    /\ (magic = C.u32 (RB_MAGIC_ERD X) ->
        hc_wlan_data_unpack d tofs tlen outbuf outlen s
        = hc_wlan_data_unpack_erd past (tlen - 4) outbuf outlen s1)
    /\ (magic <> C.u32 (RB_MAGIC_LZOR X) ->
        magic <> C.u32 (RB_MAGIC_ERD X) ->
        let '(ret, written, out_len) :=
          routerboot_rle_decode_fn X whole tlen outlen in
        hc_wlan_data_unpack d tofs tlen outbuf outlen s
        = Returns (C.int ret, deposit written outbuf, C.size_t arch out_len)
            (record [EvUnpack tofs tlen; EvRle whole tlen outlen] s)).
Proof.
  intros Hlen Hmax Hofs Htlen Hin Hdistinct whole past s1.
  assert (Hwhole : len whole = len (hc_buf d) - tofs)
    by (apply len_ptr_add; lia).
  assert (Hpast : past = ptr_add whole 4)
    by (unfold past, whole; rewrite ptr_add_add by lia; reflexivity).
  assert (Hsz : C.size_t arch (tofs + tlen) = tofs + tlen)
    by (apply size_t_small; lia).
  assert (Hsz4 : C.size_t arch (tlen - 4) = tlen - 4)
    by (apply size_t_small; lia).
  assert (Hrun : hc_wlan_data_unpack d tofs tlen outbuf outlen s =
                 match load_u32 cpu whole with
                 | Some magic =>
                     if magic =? C.u32 (RB_MAGIC_LZOR X) then
                       hc_wlan_data_unpack_lzor past (tlen - 4) (Some outbuf) outlen s1
                     else if magic =? C.u32 (RB_MAGIC_ERD X) then
                       hc_wlan_data_unpack_erd past (tlen - 4) outbuf outlen s1
                     else routerboot_rle_decode whole tlen outbuf outlen s1
                 | None => Crashes s1
                 end).
  { unfold hc_wlan_data_unpack. run. rewrite Hsz, Hsz4.
    destruct (Z.gtb_spec (tofs + tlen) (hc_buflen d)); [lia |].
    fold whole. rewrite <- Hpast. fold s1.
    destruct (load_u32 cpu whole) as [magic |]; [| reflexivity].
    destruct (magic =? C.u32 (RB_MAGIC_LZOR X)); [reflexivity |].
    destruct (magic =? C.u32 (RB_MAGIC_ERD X)); reflexivity. }
  clearbody whole.
  destruct whole as [| b0 [| b1 [| b2 [| b3 tail]]]];
    try (unfold len in *; simpl in Hwhole; lia).
  assert (Htail : len tail = len (hc_buf d) - tofs - 4)
    by (unfold len in *; simpl in Hwhole; lia).
  assert (Hpast' : past = tail) by (rewrite Hpast; reflexivity).
  destruct (load_u32_some [b0; b1; b2; b3]) as [magic Hmagic];
    [unfold len; simpl; lia |].
  exists b0, b1, b2, b3, (firstn (Z.to_nat (tlen - 4)) tail), magic.
  rewrite load_u32_head, Hmagic in Hrun.
  split.
  { replace (Z.to_nat tlen) with (S (S (S (S (Z.to_nat (tlen - 4)))))) by lia.
    reflexivity. }
  split; [rewrite Hpast'; reflexivity |].
  split.
  { unfold len in *. rewrite length_firstn. lia. }
  split; [exact Hmagic |].
  split; [| split].
  - intros ->. rewrite Z.eqb_refl in Hrun. exact Hrun.
  - intros ->.
    destruct (Z.eqb_spec (C.u32 (RB_MAGIC_ERD X)) (C.u32 (RB_MAGIC_LZOR X)))
      as [E | _]; [symmetry in E; contradiction |].
    rewrite Z.eqb_refl in Hrun. exact Hrun.
  - intros Hnl Hne.
    destruct (Z.eqb_spec magic (C.u32 (RB_MAGIC_LZOR X))); [contradiction |].
    destruct (Z.eqb_spec magic (C.u32 (RB_MAGIC_ERD X))); [contradiction |].
    rewrite Hrun. unfold s1. run.
    destruct (routerboot_rle_decode_fn X (b0 :: b1 :: b2 :: b3 :: tail) tlen outlen)
      as [[ret written] out_len].
    rewrite record_record. reflexivity.
Qed.

(** *** The binary attribute *)

(** C10: when the length of the stored calibration record exceeds
    RB_ART_SIZE, [hc_wlan_data_bin_read] returns -EFBIG at once, whatever
    the record starts with: nothing is allocated and
    [hc_wlan_data_unpack] is not entered. *)
Theorem bin_read_too_large (d : driver) (off count : Z) (s : kstate) :
  wpld_len (hc_wlandata_battr d) > C.size_t arch (RB_ART_SIZE X) ->
  hc_wlan_data_bin_read d off count s = Returns (- EFBIG, []) s
  /\ events_of (hc_wlan_data_bin_read d off count) s = [].
Proof.
  intros Hbig. pose proof (size_t_range (RB_ART_SIZE X)) as Hcap.
  assert (Heq : hc_wlan_data_bin_read d off count s = Returns (- EFBIG, []) s).
  { unfold hc_wlan_data_bin_read.
    destruct (Z.eqb_spec (wpld_len (hc_wlandata_battr d)) 0); [lia |].
    destruct (Z.gtb_spec (wpld_len (hc_wlandata_battr d))
                (C.size_t arch (RB_ART_SIZE X))); [reflexivity | lia]. }
  split; [exact Heq | apply (events_of_unchanged _ _ _ Heq)].
Qed.

(** *** The output buffer keeps its size *)

Lemma deposit_length (written dst : bytes) :
  List.length (deposit written dst) = List.length dst.
Proof.
  unfold deposit. rewrite length_app, length_firstn, length_skipn. lia.
Qed.

Lemma blit_length (dst : bytes) (dofs : Z) (src : bytes) (n : Z) (dst' : bytes) :
  blit dst dofs src n = Some dst' -> List.length dst' = List.length dst.
Proof.
  unfold blit, len.
  destruct (Z.leb_spec 0 n); [| discriminate].
  destruct (Z.leb_spec n (Z.of_nat (List.length src))); [| discriminate].
  destruct (Z.leb_spec 0 dofs); [| discriminate].
  destruct (Z.leb_spec (dofs + n) (Z.of_nat (List.length dst)));
    [| discriminate].
  cbn [andb]. intros Hsome. returned Hsome.
  rewrite !length_app, !length_firstn, length_skipn. lia.
Qed.

Lemma lzo1x_decompress_safe_keeps (src : bytes) (src_len : Z) (dst : bytes)
    (dst_len : Z) :
  keeps_buffer dst (lzo1x_decompress_safe src src_len dst dst_len).
Proof.
  intros s ret ob ol s' H. run_in H.
  destruct (lzo1x_decompress_safe_fn X src src_len dst_len) as [[r w] l].
  returned H. split; [apply deposit_length | apply size_t_range].
Qed.

Lemma routerboot_rle_decode_keeps (src : bytes) (src_len : Z) (dst : bytes)
    (dst_len : Z) :
  keeps_buffer dst (routerboot_rle_decode src src_len dst dst_len).
Proof.
  intros s ret ob ol s' H. run_in H.
  destruct (routerboot_rle_decode_fn X src src_len dst_len) as [[r w] l].
  returned H. split; [apply deposit_length | apply size_t_range].
Qed.

Lemma hc_wlan_data_unpack_erd_keeps (inbuf : bytes) (inlen : Z)
    (outbuf : bytes) (outlen : Z) :
  0 <= outlen < 2 ^ C.size_bits arch ->
  keeps_buffer outbuf (hc_wlan_data_unpack_erd inbuf inlen outbuf outlen).
Proof.
  intros Hcap s ret ob ol s' H. unfold hc_wlan_data_unpack_erd in H.
  unfold routerboot_tag_find, bind, emit, pure in H. cbv beta iota zeta in H.
  destruct (routerboot_tag_find_fn X inbuf inlen 1) as [[r ofs] n].
  cbv beta iota zeta in H.
  destruct (negb (C.int r =? 0)); [returned H; auto |].
  destruct (C.u16 n >? inlen); [returned H; auto |].
  eapply lzo1x_decompress_safe_keeps; exact H.
Qed.

Lemma lzor_after_decompress_keeps (tempbuf : bytes) (templen : Z)
    (outbuf : bytes) (outlen : Z) :
  0 <= outlen < 2 ^ C.size_bits arch ->
  keeps_buffer outbuf (lzor_after_decompress tempbuf templen outbuf outlen).
Proof.
  intros Hcap s ret ob ol s' H.
  destruct (needle_loop (scan_fuel templen) tempbuf templen 0)
    as [[[needle | |] probes] |] eqn:Hloop.
  - rewrite (lzor_after_decompress_found _ _ _ _ _ _ _ Hloop) in H.
    cbv zeta in H.
    destruct (routerboot_tag_find_fn X (ptr_add tempbuf needle)
                (C.size_t arch (templen - needle)) 1) as [[r ofs] n].
    destruct (negb (C.int r =? 0)); [returned H; auto |].
    destruct (C.u16 n >? C.size_t arch (templen - needle));
      [returned H; auto |].
    destruct (routerboot_rle_decode_fn X
                (ptr_add tempbuf (needle + C.u16 ofs)) (C.u16 n) outlen)
      as [[r' w] l].
    returned H. split; [apply deposit_length | apply size_t_range].
  - unfold lzor_after_decompress, needle_scan in H. run_in H.
    rewrite Hloop in H. returned H. auto.
  - unfold lzor_after_decompress, needle_scan in H. run_in H.
    rewrite Hloop in H. discriminate.
  - unfold lzor_after_decompress, needle_scan in H. run_in H.
    rewrite Hloop in H. discriminate.
Qed.

Lemma hc_wlan_data_unpack_lzor_keeps (inbuf : bytes) (inlen : Z)
    (outbuf : bytes) (outlen : Z) :
  0 <= outlen < 2 ^ C.size_bits arch ->
  keeps_buffer outbuf (hc_wlan_data_unpack_lzor inbuf inlen (Some outbuf) outlen).
Proof.
  intros Hcap s ret ob ol s' H. unfold hc_wlan_data_unpack_lzor in H.
  destruct (C.size_t arch (inlen + sizeof_hc_lzor_prefix) >? outlen);
    [returned H; auto |].
  unfold kmalloc in H. run_in H.
  destruct (blit outbuf 0 hc_lzor_prefix sizeof_hc_lzor_prefix) as [ob1 |] eqn:Hb1;
    [| discriminate].
  cbv beta iota zeta in H.
  destruct (blit ob1 sizeof_hc_lzor_prefix inbuf inlen) as [ob2 |] eqn:Hb2;
    [| discriminate].
  cbv beta iota zeta in H.
  apply blit_length in Hb1. apply blit_length in Hb2.
  destruct (option_map _ (kmalloc_fn X (kallocs s) outlen)) as [tempbuf |];
    [| discriminate].
  destruct (lzo1x_decompress_safe_fn X ob2
              (C.size_t arch (inlen + sizeof_hc_lzor_prefix)) outlen)
    as [[r w] l].
  cbv beta iota zeta in H.
  destruct (negb (C.int r =? 0) && negb (LZO_E_INPUT_NOT_CONSUMED =? C.int r)).
  - returned H. split; [congruence | exact Hcap].
  - apply lzor_after_decompress_keeps in H; [| exact Hcap].
    destruct H as [Hl Hr]. split; [congruence | exact Hr].
Qed.

Lemma hc_wlan_data_unpack_keeps (d : driver) (tofs tlen : Z)
    (outbuf : bytes) (outlen : Z) :
  0 <= outlen < 2 ^ C.size_bits arch ->
  keeps_buffer outbuf (hc_wlan_data_unpack d tofs tlen outbuf outlen).
Proof.
  intros Hcap s ret ob ol s' H. unfold hc_wlan_data_unpack in H.
  unfold bind, emit, load32, pure, crash in H. cbv beta iota zeta in H.
  destruct (C.size_t arch (tofs + tlen) >? hc_buflen d); [returned H; auto |].
  destruct (load_u32 cpu (ptr_add (hc_buf d) tofs)) as [magic |];
    [| discriminate].
  destruct (magic =? C.u32 (RB_MAGIC_LZOR X)).
  { eapply hc_wlan_data_unpack_lzor_keeps; eassumption. }
  destruct (magic =? C.u32 (RB_MAGIC_ERD X)).
  { eapply hc_wlan_data_unpack_erd_keeps; eassumption. }
  eapply routerboot_rle_decode_keeps; eassumption.
Qed.

(** *** Reading the decoded calibration data *)

Lemma loff_size_small (x : Z) :
  0 <= x < 2 ^ 63 -> C.loff_size arch x = x.
Proof.
  intros H. destruct arch; unfold C.loff_size.
  - apply swrap_small; lia.
  - apply wrap_small; lia.
Qed.

Lemma ssize_t_count (x : Z) :
  0 <= x < 2 ^ (C.size_bits arch - 1) -> C.ssize_t arch x = x.
Proof.
  intros H. unfold C.ssize_t. apply swrap_small.
  - destruct arch; simpl; lia.
  - lia.
Qed.

Lemma firstn_window {A} (l : list A) (off n L : nat) :
  (off + n <= L)%nat ->
  firstn n (skipn off (firstn L l)) = firstn n (skipn off l).
Proof.
  intros H. rewrite skipn_firstn_comm, firstn_firstn.
  f_equal. lia.
Qed.

Lemma read_bytes_inside (p : bytes) (ofs n : Z) :
  0 <= ofs -> 0 <= n -> ofs + n <= len p ->
  read_bytes p ofs n = Some (firstn (Z.to_nat n) (skipn (Z.to_nat ofs) p)).
Proof.
  intros Ho Hn Hin. unfold read_bytes.
  destruct (Z.leb_spec 0 ofs); [| lia].
  destruct (Z.leb_spec 0 n); [| lia].
  destruct (Z.leb_spec (ofs + n) (len p)); [| lia].
  reflexivity.
Qed.

(** C8: after a successful decode of length [L] (within the capacity
    RB_ART_SIZE of the output buffer), a read at offset [off] for [count]
    bytes returns 0 and no byte when [off >= L], and otherwise returns
    [min count (L - off)] and that many bytes, which are the bytes of the
    decoded buffer from [off] on; all of them lie below [L].  [off] is a
    file offset (not negative) and [count] a length that [ssize_t] can
    return. *)
Theorem bin_read_window (d : driver) (off count : Z) (s : kstate)
    (block : nat -> byte) (decoded : bytes) (L : Z) (s2 : kstate) :
  let w := hc_wlandata_battr d in
  let cap := C.size_t arch (RB_ART_SIZE X) in
  wpld_len w <> 0 -> wpld_len w <= cap ->
  kmalloc_fn X (kallocs s) cap = Some block ->
  hc_wlan_data_unpack d (wpld_ofs w) (wpld_len w)
    (map block (seq 0 (Z.to_nat cap))) cap
    {| klog := klog s ++ [EvKmalloc cap]; kallocs := S (kallocs s) |}
  = Returns (0, decoded, L) s2 ->
  L <= cap ->
  0 <= off < 2 ^ 63 ->
  0 <= count < 2 ^ (C.size_bits arch - 1) ->
  let n := if off >=? L then 0 else Z.min count (L - off) in
  let data :=
    firstn (Z.to_nat n) (skipn (Z.to_nat off) (firstn (Z.to_nat L) decoded)) in
  hc_wlan_data_bin_read d off count s = Returns (n, data) (record [EvKfree] s2)
  /\ len data = n.
Proof.
  intros w cap Hnz Hfit Hblock Hunpack HL Hoff Hcount n data.
  pose proof (size_t_range (RB_ART_SIZE X)) as Hcap. fold cap in Hcap.
  destruct (hc_wlan_data_unpack_keeps d (wpld_ofs w) (wpld_len w)
              (map block (seq 0 (Z.to_nat cap))) cap Hcap _ _ _ _ _ Hunpack)
    as [Hsize HLrange].
  rewrite length_map, length_seq in Hsize.
  assert (Hdec : len decoded = cap) by (unfold len; lia).
  assert (Hbits : 2 ^ C.size_bits arch = 2 * 2 ^ (C.size_bits arch - 1))
    by (destruct arch; reflexivity).
  assert (Hlen : len data = n).
  { unfold data, len. rewrite length_firstn, length_skipn, length_firstn.
    unfold n in *. destruct (Z.geb_spec off L); lia. }
  split; [| exact Hlen].
  unfold hc_wlan_data_bin_read. fold w cap.
  destruct (Z.eqb_spec (wpld_len w) 0); [contradiction |].
  destruct (Z.gtb_spec (wpld_len w) cap); [lia |].
  unfold kmalloc at 1. unfold bind at 1. rewrite Hblock. cbn [option_map].
  unfold bind at 1. rewrite Hunpack. cbn [Z.eqb negb].
  rewrite loff_size_small by exact Hoff.
  unfold data, n. destruct (Z.geb_spec off L) as [Hge | Hlt].
  - reflexivity.
  - assert (Hsum : C.loff_size arch (off + count) = off + count).
    { destruct arch; unfold C.loff_size.
      - apply swrap_small; [lia |]. cbn [C.size_bits] in *. lia.
      - apply wrap_small. cbn [C.size_bits] in *. lia. }
    rewrite Hsum.
    assert (Hcount' :
              (if off + count >? L then C.size_t arch (L - off) else count)
              = Z.min count (L - off)).
    { destruct (Z.gtb_spec (off + count) L).
      - rewrite size_t_small by lia. lia.
      - lia. }
    rewrite Hcount'.
    rewrite read_bytes_inside by lia.
    run. rewrite ssize_t_count by lia.
    rewrite firstn_window by lia. reflexivity.
Qed.

(** *** The attributes after [rb_hardconfig_init] *)

Lemma located_tag_id (buf : bytes) (buflen : Z) (a : hc_attr) :
  tag_id (located buf buflen a) = tag_id a
  /\ tshow (located buf buflen a) = tshow a.
Proof.
  unfold located.
  destruct (routerboot_tag_find_fn X buf buflen (tag_id a)) as [[ret ofs] n].
  destruct (negb (C.int ret =? 0)); split; reflexivity.
Qed.

Lemma located_pld (buf : bytes) (buflen : Z) (a : hc_attr) (ret ofs n : Z) :
  routerboot_tag_find_fn X buf buflen (tag_id a) = (ret, ofs, n) ->
  (C.int ret <> 0 -> pld_len (located buf buflen a) = 0)
  /\ (C.int ret = 0 ->
      pld_len (located buf buflen a) = C.u16 n
      /\ pld_ofs (located buf buflen a) = C.u16 (C.u16 ofs + 4)).
Proof.
  intros Hfind. unfold located. rewrite Hfind.
  destruct (Z.eqb_spec (C.int ret) 0) as [E | E]; cbn [negb]; split;
    intros H; try contradiction; auto.
Qed.

Lemma locate_returns (buf : bytes) (buflen : Z) (a : hc_attr)
    (w : hc_wlan_attr) (s : kstate) :
  exists w' s',
    locate buf buflen a w s = Returns (located buf buflen a, w') s'
    /\ (pld_len (located buf buflen a) = 0 -> w' = w)
    /\ (tag_id a <> RB_ID_WLAN_DATA -> w' = w).
Proof.
  unfold locate, located. run.
  destruct (routerboot_tag_find_fn X buf buflen (tag_id a)) as [[ret ofs] n].
  cbv beta iota zeta.
  destruct (negb (C.int ret =? 0)).
  - eexists _, _. split; [reflexivity |]. split; reflexivity.
  - cbn [tag_id pld_len pld_ofs set_pld].
    destruct (Z.eqb_spec RB_ID_WLAN_DATA (tag_id a)) as [Ew | Ew];
      destruct (Z.eqb_spec (C.u16 n) 0) as [En | En]; cbn [negb andb];
      eexists _, _; (split; [reflexivity |]); split; intros H;
      try reflexivity; try congruence.
Qed.

Lemma locate_all_returns (buf : bytes) (buflen : Z) (attrs : list hc_attr) :
  forall (w : hc_wlan_attr) (s : kstate),
  exists w' s',
    locate_all buf buflen attrs w s
      = Returns (map (located buf buflen) attrs, w') s'
    /\ ((forall a, In a attrs -> tag_id a = RB_ID_WLAN_DATA ->
          pld_len (located buf buflen a) = 0) -> w' = w).
Proof.
  induction attrs as [| a rest IH]; intros w s.
  - exists w, s. split; [reflexivity | auto].
  - destruct (locate_returns buf buflen a w s) as (w1 & s1 & H1 & Hz & Hid).
    destruct (IH w1 s1) as (w2 & s2 & H2 & Hrest).
    exists w2, s2. split.
    + cbn [locate_all map]. unfold bind. rewrite H1, H2. reflexivity.
    + intros Hall. rewrite Hrest by (intros b Hb; apply Hall; right; exact Hb).
      destruct (Z.eq_dec (tag_id a) RB_ID_WLAN_DATA) as [E | E].
      * apply Hz. apply Hall; [left; reflexivity | exact E].
      * apply Hid. exact E.
Qed.

(** What a successful [rb_hardconfig_init] leaves in the file-scope
    variables. *)
Lemma rb_hardconfig_init_ok (s s' : kstate) (d : driver) :
  rb_hardconfig_init s = Returns (0, Some d) s' ->
  let buf := ptr_add (hc_buf d) 4 in
  let buflen := C.size_t arch (hc_buflen d - 4) in
  hc_buflen d = len (hc_buf d)
  /\ 0 <= hc_buflen d < 2 ^ C.size_bits arch
  /\ hc_attrs d = map (located buf buflen) hc_attrs_init
  /\ ((forall a, In a hc_attrs_init -> tag_id a = RB_ID_WLAN_DATA ->
        pld_len (located buf buflen a) = 0) ->
      hc_wlandata_battr d = hc_wlandata_battr_init).
Proof.
  unfold rb_hardconfig_init. intros H.
  destruct (get_mtd_device_nm_fn X) as [mtd |]; [| returned H].
  unfold kmalloc in H. run_in H.
  destruct (kmalloc_fn X (kallocs s) (C.size_t arch (mtd_size mtd)))
    as [block |]; cbn [option_map] in H; [| returned H].
  destruct (mtd_read_fn mtd) as [[ret bytes_read] data].
  cbv beta iota zeta in H.
  destruct (negb (C.int ret =? 0)); [returned H |].
  destruct (negb (C.size_t arch bytes_read =? C.size_t arch (mtd_size mtd)));
    [returned H |].
  match type of H with context [load_u32 cpu ?b] =>
    set (buf0 := b) in *; destruct (load_u32 cpu buf0) as [magic |]
  end; [| discriminate].
  destruct (negb (C.u32 (RB_MAGIC_HARD X) =? magic)); [returned H |].
  destruct (negb (kobject_create_and_add_fn X)); [returned H |].
  match type of H with context [locate_all ?b ?l ?attrs ?w ?st] =>
    destruct (locate_all_returns b l attrs w st) as (w' & st' & Hrun & Hw)
  end.
  rewrite Hrun in H. returned H. cbn [hc_buf hc_buflen hc_attrs hc_wlandata_battr].
  pose proof (size_t_range (mtd_size mtd)) as Hrange.
  split; [| split; [exact Hrange | split; [reflexivity | exact Hw]]].
  unfold buf0, len. rewrite deposit_length, length_map, length_seq. lia.
Qed.


(** *** The length test on the embedded record *)

(** What the strategies do test: an embedded record whose declared length
    exceeds the length of the region is refused with -EINVAL before the
    decompressor is called. *)
Lemma erd_length_guard (inbuf : bytes) (inlen : Z) (outbuf : bytes)
    (outlen : Z) (s : kstate) (ofs n : Z) :
  routerboot_tag_find_fn X inbuf inlen 0x1 = (0, ofs, n) ->
  C.u16 n > inlen ->
  hc_wlan_data_unpack_erd inbuf inlen outbuf outlen s
    = Returns (- EINVAL, outbuf, outlen) (record [EvTagFind inbuf inlen 0x1] s).
Proof.
  intros Hfind Hlong. unfold hc_wlan_data_unpack_erd. run. rewrite Hfind.
  cbv beta iota zeta. change (negb (C.int 0 =? 0)) with false. cbv iota.
  destruct (Z.gtb_spec (C.u16 n) inlen); [reflexivity | lia].
Qed.

(** What they do not test is where the payload starts: a record whose
    declared length fits the region is handed to the decompressor whatever
    its offset. *)
Lemma erd_offset_unchecked (inbuf : bytes) (inlen : Z) (outbuf : bytes)
    (outlen : Z) (s : kstate) (ofs n : Z) :
  routerboot_tag_find_fn X inbuf inlen 0x1 = (0, ofs, n) ->
  C.u16 n <= inlen ->
  filter is_decode
    (events_of (hc_wlan_data_unpack_erd inbuf inlen outbuf outlen) s)
  = [EvLzo (ptr_add inbuf (C.u16 ofs)) (C.u16 n) outlen].
Proof.
  intros Hfind Hfits.
  destruct (lzo1x_decompress_safe_fn X (ptr_add inbuf (C.u16 ofs)) (C.u16 n)
              outlen) as [[r w] l] eqn:Hlzo.
  rewrite (events_of_returns _ s (C.int r, deposit w outbuf, C.size_t arch l)
             [EvTagFind inbuf inlen 0x1;
              EvLzo (ptr_add inbuf (C.u16 ofs)) (C.u16 n) outlen]);
    [reflexivity |].
  unfold hc_wlan_data_unpack_erd. run. rewrite Hfind.
  cbv beta iota zeta. change (negb (C.int 0 =? 0)) with false. cbv iota.
  destruct (Z.gtb_spec (C.u16 n) inlen); [lia |].
  rewrite Hlzo, record_record. reflexivity.
Qed.

(** Where the search stays inside the decompressed data: when its length is
    a positive multiple of four within the scratch buffer, every load of
    the loop lies inside the decompressed data and the loop ends with a
    match inside it or with "not found". *)
Lemma needle_loop_aligned (tempbuf : bytes) (templen : Z) (fuel : nat) :
  templen mod 4 = 0 -> templen <= len tempbuf ->
  forall start r probes,
    0 <= start < templen -> start mod 4 = 0 ->
    needle_loop fuel tempbuf templen start = Some (r, probes) ->
    r <> ScanStray
    /\ (forall p, In p probes -> 0 <= p /\ p + 4 <= templen)
    /\ (forall needle, r = ScanFound needle -> needle <= templen).
Proof.
  intros Hmod Hcap. induction fuel as [| fuel IH];
    intros start r probes Hstart Hal Hrun; [discriminate |].
  assert (Hword : start + 4 <= templen).
  { pose proof (Z.div_mod templen 4 ltac:(lia)).
    pose proof (Z.div_mod start 4 ltac:(lia)). lia. }
  cbn [needle_loop] in Hrun.
  destruct (needle_step tempbuf templen start) as [r0 | next] eqn:Hs.
  - returned Hrun. unfold needle_step in Hs.
    destruct (load_u32_some (ptr_add tempbuf start)) as [w Hw].
    { rewrite len_ptr_add by lia. lia. }
    rewrite Hw in Hs.
    destruct (C.u32 (RB_MAGIC_ERD X) =? w).
    + returned Hs. split; [discriminate |]. split.
      * intros p [<- | []]. lia.
      * intros needle E. inversion E. lia.
    + destruct (start + 4 >=? templen); [| discriminate].
      returned Hs. split; [discriminate |]. split.
      * intros p [<- | []]. lia.
      * intros needle E. discriminate.
  - apply needle_step_next in Hs. destruct Hs as [-> Hlt].
    destruct (needle_loop fuel tempbuf templen (start + 4))
      as [[r' probes'] |] eqn:E; [| discriminate].
    returned Hrun.
    assert (Hal' : (start + 4) mod 4 = 0).
    { replace (start + 4) with (start + 1 * 4) by lia.
      rewrite Z.mod_add by lia. exact Hal. }
    assert (Hrange : 0 <= start + 4 < templen) by lia.
    destruct (IH _ _ _ Hrange Hal' E) as (Hr & Hp & Hf).
    split; [exact Hr |]. split; [| exact Hf].
    intros p [<- | Hin]; [lia | apply Hp; exact Hin].
Qed.

(* ================================================================== *)
(** ** Further properties of the driver *)

(** *** What the search finds *)

Lemma needle_step_miss (tempbuf : bytes) (templen needle : Z) (r : scan_result + Z) :
  needle_step tempbuf templen needle = r ->
  (forall found, r <> inl (ScanFound found)) -> r <> inl ScanStray ->
  exists w, load_u32 cpu (ptr_add tempbuf needle) = Some w
            /\ w <> C.u32 (RB_MAGIC_ERD X).
Proof.
  unfold needle_step. intros H Hnf Hns.
  destruct (load_u32 cpu (ptr_add tempbuf needle)) as [w |];
    [| subst r; contradiction].
  exists w. split; [reflexivity |].
  destruct (Z.eqb_spec (C.u32 (RB_MAGIC_ERD X)) w) as [E | E];
    [| congruence].
  subst r. exfalso. eapply Hnf. reflexivity.
Qed.

Lemma needle_loop_misses (tempbuf : bytes) (templen : Z) (fuel : nat) :
  forall start r probes,
    needle_loop fuel tempbuf templen start = Some (r, probes) ->
    (forall needle, r = ScanFound needle ->
       forall k, 0 <= k -> start + 4 * k < needle - 4 ->
       exists w, load_u32 cpu (ptr_add tempbuf (start + 4 * k)) = Some w
                 /\ w <> C.u32 (RB_MAGIC_ERD X))
    /\ (r = ScanNotFound ->
        forall k, 0 <= k -> start + 4 * k < templen \/ k = 0 ->
        exists w, load_u32 cpu (ptr_add tempbuf (start + 4 * k)) = Some w
                  /\ w <> C.u32 (RB_MAGIC_ERD X))
    /\ (r = ScanStray ->
        exists p, In p probes /\ load_u32 cpu (ptr_add tempbuf p) = None).
Proof.
  induction fuel as [| fuel IH]; intros start r probes Hrun; [discriminate |].
  cbn [needle_loop] in Hrun.
  destruct (needle_step tempbuf templen start) as [r0 | next] eqn:Hs.
  - returned Hrun. split; [| split].
    + intros needle -> k Hk Hlt. exfalso.
      unfold needle_step in Hs.
      destruct (load_u32 cpu (ptr_add tempbuf start)); [| discriminate].
      destruct (C.u32 (RB_MAGIC_ERD X) =? z).
      * returned Hs. lia.
      * destruct (start + 4 >=? templen); discriminate.
    + intros -> k Hk Hin.
      assert (Hge : start + 4 >= templen).
      { unfold needle_step in Hs.
        destruct (load_u32 cpu (ptr_add tempbuf start)); [| discriminate].
        destruct (C.u32 (RB_MAGIC_ERD X) =? z); [discriminate |].
        destruct (Z.geb_spec (start + 4) templen); [lia | discriminate]. }
      assert (k = 0) by lia. subst k.
      replace (start + 4 * 0) with start by lia.
      apply (needle_step_miss _ _ _ _ Hs); intros; discriminate.
    + intros ->. exists start. split; [left; reflexivity |].
      unfold needle_step in Hs.
      destruct (load_u32 cpu (ptr_add tempbuf start)); [| reflexivity].
      destruct (C.u32 (RB_MAGIC_ERD X) =? z); [discriminate |].
      destruct (start + 4 >=? templen); discriminate.
  - assert (Hmiss : exists w, load_u32 cpu (ptr_add tempbuf start) = Some w
                              /\ w <> C.u32 (RB_MAGIC_ERD X))
      by (apply (needle_step_miss _ _ _ _ Hs); intros; discriminate).
    apply needle_step_next in Hs. destruct Hs as [-> Hlt].
    destruct (needle_loop fuel tempbuf templen (start + 4))
      as [[r' probes'] |] eqn:E; [| discriminate].
    returned Hrun. destruct (IH _ _ _ E) as (Hf & Hn & Hst).
    assert (Hshift : forall k, 0 < k ->
              start + 4 * k = start + 4 + 4 * (k - 1)) by (intros; lia).
    split; [| split].
    + intros needle Hr k Hk Hbound.
      destruct (Z.eq_dec k 0) as [-> | Hk0].
      * replace (start + 4 * 0) with start by lia. exact Hmiss.
      * rewrite Hshift by lia. apply (Hf needle Hr); lia.
    + intros Hr k Hk Hbound.
      destruct (Z.eq_dec k 0) as [-> | Hk0].
      * replace (start + 4 * 0) with start by lia. exact Hmiss.
      * rewrite Hshift by lia. apply (Hn Hr); lia.
    + intros Hr. destruct (Hst Hr) as (p & Hp & Hload).
      exists p. split; [right; exact Hp | exact Hload].
Qed.

(** X1: what the search for the magic number computes.  When it ends with
    a match, the pointer is a multiple of four bytes past the start, the
    word before it is RB_MAGIC_ERD, and no word at an earlier multiple of
    four is: it is the first aligned occurrence.  When it ends with "not
    found", no word at a multiple of four below [templen] is the magic.
    It ends otherwise only when a load has left the scratch buffer. *)
Theorem needle_scan_first_match (tempbuf : bytes) (templen : Z)
    (r : scan_result) (probes : list Z) :
  needle_loop (scan_fuel templen) tempbuf templen 0 = Some (r, probes) ->
  let word p := load_u32 cpu (ptr_add tempbuf p) in
  let magic := C.u32 (RB_MAGIC_ERD X) in
  match r with
  | ScanFound needle =>
      4 <= needle /\ needle mod 4 = 0 /\ word (needle - 4) = Some magic
      /\ forall k, 0 <= k -> 4 * k < needle - 4 ->
         exists w, word (4 * k) = Some w /\ w <> magic
  | ScanNotFound =>
      forall k, 0 <= k -> 4 * k < templen ->
      exists w, word (4 * k) = Some w /\ w <> magic
  | ScanStray => exists p, In p probes /\ word p = None
  end.
Proof.
  intros Hrun word magic.
  destruct (needle_loop_misses _ _ _ _ _ _ Hrun) as (Hf & Hn & Hs).
  destruct r as [needle | |].
  - destruct (needle_loop_found _ _ _ _ _ _ Hrun) as (Hle & Hmod & _ & Hw).
    split; [lia |]. split.
    { replace needle with (needle - 4 - 0 + 1 * 4) by lia.
      rewrite Z.mod_add by lia. exact Hmod. }
    split; [exact Hw |].
    intros k Hk Hlt. apply (Hf needle eq_refl k Hk). lia.
  - intros k Hk Hlt. apply (Hn eq_refl k Hk). left. lia.
  - apply Hs. reflexivity.
Qed.

(** *** The Lzor strategy stays inside its buffers *)

Lemma blit_inside (dst : bytes) (dofs : Z) (src : bytes) (n : Z) :
  0 <= n <= len src -> 0 <= dofs -> dofs + n <= len dst ->
  blit dst dofs src n
  = Some (firstn (Z.to_nat dofs) dst ++ firstn (Z.to_nat n) src
          ++ skipn (Z.to_nat (dofs + n)) dst).
Proof.
  intros Hn Hd Hfit. unfold blit.
  destruct (Z.leb_spec 0 n); [| lia].
  destruct (Z.leb_spec n (len src)); [| lia].
  destruct (Z.leb_spec 0 dofs); [| lia].
  destruct (Z.leb_spec (dofs + n) (len dst)); [| lia].
  reflexivity.
Qed.

(** Two copies in a row: [pre] to the start of [dst], then [n] bytes of
    [src] behind it. *)
Lemma blit_concat (pre dst src : bytes) (n : Z) :
  0 <= n <= len src -> len pre + n <= len dst ->
  exists mid,
    blit dst 0 pre (len pre) = Some mid
    /\ blit mid (len pre) src n
       = Some (pre ++ firstn (Z.to_nat n) src
               ++ skipn (Z.to_nat (len pre + n)) dst).
Proof.
  intros Hn Hfit. pose proof (len_nonneg pre) as Hpre.
  exists (pre ++ skipn (List.length pre) dst).
  assert (Hto : Z.to_nat (len pre) = List.length pre)
    by (unfold len; lia).
  split.
  - rewrite blit_inside by lia.
    replace (0 + len pre) with (len pre) by lia.
    rewrite Hto, firstn_all. reflexivity.
  - rewrite blit_inside.
    + rewrite Hto. f_equal.
      rewrite firstn_app, firstn_all, Nat.sub_diag. cbn [firstn].
      rewrite app_nil_r. f_equal. f_equal.
      rewrite skipn_app, skipn_skipn.
      replace (Z.to_nat (len pre + n) - List.length pre)%nat with (Z.to_nat n)
        by (unfold len; lia).
      rewrite skipn_all2 by (unfold len; lia). cbn [app].
      f_equal. unfold len. lia.
    + lia.
    + lia.
    + unfold len in *. rewrite length_app, length_skipn. lia.
Qed.

Lemma sizeof_hc_lzor_prefix_len : len hc_lzor_prefix = sizeof_hc_lzor_prefix.
Proof. vm_compute. reflexivity. Qed.

(** X3: the concatenation of the Lzor strategy.  When the size test passes
    and the buffers hold what their lengths say (the record has [inlen]
    bytes, the output buffer [outlen]), both copies stay inside the output
    buffer and the decompressor is the first decoder to run, on the output
    buffer that now holds the dictionary prefix, then the record, then what
    was there before; its input length is the sum of the two lengths and
    its capacity is [outlen]. *)
Theorem hc_wlan_data_unpack_lzor_concat (inbuf : bytes) (inlen : Z)
    (outbuf : bytes) (outlen : Z) (s : kstate) :
  0 <= inlen <= len inbuf ->
  inlen + sizeof_hc_lzor_prefix <= outlen ->
  outlen <= len outbuf ->
  outlen < 2 ^ C.size_bits arch ->
  find is_decode
    (events_of (hc_wlan_data_unpack_lzor inbuf inlen (Some outbuf) outlen) s)
  = Some (EvLzo
            (hc_lzor_prefix ++ firstn (Z.to_nat inlen) inbuf
             ++ skipn (Z.to_nat (sizeof_hc_lzor_prefix + inlen)) outbuf)
            (inlen + sizeof_hc_lzor_prefix) outlen).
Proof.
  intros Hin Hfit Hout Hmax.
  assert (Hsz : C.size_t arch (inlen + sizeof_hc_lzor_prefix)
                = inlen + sizeof_hc_lzor_prefix).
  { apply size_t_small. unfold sizeof_hc_lzor_prefix in *. lia. }
  destruct (blit_concat hc_lzor_prefix outbuf inbuf inlen Hin) as (ob1 & Hb1 & Hb2).
  { rewrite sizeof_hc_lzor_prefix_len. lia. }
  rewrite sizeof_hc_lzor_prefix_len in Hb1, Hb2.
  set (ob2 := hc_lzor_prefix ++ _) in *.
  destruct (kmalloc_fn X (kallocs s) outlen) as [block |] eqn:Hblock.
  - destruct (lzo1x_decompress_safe_fn X ob2
                (C.size_t arch (inlen + sizeof_hc_lzor_prefix)) outlen)
      as [[ret written] out_len] eqn:Hlzo.
    pose proof (lzor_front inbuf inlen outbuf outlen s block ob1 ob2 ret
                  written out_len ltac:(lia) Hblock Hb1 Hb2 Hlzo) as Heq.
    cbv zeta in Heq. rewrite Hsz in Heq.
    unfold events_of. rewrite Heq.
    destruct (negb (C.int ret =? 0) && negb (LZO_E_INPUT_NOT_CONSUMED =? C.int ret)).
    + cbn [outcome_state record klog]. rewrite <- app_assoc.
      rewrite skipn_app_exact. reflexivity.
    + match goal with |- context [lzor_after_decompress ?t ?l ?o ?ol ?st] =>
        destruct (lzor_after_decompress_log t l o ol st) as (probes & rest & Hlog)
      end.
      rewrite Hlog. cbn [klog]. rewrite <- app_assoc.
      rewrite skipn_app_exact. reflexivity.
  - unfold events_of, hc_wlan_data_unpack_lzor. rewrite Hsz.
    destruct (Z.gtb_spec (inlen + sizeof_hc_lzor_prefix) outlen); [lia |].
    unfold kmalloc. run. rewrite Hblock. cbn [option_map].
    rewrite Hb1. cbv beta iota zeta. rewrite Hb2. cbv beta iota zeta.
    cbn [outcome_state record klog]. rewrite <- !app_assoc.
    rewrite skipn_app_exact. reflexivity.
Qed.

(** Every load of the search lies inside the scratch buffer when the size
    of the buffer is a positive multiple of four and the decompressed
    length does not exceed it. *)
Lemma needle_loop_in_allocation (tempbuf : bytes) (templen : Z) (fuel : nat) :
  len tempbuf mod 4 = 0 -> 4 <= len tempbuf -> templen <= len tempbuf ->
  forall start r probes,
    0 <= start -> start mod 4 = 0 -> start < templen \/ start = 0 ->
    needle_loop fuel tempbuf templen start = Some (r, probes) ->
    r <> ScanStray
    /\ forall p, In p probes -> 0 <= p /\ p + 4 <= len tempbuf.
Proof.
  intros Hmod Hfour Hcap. induction fuel as [| fuel IH];
    intros start r probes Hpos Hal Hstart Hrun; [discriminate |].
  assert (Hword : start + 4 <= len tempbuf).
  { pose proof (Z.div_mod (len tempbuf) 4 ltac:(lia)).
    pose proof (Z.div_mod start 4 ltac:(lia)). lia. }
  destruct (load_u32_some (ptr_add tempbuf start)) as [w Hw].
  { rewrite len_ptr_add by lia. lia. }
  cbn [needle_loop] in Hrun.
  destruct (needle_step tempbuf templen start) as [r0 | next] eqn:Hs.
  - returned Hrun. split.
    + unfold needle_step in Hs. rewrite Hw in Hs.
      destruct (C.u32 (RB_MAGIC_ERD X) =? w); [returned Hs; discriminate |].
      destruct (start + 4 >=? templen); [returned Hs; discriminate |].
      discriminate.
    + intros p [<- | []]. lia.
  - apply needle_step_next in Hs. destruct Hs as [-> Hlt].
    destruct (needle_loop fuel tempbuf templen (start + 4))
      as [[r' probes'] |] eqn:E; [| discriminate].
    returned Hrun.
    assert (Hal' : (start + 4) mod 4 = 0).
    { replace (start + 4) with (start + 1 * 4) by lia.
      rewrite Z.mod_add by lia. exact Hal. }
    assert (Hpos' : 0 <= start + 4) by lia.
    assert (Hstart' : start + 4 < templen \/ start + 4 = 0) by (left; lia).
    destruct (IH _ _ _ Hpos' Hal' Hstart' E) as (Hr & Hp).
    split; [exact Hr |].
    intros p [<- | Hin]; [lia | apply Hp; exact Hin].
Qed.

Lemma lzor_after_decompress_accesses (tempbuf : bytes) (templen : Z)
    (outbuf : bytes) (outlen : Z) (s : kstate) :
  len tempbuf mod 4 = 0 -> 4 <= len tempbuf -> templen <= len tempbuf ->
  exists a probes rest,
    lzor_after_decompress tempbuf templen outbuf outlen s
    = Returns a (record (map EvLoad32 probes ++ rest) s)
    /\ (forall p, In p probes -> 0 <= p /\ p + 4 <= len tempbuf)
    /\ forallb (fun e => negb (is_access e)) rest = true.
Proof.
  intros Hmod Hfour Hcap.
  destruct (needle_loop_first tempbuf templen) as (r & probes & Hrun).
  destruct (needle_loop_in_allocation tempbuf templen _ Hmod Hfour Hcap
              0 r (0 :: probes) ltac:(lia) eq_refl ltac:(right; reflexivity) Hrun)
    as [Hstray Hin].
  destruct r as [needle | |]; [| | contradiction].
  - rewrite (lzor_after_decompress_found _ _ _ _ _ _ _ Hrun). cbv zeta.
    destruct (routerboot_tag_find_fn X (ptr_add tempbuf needle)
                (C.size_t arch (templen - needle)) 1) as [[ret ofs] n].
    destruct (negb (C.int ret =? 0));
      [eexists; exists (0 :: probes); eexists;
       split; [reflexivity | split; [exact Hin | reflexivity]] |].
    destruct (C.u16 n >? C.size_t arch (templen - needle));
      [eexists; exists (0 :: probes); eexists;
       split; [reflexivity | split; [exact Hin | reflexivity]] |].
    destruct (routerboot_rle_decode_fn X
                (ptr_add tempbuf (needle + C.u16 ofs)) (C.u16 n) outlen)
      as [[ret' written] out_len].
    eexists; exists (0 :: probes); eexists.
    split; [reflexivity | split; [exact Hin | reflexivity]].
  - eexists; exists (0 :: probes); exists [EvKfree].
    split; [| split; [exact Hin | reflexivity]].
    unfold lzor_after_decompress, needle_scan. run. rewrite Hrun.
    rewrite record_record. reflexivity.
Qed.

(** X2: the accesses of the Lzor strategy stay inside its buffers.  With a
    record of [inlen] bytes, an output buffer of [outlen] bytes, [outlen] a
    multiple of four (as RB_ART_SIZE is), a scratch buffer that the
    allocator did hand out and a decompressor that reports no more output
    than its capacity: every copy the strategy makes lies inside the
    output buffer, every load of the search lies inside the scratch
    buffer, and the search ends, so that the strategy returns when the
    decoders of the environment do, whatever the record holds.  What the
    decoders themselves read is not part of this statement. *)
Theorem hc_wlan_data_unpack_lzor_accesses (inbuf : bytes) (inlen : Z)
    (outbuf : bytes) (outlen : Z) (s : kstate) (block : nat -> byte) :
  0 <= inlen <= len inbuf ->
  inlen + sizeof_hc_lzor_prefix < 2 ^ C.size_bits arch ->
  0 <= outlen <= len outbuf ->
  outlen < 2 ^ C.size_bits arch ->
  outlen mod 4 = 0 ->
  kmalloc_fn X (kallocs s) outlen = Some block ->
  (let src :=
     hc_lzor_prefix ++ firstn (Z.to_nat inlen) inbuf
     ++ skipn (Z.to_nat (sizeof_hc_lzor_prefix + inlen)) outbuf in
   let '(_, _, out_len) :=
     lzo1x_decompress_safe_fn X src (inlen + sizeof_hc_lzor_prefix) outlen in
   C.size_t arch out_len <= outlen) ->
  let run := hc_wlan_data_unpack_lzor inbuf inlen (Some outbuf) outlen in
  (exists a s', run s = Returns a s')
  /\ (forall dofs n, In (EvStore dofs n) (events_of run s) ->
      0 <= dofs /\ 0 <= n /\ dofs + n <= outlen)
  /\ (forall p, In (EvLoad32 p) (events_of run s) ->
      0 <= p /\ p + 4 <= outlen).
Proof.
  intros Hin Hrep Hout Hmax Hmod Hblock Hlzo run.
  assert (Hsz : C.size_t arch (inlen + sizeof_hc_lzor_prefix)
                = inlen + sizeof_hc_lzor_prefix).
  { apply size_t_small. unfold sizeof_hc_lzor_prefix in *. lia. }
  destruct (Z_gt_le_dec (inlen + sizeof_hc_lzor_prefix) outlen) as [Hbig | Hfit].
  { assert (Heq : run s = Returns (C.int (- EFBIG), outbuf, outlen) s).
    { unfold run, hc_wlan_data_unpack_lzor. rewrite Hsz.
      destruct (Z.gtb_spec (inlen + sizeof_hc_lzor_prefix) outlen); [| lia].
      reflexivity. }
    rewrite (events_of_unchanged _ _ _ Heq).
    split; [eauto |]. split; intros ? *; intros []. }
  destruct (blit_concat hc_lzor_prefix outbuf inbuf inlen Hin) as (ob1 & Hb1 & Hb2).
  { rewrite sizeof_hc_lzor_prefix_len. lia. }
  rewrite sizeof_hc_lzor_prefix_len in Hb1, Hb2.
  cbv zeta in Hlzo.
  set (ob2 := hc_lzor_prefix ++ _) in *.
  destruct (lzo1x_decompress_safe_fn X ob2
              (inlen + sizeof_hc_lzor_prefix) outlen)
    as [[ret written] out_len] eqn:Hcall.
  rewrite <- Hsz in Hcall.
  pose proof (lzor_front inbuf inlen outbuf outlen s block ob1 ob2 ret
                written out_len ltac:(lia) Hblock Hb1 Hb2 Hcall) as Heq.
  cbv zeta in Heq. fold run in Heq.
  set (front := [EvKmalloc outlen; EvStore 0 sizeof_hc_lzor_prefix;
                 EvStore sizeof_hc_lzor_prefix inlen;
                 EvLzo ob2 (C.size_t arch (inlen + sizeof_hc_lzor_prefix))
                   outlen]) in *.
  assert (Hlog : exists a s' tail,
             run s = Returns a s'
             /\ events_of run s = front ++ tail
             /\ (forall p, In (EvLoad32 p) tail -> 0 <= p /\ p + 4 <= outlen)
             /\ (forall dofs n, ~ In (EvStore dofs n) tail)).
  { destruct (negb (C.int ret =? 0)
              && negb (LZO_E_INPUT_NOT_CONSUMED =? C.int ret)).
    - eexists. eexists. exists [EvKfree].
      split; [exact Heq |]. split.
      + unfold events_of. rewrite Heq. cbn [outcome_state record klog].
        rewrite <- app_assoc. apply skipn_app_exact.
      + split.
        * intros p [Hp | []]. discriminate Hp.
        * intros dofs n [Hp | []]. discriminate Hp.
    - assert (Hlen : len (deposit written (map block (seq 0 (Z.to_nat outlen))))
                     = outlen).
      { unfold len. rewrite deposit_length, length_map, length_seq. lia. }
      match type of Heq with _ = lzor_after_decompress ?tb ?tl ?ob ?ol ?st =>
        destruct (lzor_after_decompress_accesses tb tl ob ol st)
          as (a & probes & rest & Hafter & Hprobes & Hrest)
      end.
      + rewrite Hlen. exact Hmod.
      + rewrite Hlen. unfold sizeof_hc_lzor_prefix in *. lia.
      + rewrite Hlen. exact Hlzo.
      + rewrite Hlen in Hprobes. rewrite Hafter in Heq.
        eexists. eexists. exists (map EvLoad32 probes ++ rest).
        split; [exact Heq |]. split.
        * unfold events_of. rewrite Heq. cbn [outcome_state record klog].
          rewrite <- app_assoc. apply skipn_app_exact.
        * rewrite forallb_forall in Hrest. split.
          -- intros p Hp. apply in_app_or in Hp. destruct Hp as [Hp | Hp].
             ++ apply in_map_iff in Hp. destruct Hp as (q & Hq & Hin').
                injection Hq as <-. apply Hprobes. exact Hin'.
             ++ apply Hrest in Hp. discriminate Hp.
          -- intros dofs n Hp. apply in_app_or in Hp. destruct Hp as [Hp | Hp].
             ++ apply in_map_iff in Hp. destruct Hp as (q & Hq & _).
                discriminate Hq.
             ++ apply Hrest in Hp. discriminate Hp. }
  destruct Hlog as (a & s' & tail & Hrun & Hes & Hloads & Hstores).
  split; [eauto |]. rewrite Hes. unfold front. split.
  - intros dofs n Hp. cbn [In app] in Hp.
    destruct Hp as [Hp | [Hp | [Hp | [Hp | Hp]]]]; try discriminate Hp.
    + injection Hp as <- <-. unfold sizeof_hc_lzor_prefix in *. lia.
    + injection Hp as <- <-. unfold sizeof_hc_lzor_prefix in *. lia.
    + exfalso. exact (Hstores _ _ Hp).
  - intros p Hp. cbn [In app] in Hp.
    destruct Hp as [Hp | [Hp | [Hp | [Hp | Hp]]]]; try discriminate Hp.
    apply Hloads. exact Hp.
Qed.

(** *** Memory is given back *)

Lemma allocations_app (a b : list event) :
  allocations (a ++ b) = (allocations a + allocations b)%nat.
Proof. unfold allocations. rewrite filter_app, length_app. reflexivity. Qed.

Lemma releases_app (a b : list event) :
  releases (a ++ b) = (releases a + releases b)%nat.
Proof. unfold releases. rewrite filter_app, length_app. reflexivity. Qed.

Lemma loads_neutral (probes : list Z) :
  allocations (map EvLoad32 probes) = 0%nat
  /\ releases (map EvLoad32 probes) = 0%nat.
Proof.
  unfold allocations, releases.
  rewrite !filter_loads by reflexivity. split; reflexivity.
Qed.

Lemma events_of_klog {A} (c : M A) (s : kstate) (es : list event) :
  klog (outcome_state (c s)) = klog s ++ es -> events_of c s = es.
Proof. intros H. unfold events_of. rewrite H. apply skipn_app_exact. Qed.

(** The second half of the Lzor strategy frees the scratch buffer once on
    every path that returns, and allocates nothing. *)
Lemma lzor_after_decompress_releases (tempbuf : bytes) (templen : Z)
    (outbuf : bytes) (outlen : Z) (s : kstate) a s' :
  lzor_after_decompress tempbuf templen outbuf outlen s = Returns a s' ->
  exists es, klog s' = klog s ++ es
             /\ allocations es = 0%nat /\ releases es = 1%nat.
Proof.
  intros H.
  destruct (needle_loop (scan_fuel templen) tempbuf templen 0)
    as [[[needle | |] probes] |] eqn:Hloop.
  - rewrite (lzor_after_decompress_found _ _ _ _ _ _ _ Hloop) in H.
    cbv zeta in H. destruct (loads_neutral probes) as [Ha Hr].
    destruct (routerboot_tag_find_fn X (ptr_add tempbuf needle)
                (C.size_t arch (templen - needle)) 1) as [[r ofs] n].
    destruct (negb (C.int r =? 0)).
    { returned H. eexists. split; [reflexivity |].
      rewrite allocations_app, releases_app, Ha, Hr. split; reflexivity. }
    destruct (C.u16 n >? C.size_t arch (templen - needle)).
    { returned H. eexists. split; [reflexivity |].
      rewrite allocations_app, releases_app, Ha, Hr. split; reflexivity. }
    destruct (routerboot_rle_decode_fn X
                (ptr_add tempbuf (needle + C.u16 ofs)) (C.u16 n) outlen)
      as [[r' w] l].
    returned H. eexists. split; [reflexivity |].
    rewrite allocations_app, releases_app, Ha, Hr. split; reflexivity.
  - unfold lzor_after_decompress, needle_scan in H. run_in H.
    rewrite Hloop in H. returned H. destruct (loads_neutral probes) as [Ha Hr].
    exists (map EvLoad32 probes ++ [EvKfree]). split.
    + cbn [record klog]. rewrite <- app_assoc. reflexivity.
    + rewrite allocations_app, releases_app, Ha, Hr. split; reflexivity.
  - unfold lzor_after_decompress, needle_scan in H. run_in H.
    rewrite Hloop in H. discriminate.
  - unfold lzor_after_decompress, needle_scan in H. run_in H.
    rewrite Hloop in H. discriminate.
Qed.

Lemma hc_wlan_data_unpack_lzor_balanced (inbuf : bytes) (inlen : Z)
    (outbuf : bytes) (outlen : Z) (s : kstate) a s' :
  hc_wlan_data_unpack_lzor inbuf inlen (Some outbuf) outlen s = Returns a s' ->
  exists es, klog s' = klog s ++ es
             /\ allocations es = releases es /\ (allocations es <= 1)%nat.
Proof.
  intros H. unfold hc_wlan_data_unpack_lzor in H.
  destruct (C.size_t arch (inlen + sizeof_hc_lzor_prefix) >? outlen).
  { returned H. exists []. rewrite app_nil_r.
    split; [reflexivity | split; [reflexivity | cbn; lia]]. }
  unfold kmalloc in H. run_in H.
  destruct (blit outbuf 0 hc_lzor_prefix sizeof_hc_lzor_prefix) as [ob1 |];
    [| discriminate].
  cbv beta iota zeta in H.
  destruct (blit ob1 sizeof_hc_lzor_prefix inbuf inlen) as [ob2 |];
    [| discriminate].
  cbv beta iota zeta in H.
  destruct (option_map _ (kmalloc_fn X (kallocs s) outlen)) as [tempbuf |];
    [| discriminate].
  destruct (lzo1x_decompress_safe_fn X ob2
              (C.size_t arch (inlen + sizeof_hc_lzor_prefix)) outlen)
    as [[r w] l].
  cbv beta iota zeta in H.
  destruct (negb (C.int r =? 0) && negb (LZO_E_INPUT_NOT_CONSUMED =? C.int r)).
  - returned H. eexists. cbn [record klog]. rewrite <- !app_assoc.
    split; [reflexivity | split; [reflexivity | cbn; lia]].
  - apply lzor_after_decompress_releases in H.
    destruct H as (es & Hlog & Ha & Hr).
    cbn [record klog] in Hlog. rewrite <- !app_assoc in Hlog.
    eexists. split; [exact Hlog |].
    cbn [app]. unfold allocations, releases in *.
    cbn [filter is_kmalloc is_kfree List.length].
    rewrite Ha, Hr. split; [reflexivity | lia].
Qed.

Lemma hc_wlan_data_unpack_erd_no_alloc (inbuf : bytes) (inlen : Z)
    (outbuf : bytes) (outlen : Z) (s : kstate) a s' :
  hc_wlan_data_unpack_erd inbuf inlen outbuf outlen s = Returns a s' ->
  exists es, klog s' = klog s ++ es
             /\ allocations es = 0%nat /\ releases es = 0%nat.
Proof.
  intros H. unfold hc_wlan_data_unpack_erd in H. run_in H.
  destruct (routerboot_tag_find_fn X inbuf inlen 1) as [[r ofs] n].
  cbv beta iota zeta in H.
  destruct (negb (C.int r =? 0)).
  { returned H. eexists. split; [reflexivity | split; reflexivity]. }
  destruct (C.u16 n >? inlen).
  { returned H. eexists. split; [reflexivity | split; reflexivity]. }
  destruct (lzo1x_decompress_safe_fn X (ptr_add inbuf (C.u16 ofs)) (C.u16 n)
              outlen) as [[r' w] l].
  returned H. eexists. cbn [record klog]. rewrite <- app_assoc.
  split; [reflexivity | split; reflexivity].
Qed.

Lemma hc_wlan_data_unpack_log (d : driver) (tofs tlen : Z)
    (outbuf : bytes) (outlen : Z) (s : kstate) a s' :
  hc_wlan_data_unpack d tofs tlen outbuf outlen s = Returns a s' ->
  exists es, klog s' = klog s ++ es
             /\ allocations es = releases es /\ (allocations es <= 1)%nat.
Proof.
  intros H. unfold hc_wlan_data_unpack in H.
  unfold bind, emit, load32, pure, crash in H. cbv beta iota zeta in H.
  destruct (C.size_t arch (tofs + tlen) >? hc_buflen d).
  { returned H. eexists.
    split; [reflexivity | split; [reflexivity | cbn; lia]]. }
  destruct (load_u32 cpu (ptr_add (hc_buf d) tofs)) as [magic |];
    [| discriminate].
  destruct (magic =? C.u32 (RB_MAGIC_LZOR X)).
  { apply hc_wlan_data_unpack_lzor_balanced in H.
    destruct H as (es' & Hlog & Hb & Hle).
    cbn [record klog] in Hlog. rewrite <- app_assoc in Hlog.
    eexists. split; [exact Hlog |]. split; [exact Hb | exact Hle]. }
  destruct (magic =? C.u32 (RB_MAGIC_ERD X)).
  { apply hc_wlan_data_unpack_erd_no_alloc in H.
    destruct H as (es' & Hlog & Ha & Hr).
    cbn [record klog] in Hlog. rewrite <- app_assoc in Hlog.
    eexists. split; [exact Hlog |].
    cbn [app]. unfold allocations, releases in *.
    cbn [filter is_kmalloc is_kfree List.length].
    rewrite Ha, Hr. split; [reflexivity | lia]. }
  run_in H.
  destruct (routerboot_rle_decode_fn X (ptr_add (hc_buf d) tofs) tlen outlen)
    as [[r w] l].
  returned H. eexists. cbn [record klog]. rewrite <- app_assoc.
  split; [reflexivity | split; [reflexivity | cbn; lia]].
Qed.

(** X4: [hc_wlan_data_unpack] gives back what it takes, when it is called
    with an output buffer that is allocated, as [hc_wlan_data_bin_read]
    calls it.  On every such run that returns, whatever the variant and
    whatever the status, the calls of [kfree] are as many as the calls of
    [kmalloc], and there is at most one of each: the scratch buffer of the
    Lzor strategy is released on every exit path taken, and the other two
    variants allocate nothing.  The exit of the Lzor strategy on a NULL
    output buffer, which does not free, is not taken. *)
Theorem hc_wlan_data_unpack_balanced (d : driver) (tofs tlen : Z)
    (outbuf : bytes) (outlen : Z) (s : kstate) a s' :
  hc_wlan_data_unpack d tofs tlen outbuf outlen s = Returns a s' ->
  let es := events_of (hc_wlan_data_unpack d tofs tlen outbuf outlen) s in
  allocations es = releases es /\ (allocations es <= 1)%nat.
Proof.
  intros H es.
  destruct (hc_wlan_data_unpack_log _ _ _ _ _ _ _ _ H) as (es' & Hlog & Hb & Hle).
  assert (E : es = es').
  { unfold es. apply events_of_klog. rewrite H. exact Hlog. }
  rewrite E. split; assumption.
Qed.

(** X13: the one exit of the Lzor strategy that does not free.  A run of
    [hc_wlan_data_unpack_lzor] that returns allocates at most once.  With
    an output buffer that is not NULL it frees what it allocated.  With a
    NULL output buffer and a record that passes the size test, it returns
    -ENOMEM with the scratch buffer allocated and not freed, and has done
    nothing else. *)
Theorem hc_wlan_data_unpack_lzor_frees (inbuf : bytes) (inlen : Z)
    (outbuf : option bytes) (outlen : Z) (s : kstate) a s' :
  hc_wlan_data_unpack_lzor inbuf inlen outbuf outlen s = Returns a s' ->
  let es := events_of (hc_wlan_data_unpack_lzor inbuf inlen outbuf outlen) s in
  (allocations es <= 1)%nat
  /\ (outbuf <> None -> allocations es = releases es)
  /\ (outbuf = None ->
      C.size_t arch (inlen + sizeof_hc_lzor_prefix) <= outlen ->
      a = (C.int (- ENOMEM), [], outlen)
      /\ es = [EvKmalloc outlen]
      /\ allocations es = 1%nat /\ releases es = 0%nat).
Proof.
  intros H es. destruct outbuf as [outbuf |].
  - destruct (hc_wlan_data_unpack_lzor_balanced _ _ _ _ _ _ _ H)
      as (es' & Hlog & Hb & Hle).
    assert (E : es = es').
    { unfold es. apply events_of_klog. rewrite H. exact Hlog. }
    rewrite E. split; [exact Hle |]. split; [intros _; exact Hb |].
    intros Hnull. discriminate Hnull.
  - assert (Hrun := H). unfold hc_wlan_data_unpack_lzor in H.
    destruct (Z.gtb_spec (C.size_t arch (inlen + sizeof_hc_lzor_prefix)) outlen)
      as [Hbig | Hfit].
    + returned H.
      assert (E : es = []) by (apply (events_of_unchanged _ _ _ Hrun)).
      rewrite E. split; [cbn; lia |]. split; [intros Hn; contradiction |].
      intros _ Hle. lia.
    + unfold kmalloc in H. run_in H. returned H.
      assert (E : es = [EvKmalloc outlen]).
      { unfold es. apply events_of_klog. rewrite Hrun. reflexivity. }
      rewrite E. split; [cbn; lia |]. split; [intros Hn; contradiction |].
      intros _ _. repeat split.
Qed.

(** X5: [hc_wlan_data_bin_read] gives back what it takes.  On every run
    that returns, provided the allocator hands out the output buffer when
    asked, the calls of [kfree] are as many as the calls of [kmalloc]: the
    output buffer is released whether the unpacking fails or succeeds and
    whether or not any byte is copied. *)
Theorem hc_wlan_data_bin_read_balanced (d : driver) (off count : Z)
    (s : kstate) a s' :
  hc_wlan_data_bin_read d off count s = Returns a s' ->
  kmalloc_fn X (kallocs s) (C.size_t arch (RB_ART_SIZE X)) <> None ->
  let es := events_of (hc_wlan_data_bin_read d off count) s in
  allocations es = releases es /\ (allocations es <= 2)%nat.
Proof.
  intros H Hblock es.
  assert (Hes : exists es', klog s' = klog s ++ es'
                            /\ allocations es' = releases es'
                            /\ (allocations es' <= 2)%nat).
  { unfold hc_wlan_data_bin_read in H.
    destruct (wpld_len (hc_wlandata_battr d) =? 0).
    { returned H. exists []. rewrite app_nil_r.
      split; [reflexivity | split; [reflexivity | cbn; lia]]. }
    destruct (wpld_len (hc_wlandata_battr d) >? C.size_t arch (RB_ART_SIZE X)).
    { returned H. exists []. rewrite app_nil_r.
      split; [reflexivity | split; [reflexivity | cbn; lia]]. }
    unfold kmalloc at 1 in H. unfold bind at 1 in H.
    destruct (kmalloc_fn X (kallocs s) (C.size_t arch (RB_ART_SIZE X)))
      as [block |]; [| contradiction].
    cbn [option_map] in H. unfold bind at 1 in H.
    match type of H with context [hc_wlan_data_unpack ?dd ?o ?l ?b ?c ?st] =>
      destruct (hc_wlan_data_unpack dd o l b c st) as [[[r ob] ol] s1 | s1 | s1]
        eqn:Hun; [| discriminate | discriminate]
    end.
    destruct (hc_wlan_data_unpack_log _ _ _ _ _ _ _ _ Hun) as (es1 & Hlog & Hb & Hle).
    cbn [klog] in Hlog. rewrite <- app_assoc in Hlog.
    assert (Hdone : forall (r' : Z * bytes),
              (_ <- kfree ;; pure r') s1 = Returns a s' ->
              exists es', klog s' = klog s ++ es'
                          /\ allocations es' = releases es'
                          /\ (allocations es' <= 2)%nat).
    { intros r' Hk. run_in Hk. returned Hk.
      exists ([EvKmalloc (C.size_t arch (RB_ART_SIZE X))] ++ es1 ++ [EvKfree]).
      split.
      - cbn [record klog]. rewrite Hlog, <- !app_assoc. reflexivity.
      - rewrite !allocations_app, !releases_app. cbn.
        rewrite Hb. split; lia. }
    destruct (negb (r =? 0)); [eapply Hdone; exact H |].
    destruct (C.loff_size arch off >=? ol); [eapply Hdone; exact H |].
    match type of H with context [read_bytes ?b ?o ?c] =>
      destruct (read_bytes b o c) as [data |]; [| discriminate]
    end.
    eapply Hdone; exact H. }
  destruct Hes as (es' & Hlog & Hb & Hle).
  assert (E : es = es').
  { unfold es. apply events_of_klog. rewrite H. exact Hlog. }
  rewrite E. split; assumption.
Qed.

(** *** What [rb_hardconfig_init] publishes *)

Lemma locate_log (buf : bytes) (buflen : Z) (a : hc_attr) (w : hc_wlan_attr)
    (s : kstate) :
  exists w' s',
    locate buf buflen a w s = Returns (located buf buflen a, w') s'
    /\ klog s' = klog s ++ EvTagFind buf buflen (tag_id a)
                           :: published buf buflen a.
Proof.
  unfold locate, located, published. run.
  destruct (routerboot_tag_find_fn X buf buflen (tag_id a)) as [[ret ofs] n].
  cbv beta iota zeta.
  destruct (negb (C.int ret =? 0)).
  - eexists _, _. split; reflexivity.
  - cbn [tag_id pld_len pld_ofs set_pld].
    destruct ((RB_ID_WLAN_DATA =? tag_id a) && negb (C.u16 n =? 0));
      eexists _, _; (split; [reflexivity |]);
      cbn [record klog]; rewrite <- app_assoc; reflexivity.
Qed.

Lemma published_sysfs (buf : bytes) (buflen : Z) (a : hc_attr) :
  filter is_sysfs (published buf buflen a) = published buf buflen a
  /\ filter is_tag_find (published buf buflen a) = []
  /\ allocations (published buf buflen a) = 0%nat
  /\ releases (published buf buflen a) = 0%nat.
Proof.
  unfold published.
  destruct (routerboot_tag_find_fn X buf buflen (tag_id a)) as [[ret ofs] n].
  destruct (negb (C.int ret =? 0)); [repeat split |].
  destruct ((RB_ID_WLAN_DATA =? tag_id a) && negb (C.u16 n =? 0));
    repeat split.
Qed.

Lemma locate_all_log (buf : bytes) (buflen : Z) (attrs : list hc_attr) :
  forall (w : hc_wlan_attr) (s : kstate),
  exists w' s' es,
    locate_all buf buflen attrs w s
      = Returns (map (located buf buflen) attrs, w') s'
    /\ klog s' = klog s ++ es
    /\ filter is_sysfs es = flat_map (published buf buflen) attrs
    /\ filter is_tag_find es
       = map (fun a => EvTagFind buf buflen (tag_id a)) attrs
    /\ allocations es = 0%nat /\ releases es = 0%nat.
Proof.
  induction attrs as [| a rest IH]; intros w s.
  - exists w, s, []. rewrite app_nil_r. repeat split.
  - destruct (locate_log buf buflen a w s) as (w1 & s1 & H1 & Hlog1).
    destruct (IH w1 s1) as (w2 & s2 & es & H2 & Hlog2 & Hsys & Hfind & Ha & Hr).
    destruct (published_sysfs buf buflen a) as (Ps & Pf & Pa & Pr).
    exists w2, s2, ((EvTagFind buf buflen (tag_id a) :: published buf buflen a) ++ es).
    split; [cbn [locate_all map]; unfold bind; rewrite H1, H2; reflexivity |].
    split; [rewrite Hlog2, Hlog1, <- app_assoc; reflexivity |].
    rewrite allocations_app, releases_app, !filter_app.
    cbn [flat_map map filter is_sysfs is_tag_find app].
    unfold allocations, releases in *.
    cbn [filter is_kmalloc is_kfree].
    rewrite Ps, Pf, Hsys, Hfind, Pa, Pr, Ha, Hr. repeat split.
Qed.

(** X6: a failed [rb_hardconfig_init] leaves nothing behind.  The status is
    0 exactly when the file-scope variables are set up; on every failure
    (no partition, no memory, read error, short read, wrong magic number,
    no kobject) no tag is searched, no sysfs file is created and, when the
    allocator did hand out the buffer, the buffer is freed. *)
Theorem rb_hardconfig_init_failure (s s' : kstate) (ret : Z)
    (od : option driver) :
  rb_hardconfig_init s = Returns (ret, od) s' ->
  let es := events_of rb_hardconfig_init s in
  (ret = 0 <-> od <> None)
  /\ (od = None ->
      filter is_sysfs es = [] /\ filter is_tag_find es = []
      /\ ((forall mtd, get_mtd_device_nm_fn X = Some mtd ->
            kmalloc_fn X (kallocs s) (C.size_t arch (mtd_size mtd)) <> None) ->
          allocations es = releases es)).
Proof.
  intros H es.
  assert (Hes : exists es',
            klog s' = klog s ++ es'
            /\ (ret = 0 <-> od <> None)
            /\ (od = None ->
                filter is_sysfs es' = [] /\ filter is_tag_find es' = []
                /\ ((forall mtd, get_mtd_device_nm_fn X = Some mtd ->
                      kmalloc_fn X (kallocs s) (C.size_t arch (mtd_size mtd))
                      <> None) ->
                    allocations es' = releases es'))).
  { unfold rb_hardconfig_init in H.
    assert (Hneg : forall e : Z, e <> 0 -> (e = 0 <-> @None driver <> None))
      by (intros e He; split; [contradiction | congruence]).
    destruct (get_mtd_device_nm_fn X) as [mtd |].
    2:{ returned H. exists []. rewrite app_nil_r.
        split; [reflexivity |]. split; [apply Hneg; discriminate |].
        intros _. repeat split. }
    unfold kmalloc in H. run_in H.
    destruct (kmalloc_fn X (kallocs s) (C.size_t arch (mtd_size mtd)))
      as [block |] eqn:Hblock; cbn [option_map] in H.
    2:{ returned H. eexists. split; [reflexivity |].
        split; [apply Hneg; discriminate |].
        intros _. split; [reflexivity |]. split; [reflexivity |].
        intros Hok. exfalso. apply (Hok mtd eq_refl). exact Hblock. }
    destruct (mtd_read_fn mtd) as [[r bytes_read] data].
    cbv beta iota zeta in H.
    destruct (Z.eqb_spec (C.int r) 0) as [Er | Er]; cbn [negb] in H.
    2:{ returned H. eexists. cbn [record klog]. rewrite <- app_assoc.
        split; [reflexivity |].
        split; [split; [intros; contradiction | congruence] |].
        intros _. repeat split. }
    destruct (negb (C.size_t arch bytes_read =? C.size_t arch (mtd_size mtd))).
    { returned H. eexists. cbn [record klog]. rewrite <- app_assoc.
      split; [reflexivity |]. split; [apply Hneg; discriminate |].
      intros _. repeat split. }
    match type of H with context [load_u32 cpu ?b] =>
      destruct (load_u32 cpu b) as [magic |]
    end; [| discriminate].
    destruct (negb (C.u32 (RB_MAGIC_HARD X) =? magic)).
    { returned H. eexists. cbn [record klog]. rewrite <- app_assoc.
      split; [reflexivity |]. split; [apply Hneg; discriminate |].
      intros _. repeat split. }
    destruct (negb (kobject_create_and_add_fn X)).
    { returned H. eexists. cbn [record klog]. rewrite <- app_assoc.
      split; [reflexivity |]. split; [apply Hneg; discriminate |].
      intros _. repeat split. }
    match type of H with context [locate_all ?b ?l ?attrs ?w ?st] =>
      destruct (locate_all_log b l attrs w st)
        as (w' & st' & es' & Hrun & Hlog & _)
    end.
    rewrite Hrun in H. returned H.
    eexists. split; [rewrite Hlog; cbn [klog]; rewrite <- app_assoc; reflexivity |].
    split; [split; [congruence | reflexivity] |].
    intros Hnone. discriminate. }
  destruct Hes as (es' & Hlog & Hiff & Hfail).
  assert (E : es = es').
  { unfold es. apply events_of_klog. rewrite H. exact Hlog. }
  rewrite E. split; assumption.
Qed.


(** *** Where the attributes point *)

Lemma locate_wlan (buf : bytes) (buflen : Z) (a : hc_attr)
    (w : hc_wlan_attr) (s : kstate) :
  exists w' s',
    locate buf buflen a w s = Returns (located buf buflen a, w') s'
    /\ (tag_id a = RB_ID_WLAN_DATA -> pld_len (located buf buflen a) <> 0 ->
        w' = {| wpld_ofs := pld_ofs (located buf buflen a);
                wpld_len := pld_len (located buf buflen a) |})
    /\ (tag_id a <> RB_ID_WLAN_DATA -> w' = w).
Proof.
  unfold locate, located. run.
  destruct (routerboot_tag_find_fn X buf buflen (tag_id a)) as [[ret ofs] n].
  cbv beta iota zeta.
  destruct (negb (C.int ret =? 0)).
  - eexists _, _. split; [reflexivity |]. cbn [pld_len set_pld].
    split; [intros _ Hnz; contradiction | reflexivity].
  - cbn [tag_id pld_len pld_ofs set_pld].
    destruct (Z.eqb_spec RB_ID_WLAN_DATA (tag_id a)) as [Ew | Ew];
      destruct (Z.eqb_spec (C.u16 n) 0) as [En | En]; cbn [negb andb];
      eexists _, _; (split; [reflexivity |]); split; intros H;
      try reflexivity; try congruence.
Qed.

Lemma locate_all_wlan (buf : bytes) (buflen : Z) (ret ofs n : Z)
    (attrs : list hc_attr) :
  routerboot_tag_find_fn X buf buflen RB_ID_WLAN_DATA = (ret, ofs, n) ->
  C.int ret = 0 -> C.u16 n <> 0 ->
  forall (w : hc_wlan_attr) (s : kstate),
  exists w' s',
    locate_all buf buflen attrs w s
      = Returns (map (located buf buflen) attrs, w') s'
    /\ ((exists a, In a attrs /\ tag_id a = RB_ID_WLAN_DATA) ->
        w' = {| wpld_ofs := C.u16 (C.u16 ofs + 4); wpld_len := C.u16 n |})
    /\ ((forall a, In a attrs -> tag_id a <> RB_ID_WLAN_DATA) -> w' = w).
Proof.
  intros Hfind Hret Hn.
  induction attrs as [| a rest IH]; intros w s.
  - exists w, s. split; [reflexivity |].
    split; [intros (a & [] & _) | reflexivity].
  - destruct (locate_wlan buf buflen a w s) as (w1 & s1 & H1 & Hw & Hother).
    destruct (IH w1 s1) as (w2 & s2 & H2 & Hsome & Hnone).
    exists w2, s2.
    split; [cbn [locate_all map]; unfold bind; rewrite H1, H2; reflexivity |].
    assert (Hhere : tag_id a = RB_ID_WLAN_DATA ->
              w1 = {| wpld_ofs := C.u16 (C.u16 ofs + 4); wpld_len := C.u16 n |}).
    { intros Hid. rewrite <- Hid in Hfind.
      destruct (located_pld buf buflen a ret ofs n Hfind) as [_ Hz].
      destruct (Hz Hret) as [Hl Ho].
      rewrite Hw by (try exact Hid; rewrite Hl; exact Hn).
      rewrite Hl, Ho. reflexivity. }
    destruct (existsb (fun b => tag_id b =? RB_ID_WLAN_DATA) rest) eqn:Hex.
    + apply existsb_exists in Hex. destruct Hex as (b & Hb & Hidb).
      apply Z.eqb_eq in Hidb.
      split; [intros _; apply Hsome; exists b; split; assumption |].
      intros Hall. exfalso. apply (Hall b); [right; exact Hb | exact Hidb].
    + assert (Hrest : forall b, In b rest -> tag_id b <> RB_ID_WLAN_DATA).
      { intros b Hb Hidb.
        assert (existsb (fun b => tag_id b =? RB_ID_WLAN_DATA) rest = true).
        { apply existsb_exists. exists b. split; [exact Hb |].
          apply Z.eqb_eq. exact Hidb. }
        congruence. }
      rewrite (Hnone Hrest). split.
      * intros (b & [<- | Hb] & Hidb); [apply Hhere; exact Hidb |].
        exfalso. apply (Hrest b Hb Hidb).
      * intros Hall. apply Hother. apply Hall. left. reflexivity.
Qed.

(** X8: after a successful [rb_hardconfig_init] the offsets kept for the
    attributes name the payloads the tag scanner located.  The scanner
    works on the blob past its four magic bytes and the offsets are kept
    from the start of the blob: for a tag found at offset [ofs] with a
    payload (and [ofs + 4] still a [u16]), [hc_attr_show] hands its
    renderer the bytes at [ofs] of the scanned region with the length the
    scanner reported, and for the calibration data the binary attribute
    holds [ofs + 4] and that length. *)
Theorem rb_hardconfig_init_offsets (s s' : kstate) (d : driver) :
  rb_hardconfig_init s = Returns (0, Some d) s' ->
  let buf := ptr_add (hc_buf d) 4 in
  let buflen := C.size_t arch (hc_buflen d - 4) in
  forall (id ret ofs n : Z),
    routerboot_tag_find_fn X buf buflen id = (ret, ofs, n) ->
    C.int ret = 0 -> C.u16 n <> 0 -> C.u16 ofs + 4 < 2 ^ 16 ->
    (forall b t, In b (hc_attrs d) -> tag_id b = id ->
       hc_attr_show d b t
       = tshow_call (tshow b) (ptr_add buf (C.u16 ofs)) (C.u16 n) t)
    /\ (id = RB_ID_WLAN_DATA ->
        hc_wlandata_battr d
        = {| wpld_ofs := C.u16 ofs + 4; wpld_len := C.u16 n |}
        /\ ptr_add (hc_buf d) (wpld_ofs (hc_wlandata_battr d))
           = ptr_add buf (C.u16 ofs)).
Proof.
  intros Hinit buf buflen id ret ofs n Hfind Hret Hn Hfits.
  pose proof (wrap_range 16 ofs ltac:(lia)) as Hofs. fold (C.u16 ofs) in Hofs.
  assert (Hwrap : C.u16 (C.u16 ofs + 4) = C.u16 ofs + 4)
    by (apply wrap_small; lia).
  assert (Hptr : ptr_add (hc_buf d) (C.u16 ofs + 4) = ptr_add buf (C.u16 ofs)).
  { unfold buf. rewrite ptr_add_add by lia. f_equal. lia. }
  split.
  - intros b t Hb Hid.
    destruct (rb_hardconfig_init_ok s s' d Hinit) as (_ & _ & Hattrs & _).
    fold buf buflen in Hattrs. rewrite Hattrs in Hb.
    apply in_map_iff in Hb. destruct Hb as (b0 & <- & Hb0).
    destruct (located_tag_id buf buflen b0) as [Hid0 _].
    rewrite Hid0 in Hid. rewrite <- Hid in Hfind.
    destruct (located_pld buf buflen b0 ret ofs n Hfind) as [_ Hz].
    destruct (Hz Hret) as [Hl Ho].
    unfold hc_attr_show. rewrite Hl, Ho, Hwrap, Hptr.
    destruct (Z.eqb_spec (C.u16 n) 0); [contradiction |]. reflexivity.
  - intros ->.
    assert (Hw : hc_wlandata_battr d
                 = {| wpld_ofs := C.u16 (C.u16 ofs + 4); wpld_len := C.u16 n |}).
    { unfold rb_hardconfig_init in Hinit.
      destruct (get_mtd_device_nm_fn X) as [mtd |]; [| returned Hinit].
      unfold kmalloc in Hinit. run_in Hinit.
      destruct (kmalloc_fn X (kallocs s) (C.size_t arch (mtd_size mtd)))
        as [block |]; cbn [option_map] in Hinit; [| returned Hinit].
      destruct (mtd_read_fn mtd) as [[r bytes_read] data].
      cbv beta iota zeta in Hinit.
      destruct (negb (C.int r =? 0)); [returned Hinit |].
      destruct (negb (C.size_t arch bytes_read =? C.size_t arch (mtd_size mtd)));
        [returned Hinit |].
      match type of Hinit with context [load_u32 cpu ?b] =>
        destruct (load_u32 cpu b) as [magic |]
      end; [| discriminate].
      destruct (negb (C.u32 (RB_MAGIC_HARD X) =? magic)); [returned Hinit |].
      destruct (negb (kobject_create_and_add_fn X)); [returned Hinit |].
      match type of Hinit with context [locate_all ?b ?l ?attrs ?w ?st] =>
        destruct (locate_all_returns b l attrs w st) as (w' & st' & Hrun & _)
      end.
      rewrite Hrun in Hinit. returned Hinit.
      unfold buf, buflen in Hfind. cbn [hc_buf hc_buflen hc_wlandata_battr] in *.
      match type of Hrun with locate_all ?b ?l ?attrs ?w ?st = _ =>
        destruct (locate_all_wlan b l ret ofs n attrs Hfind Hret Hn w st)
          as (w'' & st'' & Hrun' & Hsome & _)
      end.
      rewrite Hrun in Hrun'. returned Hrun'.
      apply Hsome. exists (attr RB_ID_WLAN_DATA None None).
      split; [cbn; tauto | reflexivity]. }
    rewrite Hw, Hwrap. cbn [wpld_ofs]. split; [reflexivity | exact Hptr].
Qed.

(** *** The text of the renderers *)

Lemma append_length (a b : string) :
  String.length (String.append a b) = (String.length a + String.length b)%nat.
Proof. induction a as [| c a IH]; simpl; [reflexivity | rewrite IH; reflexivity]. Qed.

Lemma hex_of_length (digits : nat) (v : Z) :
  String.length (hex_of digits v) = digits.
Proof.
  revert v. induction digits as [| k IH]; intros v; [reflexivity |].
  cbn [hex_of]. rewrite append_length, IH. simpl. lia.
Qed.

Lemma hex_of_2 (v : Z) :
  hex_of 2 v
  = String (hex_digit (v / 16 mod 16))
      (String (hex_digit (v mod 16)) EmptyString).
Proof. reflexivity. Qed.

Lemma unhex2_hex (b : byte) : unhex2 (hex_of 2 (byte_val b)) = Some b.
Proof. destruct b; vm_compute; reflexivity. Qed.

Lemma hex_digits_byte (a b : byte) :
  hex_digit (byte_val a / 16 mod 16) = hex_digit (byte_val b / 16 mod 16) ->
  hex_digit (byte_val a mod 16) = hex_digit (byte_val b mod 16) ->
  a = b.
Proof.
  intros Hhi Hlo.
  assert (E : hex_of 2 (byte_val a) = hex_of 2 (byte_val b))
    by (rewrite !hex_of_2, Hhi, Hlo; reflexivity).
  apply (f_equal unhex2) in E. rewrite !unhex2_hex in E.
  congruence.
Qed.

Lemma hc_tag_show_mac_run (pld : bytes) (s : kstate) (n : Z) (text : string)
    (s' : kstate) :
  hc_tag_show_mac pld 8 s = Returns (n, text) s' ->
  exists b0 b1 b2 b3 b4 b5 rest,
    pld = b0 :: b1 :: b2 :: b3 :: b4 :: b5 :: rest
    /\ text = String.append (sprintf_pM b0 b1 b2 b3 b4 b5) NL
    /\ n = Z.of_nat (String.length text) /\ s' = s.
Proof.
  unfold hc_tag_show_mac. cbn [Z.eqb Pos.eqb negb].
  destruct pld as [| b0 [| b1 [| b2 [| b3 [| b4 [| b5 rest]]]]]];
    try discriminate.
  intros H. unfold pure in H. returned H.
  exists b0, b1, b2, b3, b4, b5, rest. repeat split.
Qed.

(** X9: the text of a MAC address.  Whenever [hc_tag_show_mac] renders a
    payload of 8 bytes, the text has 18 characters, which is the value
    returned, and it tells the address: two payloads that are rendered to
    the same text agree on their first six bytes (the last two are not
    shown).  Nothing else happens in the run. *)
Theorem hc_tag_show_mac_text (p q : bytes) (s t : kstate) (n m : Z)
    (text : string) (s' t' : kstate) :
  hc_tag_show_mac p 8 s = Returns (n, text) s' ->
  hc_tag_show_mac q 8 t = Returns (m, text) t' ->
  n = 18 /\ String.length text = 18%nat /\ s' = s
  /\ firstn 6 p = firstn 6 q.
Proof.
  intros Hp Hq.
  destruct (hc_tag_show_mac_run _ _ _ _ _ Hp)
    as (b0 & b1 & b2 & b3 & b4 & b5 & rest & -> & Htext & Hn & Hs).
  destruct (hc_tag_show_mac_run _ _ _ _ _ Hq)
    as (c0 & c1 & c2 & c3 & c4 & c5 & rest' & -> & Htext' & _ & _).
  assert (Hlen : String.length text = 18%nat) by (rewrite Htext; reflexivity).
  split; [rewrite Hn, Hlen; reflexivity |].
  split; [exact Hlen |]. split; [exact Hs |].
  rewrite Htext in Htext'. unfold sprintf_pM in Htext'.
  cbn [strcat fold_right] in Htext'. rewrite !hex_of_2 in Htext'.
  cbn [String.append] in Htext'.
  injection Htext' as H0 H0' H1 H1' H2 H2' H3 H3' H4 H4' H5 H5'.
  cbn [firstn].
  rewrite (hex_digits_byte _ _ H0 H0'), (hex_digits_byte _ _ H1 H1'),
    (hex_digits_byte _ _ H2 H2'), (hex_digits_byte _ _ H3 H3'),
    (hex_digits_byte _ _ H4 H4'), (hex_digits_byte _ _ H5 H5').
  reflexivity.
Qed.

Lemma byte_val_range (b : byte) : 0 <= byte_val b <= 255.
Proof. destruct b; vm_compute; split; discriminate. Qed.

Lemma lor_le_add (a b : Z) : 0 <= a -> 0 <= b -> 0 <= Z.lor a b <= a + b.
Proof.
  intros Ha Hb. pose proof (Z.add_lor_land a b) as H.
  assert (0 <= Z.land a b) by (apply Z.land_nonneg; left; exact Ha).
  assert (0 <= Z.lor a b) by (apply Z.lor_nonneg; split; assumption).
  lia.
Qed.

Lemma word32_range (b0 b1 b2 b3 : byte) : 0 <= word32 b0 b1 b2 b3 < 2 ^ 32.
Proof.
  unfold word32. rewrite !Z.shiftl_mul_pow2 by lia.
  pose proof (byte_val_range b0). pose proof (byte_val_range b1).
  pose proof (byte_val_range b2). pose proof (byte_val_range b3).
  assert (H23 : 0 <= Z.lor (byte_val b2 * 2 ^ 16) (byte_val b3 * 2 ^ 24)
                <= byte_val b2 * 2 ^ 16 + byte_val b3 * 2 ^ 24)
    by (apply lor_le_add; lia).
  assert (H123 : 0 <= Z.lor (byte_val b1 * 2 ^ 8)
                        (Z.lor (byte_val b2 * 2 ^ 16) (byte_val b3 * 2 ^ 24))
                 <= byte_val b1 * 2 ^ 8
                    + Z.lor (byte_val b2 * 2 ^ 16) (byte_val b3 * 2 ^ 24))
    by (apply lor_le_add; lia).
  pose proof (lor_le_add (byte_val b0)
                (Z.lor (byte_val b1 * 2 ^ 8)
                   (Z.lor (byte_val b2 * 2 ^ 16) (byte_val b3 * 2 ^ 24)))
                ltac:(lia) ltac:(lia)).
  lia.
Qed.

Lemma load_u32_range (p : bytes) (w : Z) :
  load_u32 cpu p = Some w -> 0 <= w < 2 ^ 32.
Proof.
  destruct p as [| b0 [| b1 [| b2 [| b3 rest]]]]; try discriminate.
  cbn [load_u32]. intros H. returned H. destruct cpu; apply word32_range.
Qed.

Lemma strcat_lines_length (data : Z) (opts : list (Z * string)) :
  let line (o : Z * string) :=
    strcat [snd o; ": "%string;
            if negb (Z.eqb (Z.land data (fst o)) 0)
            then "true"%string else "false"%string;
            NL] in
  Z.of_nat (String.length (strcat (map line opts)))
  = fold_right (fun o acc => Z.of_nat (String.length (snd o)) + 8 + acc) 0 opts
    - Z.of_nat (List.length
                  (filter (fun o => negb (Z.eqb (Z.land data (fst o)) 0)) opts)).
Proof.
  intros line. induction opts as [| o opts IH]; [reflexivity |].
  change (strcat (map line (o :: opts)))
    with (String.append (line o) (strcat (map line opts))).
  rewrite append_length, Nat2Z.inj_add, IH.
  cbn [fold_right filter].
  assert (Hline : Z.of_nat (String.length (line o))
                  = Z.of_nat (String.length (snd o)) + 8
                    - (if negb (Z.land data (fst o) =? 0) then 1 else 0)).
  { unfold line. cbn [strcat fold_right]. rewrite !append_length.
    destruct (negb (Z.land data (fst o) =? 0));
      cbn [String.length NL]; lia. }
  rewrite Hline.
  destruct (negb (Z.land data (fst o) =? 0)); cbn [List.length]; lia.
Qed.

(** X10: the size of the text of the hardware options.  Whenever
    [hc_tag_show_hwoptions] renders a payload of 4 bytes, the payload is
    read as one 32-bit number, the value returned is the length of the
    text, and that length is 250 less the number of the options of the
    table whose bit is set ("true" is one character shorter than
    "false"): between 237 and 250 characters, far below a page. *)
Theorem hc_tag_show_hwoptions_length (pld : bytes) (s : kstate) (n : Z)
    (text : string) (s' : kstate) :
  hc_tag_show_hwoptions pld 4 s = Returns (n, text) s' ->
  exists data,
    load_u32 cpu pld = Some data /\ 0 <= data < 2 ^ 32
    /\ n = Z.of_nat (String.length text)
    /\ n = 250 - Z.of_nat (List.length
                             (filter (fun o => negb (Z.land data (fst o) =? 0))
                                hc_hwopts))
    /\ 237 <= n <= 250 /\ s' = s.
Proof.
  unfold hc_tag_show_hwoptions. cbn [Z.eqb Pos.eqb negb].
  destruct (load_u32 cpu pld) as [data |] eqn:Hload; [| discriminate].
  intros H. unfold pure in H. cbv beta zeta in H.
  match type of H with
  | Returns (_, ?out0) _ = _ => remember out0 as out eqn:Hout
  end.
  injection H as Hn Htext Hs. subst n text s'. rewrite Hout.
  exists data. split; [reflexivity |].
  split; [apply (load_u32_range _ _ Hload) |].
  split; [reflexivity |].
  assert (Hlen : Z.of_nat (String.length
                   (String.append
                      (strcat ["raw"; TAB; TAB; ": 0x"; hex_of 8 data; NL; NL]%string)
                      (strcat
                         (map (fun o : Z * string =>
                                 strcat [snd o; ": "%string;
                                         if negb (Z.eqb (Z.land data (fst o)) 0)
                                         then "true"%string else "false"%string;
                                         NL]) hc_hwopts))))
                 = 250 - Z.of_nat (List.length
                                     (filter (fun o => negb (Z.land data (fst o) =? 0))
                                        hc_hwopts))).
  { rewrite append_length, Nat2Z.inj_add.
    rewrite (strcat_lines_length data hc_hwopts).
    cbn [strcat fold_right]. rewrite !append_length, hex_of_length.
    change (fold_right _ 0 hc_hwopts) with 231.
    cbn [String.length TAB NL]. lia. }
  split; [exact Hlen |]. split; [| reflexivity].
  rewrite Hlen.
  pose proof (filter_length_le (fun o => negb (Z.land data (fst o) =? 0)) hc_hwopts)
    as Hle.
  change (List.length hc_hwopts) with 13%nat in Hle. lia.
Qed.

(** *** The Lzor strategy from end to end *)

(** X11: what the Lzor strategy computes when every stage succeeds.  The
    decompressor runs on the prefix followed by the record; when it
    reports success or "input not consumed", the search finds the magic
    at offset [m] of the decompressed data, the tag scanner finds the
    record of id 1 in what follows and its length fits, then the status
    and the length returned are those of the run-length decoder, called on
    the payload at [m + 4 + ofs] of the scratch buffer, and the output
    buffer holds what the decoder produced, laid over the bytes the
    concatenation had left there. *)
Theorem hc_wlan_data_unpack_lzor_decodes (inbuf : bytes) (inlen : Z)
    (outbuf : bytes) (outlen : Z) (s : kstate) (block : nat -> byte)
    (ret : Z) (written : bytes) (out_len m : Z) (probes : list Z)
    (fret fofs fn dret : Z) (dwritten : bytes) (dlen : Z) :
  0 <= inlen <= len inbuf ->
  inlen + sizeof_hc_lzor_prefix <= outlen ->
  outlen <= len outbuf ->
  outlen < 2 ^ C.size_bits arch ->
  kmalloc_fn X (kallocs s) outlen = Some block ->
  let src :=
    hc_lzor_prefix ++ firstn (Z.to_nat inlen) inbuf
    ++ skipn (Z.to_nat (sizeof_hc_lzor_prefix + inlen)) outbuf in
  lzo1x_decompress_safe_fn X src (inlen + sizeof_hc_lzor_prefix) outlen
    = (ret, written, out_len) ->
  C.int ret = 0 \/ C.int ret = LZO_E_INPUT_NOT_CONSUMED ->
  let tempbuf := deposit written (map block (seq 0 (Z.to_nat outlen))) in
  let templen := C.size_t arch out_len in
  needle_loop (scan_fuel templen) tempbuf templen 0
    = Some (ScanFound (m + 4), probes) ->
  m + 4 <= templen ->
  routerboot_tag_find_fn X (ptr_add tempbuf (m + 4)) (templen - m - 4) 0x1
    = (fret, fofs, fn) ->
  C.int fret = 0 ->
  C.u16 fn <= templen - m - 4 ->
  routerboot_rle_decode_fn X (ptr_add tempbuf (m + 4 + C.u16 fofs)) (C.u16 fn)
    outlen = (dret, dwritten, dlen) ->
  exists s',
    hc_wlan_data_unpack_lzor inbuf inlen (Some outbuf) outlen s
    = Returns (C.int dret, deposit dwritten src, C.size_t arch dlen) s'
    /\ filter is_decode (events_of (hc_wlan_data_unpack_lzor inbuf inlen (Some outbuf) outlen) s)
       = [EvLzo src (inlen + sizeof_hc_lzor_prefix) outlen;
          EvRle (ptr_add tempbuf (m + 4 + C.u16 fofs)) (C.u16 fn) outlen].
Proof.
  intros Hin Hfit Hout Hmax Hblock src Hlzo Hret tempbuf templen Hloop Hm
    Hfind Hfret Hfn Hrle.
  assert (Hsz : C.size_t arch (inlen + sizeof_hc_lzor_prefix)
                = inlen + sizeof_hc_lzor_prefix).
  { apply size_t_small. unfold sizeof_hc_lzor_prefix in *. lia. }
  destruct (blit_concat hc_lzor_prefix outbuf inbuf inlen Hin) as (ob1 & Hb1 & Hb2).
  { rewrite sizeof_hc_lzor_prefix_len. lia. }
  rewrite sizeof_hc_lzor_prefix_len in Hb1, Hb2. fold src in Hb2.
  rewrite <- Hsz in Hlzo.
  pose proof (lzor_front inbuf inlen outbuf outlen s block ob1 src ret
                written out_len ltac:(lia) Hblock Hb1 Hb2 Hlzo) as Heq.
  cbv zeta in Heq. fold tempbuf templen in Heq.
  assert (Hgo : negb (C.int ret =? 0)
                && negb (LZO_E_INPUT_NOT_CONSUMED =? C.int ret) = false).
  { destruct Hret as [-> | ->]; reflexivity. }
  rewrite Hgo in Heq.
  pose proof (needle_loop_found _ _ _ _ _ _ Hloop) as (Hle & _).
  pose proof (size_t_range out_len) as Hrange. fold templen in Hrange.
  assert (Htail : C.size_t arch (templen - (m + 4)) = templen - m - 4).
  { rewrite size_t_small by lia. lia. }
  match type of Heq with _ = lzor_after_decompress _ _ _ _ ?st =>
    pose proof (lzor_after_decompress_found tempbuf templen src outlen st
                  _ _ Hloop) as Hafter
  end.
  cbv zeta in Hafter. rewrite Htail, Hfind, Hfret in Hafter.
  change (negb (0 =? 0)) with false in Hafter. cbv iota in Hafter.
  destruct (Z.gtb_spec (C.u16 fn) (templen - m - 4)); [lia |].
  rewrite Hrle in Hafter. rewrite Hafter in Heq.
  eexists. split; [exact Heq |].
  unfold events_of. rewrite Heq. cbn [outcome_state record klog].
  rewrite <- app_assoc, skipn_app_exact, Hsz.
  cbn [app filter is_decode]. rewrite filter_app.
  rewrite (filter_loads is_decode probes) by reflexivity.
  reflexivity.
Qed.

(** *** Reading the calibration data in pieces *)

Lemma firstn_split {A} (a b : nat) (l : list A) :
  firstn (a + b) l = firstn a l ++ firstn b (skipn a l).
Proof.
  revert l. induction a as [| a IH]; intros l; [reflexivity |].
  destruct l as [| x l]; cbn [Nat.add firstn skipn app].
  - rewrite firstn_nil. reflexivity.
  - rewrite IH. reflexivity.
Qed.

(** One read, after a successful decode of length [L]. *)
Lemma bin_read_run (d : driver) (off count : Z) (s : kstate)
    (block : nat -> byte) (decoded : bytes) (L : Z) (s2 : kstate) :
  let w := hc_wlandata_battr d in
  let cap := C.size_t arch (RB_ART_SIZE X) in
  wpld_len w <> 0 -> wpld_len w <= cap ->
  kmalloc_fn X (kallocs s) cap = Some block ->
  hc_wlan_data_unpack d (wpld_ofs w) (wpld_len w)
    (map block (seq 0 (Z.to_nat cap))) cap
    {| klog := klog s ++ [EvKmalloc cap]; kallocs := S (kallocs s) |}
  = Returns (0, decoded, L) s2 ->
  L <= cap ->
  0 <= off < 2 ^ 63 ->
  0 <= count < 2 ^ (C.size_bits arch - 1) ->
  let n := if off >=? L then 0 else Z.min count (L - off) in
  0 <= L
  /\ hc_wlan_data_bin_read d off count s
     = Returns (n, firstn (Z.to_nat n)
                     (skipn (Z.to_nat off) (firstn (Z.to_nat L) decoded)))
         (record [EvKfree] s2).
Proof.
  intros w cap Hnz Hfit Hblock Hunpack HL Hoff Hcount n.
  pose proof (size_t_range (RB_ART_SIZE X)) as Hcap. fold cap in Hcap.
  destruct (hc_wlan_data_unpack_keeps d (wpld_ofs w) (wpld_len w)
              (map block (seq 0 (Z.to_nat cap))) cap Hcap _ _ _ _ _ Hunpack)
    as [Hsize HLrange].
  rewrite length_map, length_seq in Hsize.
  assert (Hdec : len decoded = cap) by (unfold len; lia).
  assert (Hbits : 2 ^ C.size_bits arch = 2 * 2 ^ (C.size_bits arch - 1))
    by (destruct arch; reflexivity).
  split; [lia |].
  unfold hc_wlan_data_bin_read. fold w cap.
  destruct (Z.eqb_spec (wpld_len w) 0); [contradiction |].
  destruct (Z.gtb_spec (wpld_len w) cap); [lia |].
  unfold kmalloc at 1. unfold bind at 1. rewrite Hblock. cbn [option_map].
  unfold bind at 1. rewrite Hunpack. cbn [Z.eqb negb].
  rewrite loff_size_small by exact Hoff.
  unfold n. destruct (Z.geb_spec off L) as [Hge | Hlt].
  - reflexivity.
  - assert (Hsum : C.loff_size arch (off + count) = off + count).
    { destruct arch; unfold C.loff_size.
      - apply swrap_small; [lia |]. cbn [C.size_bits] in *. lia.
      - apply wrap_small. cbn [C.size_bits] in *. lia. }
    rewrite Hsum.
    assert (Hcount' :
              (if off + count >? L then C.size_t arch (L - off) else count)
              = Z.min count (L - off)).
    { destruct (Z.gtb_spec (off + count) L).
      - rewrite size_t_small by lia. lia.
      - lia. }
    rewrite Hcount'.
    rewrite read_bytes_inside by lia.
    run. rewrite ssize_t_count by lia.
    rewrite firstn_window by lia. reflexivity.
Qed.

(** X12: reading in pieces gives what one read gives.  Every call decodes
    the record again, into a fresh block; when two calls decode the same
    [L] bytes, a read of [c1] bytes at [off] followed by a read of [c2]
    bytes at the offset the first one stopped at return, put end to end,
    the bytes and the count of one read of [c1 + c2] bytes at [off].  A
    read that starts at the decoded length returns 0, the end of the
    file. *)
Theorem hc_wlan_data_bin_read_pieces (d : driver) (off c1 c2 : Z)
    (s t : kstate) (block1 block2 : nat -> byte) (decoded1 decoded2 : bytes)
    (L : Z) (s2 t2 : kstate) :
  let w := hc_wlandata_battr d in
  let cap := C.size_t arch (RB_ART_SIZE X) in
  wpld_len w <> 0 -> wpld_len w <= cap ->
  kmalloc_fn X (kallocs s) cap = Some block1 ->
  hc_wlan_data_unpack d (wpld_ofs w) (wpld_len w)
    (map block1 (seq 0 (Z.to_nat cap))) cap
    {| klog := klog s ++ [EvKmalloc cap]; kallocs := S (kallocs s) |}
  = Returns (0, decoded1, L) s2 ->
  kmalloc_fn X (kallocs t) cap = Some block2 ->
  hc_wlan_data_unpack d (wpld_ofs w) (wpld_len w)
    (map block2 (seq 0 (Z.to_nat cap))) cap
    {| klog := klog t ++ [EvKmalloc cap]; kallocs := S (kallocs t) |}
  = Returns (0, decoded2, L) t2 ->
  firstn (Z.to_nat L) decoded1 = firstn (Z.to_nat L) decoded2 ->
  L <= cap ->
  0 <= off -> 0 <= c1 -> 0 <= c2 ->
  off + c1 + c2 < 2 ^ (C.size_bits arch - 1) ->
  exists n1 data1 n2 data2,
    hc_wlan_data_bin_read d off c1 s
    = Returns (n1, data1) (record [EvKfree] s2)
    /\ hc_wlan_data_bin_read d (off + n1) c2 t
       = Returns (n2, data2) (record [EvKfree] t2)
    /\ hc_wlan_data_bin_read d off (c1 + c2) s
       = Returns (n1 + n2, data1 ++ data2) (record [EvKfree] s2)
    /\ 0 <= n1 <= c1 /\ 0 <= n2 <= c2
    /\ (L <= off -> n1 = 0 /\ n2 = 0)
    /\ (n1 + n2 < c1 + c2 -> L <= off + n1 + n2).
Proof.
  intros w cap Hnz Hfit Hb1 Hu1 Hb2 Hu2 Hsame HL Hoff Hc1 Hc2 Hsum.
  assert (Hbits : 2 ^ (C.size_bits arch - 1) <= 2 ^ 63)
    by (destruct arch; cbn [C.size_bits]; lia).
  destruct (bin_read_run d off c1 s block1 decoded1 L s2 Hnz Hfit Hb1 Hu1 HL
              ltac:(lia) ltac:(lia)) as [HL0 Hr1].
  set (n1 := if off >=? L then 0 else Z.min c1 (L - off)) in *.
  assert (Hn1 : 0 <= n1 <= c1)
    by (unfold n1; destruct (Z.geb_spec off L); lia).
  destruct (bin_read_run d (off + n1) c2 t block2 decoded2 L t2 Hnz Hfit Hb2
              Hu2 HL ltac:(lia) ltac:(lia)) as [_ Hr2].
  set (n2 := if off + n1 >=? L then 0 else Z.min c2 (L - (off + n1))) in *.
  destruct (bin_read_run d off (c1 + c2) s block1 decoded1 L s2 Hnz Hfit Hb1
              Hu1 HL ltac:(lia) ltac:(lia)) as [_ Hr].
  assert (Hn : (if off >=? L then 0 else Z.min (c1 + c2) (L - off)) = n1 + n2).
  { unfold n2, n1. destruct (Z.geb_spec off L) as [Hge | Hlt].
    - destruct (Z.geb_spec (off + 0) L); lia.
    - destruct (Z.geb_spec (off + Z.min c1 (L - off)) L); lia. }
  rewrite Hn in Hr.
  assert (Hn2 : 0 <= n2 <= c2)
    by (unfold n2; destruct (Z.geb_spec (off + n1) L); lia).
  exists n1. eexists. exists n2. eexists.
  split; [exact Hr1 |]. split; [exact Hr2 |].
  split.
  { rewrite Hr. do 2 f_equal. rewrite <- Hsame.
    rewrite Z2Nat.inj_add by lia. rewrite firstn_split, skipn_skipn.
    do 3 f_equal. lia. }
  split; [exact Hn1 |]. split; [exact Hn2 |]. split.
  - intros Hend. unfold n2, n1.
    destruct (Z.geb_spec off L); [| lia].
    destruct (Z.geb_spec (off + 0) L); lia.
  - unfold n2, n1.
    destruct (Z.geb_spec off L) as [Hge | Hlt].
    + destruct (Z.geb_spec (off + 0) L); lia.
    + destruct (Z.geb_spec (off + Z.min c1 (L - off)) L); lia.
Qed.

End Driver.

(* ================================================================== *)
(** ** The driver on concrete inputs

    A 64-bit little-endian machine, with the stand-ins of [Sample]. *)

(** C1: the search reads past the decompressed data.  With eight bytes of
    scratch buffer of which the decompressor filled five, and no magic in
    the first word, the loop loads a second word from offset 4: bytes 5, 6
    and 7 are not decompressed data.  When what the allocator left there
    completes the magic, the loop ends with a match (not with "not found")
    and the pointer at offset 8, past the five bytes.  With nothing filled
    at all the loop still loads the word at offset 0.  In the strategy the
    same input makes the length of the region handed to the tag scanner
    wrap around to [2 ^ 64 - 3]: so it is for the second half of the
    strategy on these eight bytes, and for the whole strategy on a record
    whose stream decompresses to five bytes, in a scratch buffer that the
    allocator hands out with [stale] in it. *)
Theorem needle_scan_reads_past_filled :
  let X := Sample.env [] [] Sample.ART_SIZE in
  let tempbuf := [x00; x00; x00; x00; x44; x52; x45; x00]%byte in
  let stale := [x00; x00; x00; x00; x00; x52; x45; x00]%byte in
  let stream := [x05; x00; x00; x00; x00; x44]%byte in
  needle_loop LittleEndian X (scan_fuel 5) tempbuf 5 0
    = Some (ScanFound 8, [0; 4])
  /\ needle_loop LittleEndian X (scan_fuel 0) tempbuf 0 0
    = Some (ScanNotFound, [0])
  /\ filter is_tag_find
       (events_of
          (lzor_after_decompress C.LP64 LittleEndian X tempbuf 5 [] 0)
          Sample.boot)
     = [EvTagFind [] (2 ^ 64 - 3) 1]
  /\ filter is_tag_find
       (events_of
          (hc_wlan_data_unpack_lzor C.LP64 LittleEndian
             (Sample.env [] stale Sample.ART_SIZE) stream 6
             (Some (repeat x00%byte 1400)) 1400)
          Sample.boot)
     = [EvTagFind (repeat x00%byte 1392) (2 ^ 64 - 3) 1].
Proof. repeat split; vm_compute; reflexivity. Qed.

(** C2: the strategies test the length of the embedded record, not where
    its payload ends.  In the Erd strategy, for a region of 8 bytes that
    holds a record of id 1 with a declared length of 8 (its payload starts
    at offset 4, so that only 4 bytes of it lie in the region), the
    decompressor is called on 8 bytes from offset 4 and the bytes that
    follow the region in the blob reach the output; the status is 0.  In
    the Lzor strategy the same record in 12 bytes of decompressed data
    makes the run-length decoder read 8 bytes from offset 8 of the scratch
    buffer. *)
Theorem embedded_payload_past_region :
  let X := Sample.env [] [] Sample.ART_SIZE in
  let region := [x01; x00; x08; x00; x07; xb1; xb2; xb3]%byte in
  let after := [xc4; xc5; xc6; xc7]%byte in
  let outbuf := repeat x00%byte 8 in
  let scratch :=
    ([x44; x52; x45; x00; x01; x00; x08; x00; xa5; x01; x5a; x01]
     ++ [x77; x02; x78; x01])%byte in
  hc_wlan_data_unpack_erd C.LP64 X (region ++ after) 8 outbuf 8
    Sample.boot
  = Returns (0, [xb1; xb2; xb3; xc4; xc5; xc6; xc7; x00]%byte, 7)
      {| klog := [EvTagFind (region ++ after) 8 1;
                  EvLzo ([x07; xb1; xb2; xb3]%byte ++ after) 8 8];
         kallocs := 0 |}
  /\ filter is_decode
       (events_of
          (lzor_after_decompress C.LP64 LittleEndian X scratch 12 outbuf 8)
          Sample.boot)
     = [EvRle ([xa5; x01; x5a; x01; x77; x02; x78; x01]%byte) 8 8].
Proof. split; vm_compute; reflexivity. Qed.

(** C3: a calibration record shorter than four bytes is not dispatched on
    its own bytes.  The record holds the two bytes 44 52, run-length data
    for 82 bytes of 0x44, and the record that follows it in the blob has
    the identifier 0x45.  [rb_hardconfig_init] finds the record at offset
    32 with the length 2; [hc_wlan_data_bin_read] then makes
    [hc_wlan_data_unpack] load the magic from the two bytes of the record
    and the two bytes that follow it, take the Erd strategy and pass it the
    length [2 - 4], which wraps to [2 ^ 64 - 2]: the record is not
    run-length-decoded, the call returns -ENOENT.  With the same record at
    the end of the blob, the load of the magic leaves the buffer. *)
Theorem unpack_short_record :
  let record := [x44; x52]%byte in
  let wlan := ([x16; x00; x02; x00] ++ record)%byte in
  let next := [x45; x00; x00; x00]%byte in
  let X := Sample.env (Sample.flash (wlan ++ next)) [] 128 in
  let Xend := Sample.env (Sample.flash wlan) [] 128 in
  routerboot_rle_decode_fn X record 2 128 = (0, repeat x44%byte 82, 82)
  /\ (exists d s' s'',
        rb_hardconfig_init C.LP64 LittleEndian X Sample.boot
        = Returns (0, Some d) s'
        /\ hc_buflen d = 38
        /\ hc_wlandata_battr d = {| wpld_ofs := 32; wpld_len := 2 |}
        /\ hc_wlan_data_bin_read C.LP64 LittleEndian X d 0 128 s'
           = Returns (- ENOENT, []) s''
        /\ events_of (hc_wlan_data_bin_read C.LP64 LittleEndian X d 0 128) s'
           = [EvKmalloc 128; EvUnpack 32 2;
              EvTagFind [x00; x00]%byte (2 ^ 64 - 2) 1; EvKfree])
  /\ (exists d s' s'',
        rb_hardconfig_init C.LP64 LittleEndian Xend Sample.boot
        = Returns (0, Some d) s'
        /\ hc_buflen d = 34
        /\ hc_wlandata_battr d = {| wpld_ofs := 32; wpld_len := 2 |}
        /\ hc_wlan_data_bin_read C.LP64 LittleEndian Xend d 0 128 s'
           = Crashes s''
        /\ events_of (hc_wlan_data_bin_read C.LP64 LittleEndian Xend d 0 128) s'
           = [EvKmalloc 128; EvUnpack 32 2]).
Proof.
  intros record wlan next X Xend.
  split; [vm_compute; reflexivity |].
  split.
  - eexists. eexists. eexists.
    split; [vm_compute; reflexivity |].
    repeat split; vm_compute; reflexivity.
  - eexists. eexists. eexists.
    split; [vm_compute; reflexivity |].
    repeat split; vm_compute; reflexivity.
Qed.

(** C4: the length given to the tag scanner when the match straddles the
    end of the decompressed data.  The stream decompresses to ten bytes,
    01 .. 08 44 52, into a scratch block in which the allocator left 45 00
    at offsets 10 and 11.  The search finds the magic at offset [m = 8] of
    the scratch buffer; the decompressed length minus [m] minus 4 is
    [10 - 12], and the tag scanner is called on the region at byte 12 with
    the length [2 ^ 64 - 2], for the identifier 1. *)
Theorem lzor_tag_region_wraps :
  let stale :=
    [x00; x00; x00; x00; x00; x00; x00; x00; x00; x00; x45; x00]%byte in
  let X := Sample.env [] stale Sample.ART_SIZE in
  let stream := [x0a; x01; x02; x03; x04; x05; x06; x07; x08; x44; x52]%byte in
  let written := [x01; x02; x03; x04; x05; x06; x07; x08; x44; x52]%byte in
  let outbuf := repeat x00%byte 1400 in
  let tempbuf :=
    deposit written (map (fun i => nth i stale x00%byte) (seq 0 1400)) in
  lzo1x_decompress_safe_fn X (hc_lzor_prefix ++ stream ++ skipn 1391 outbuf)
    (C.size_t C.LP64 (11 + sizeof_hc_lzor_prefix)) 1400
  = (0, written, 10)
  /\ needle_loop LittleEndian X (scan_fuel 10) tempbuf 10 0
     = Some (ScanFound (8 + 4), [0; 4; 8])
  /\ filter is_tag_find
       (events_of
          (hc_wlan_data_unpack_lzor C.LP64 LittleEndian X stream 11
             (Some outbuf) 1400)
          Sample.boot)
     = [EvTagFind (ptr_add tempbuf (8 + 4)) (2 ^ 64 - 2) 1]
  /\ C.size_t C.LP64 (10 - 8 - 4) = 2 ^ 64 - 2.
Proof. repeat split; vm_compute; reflexivity. Qed.

(** C5: the size test when the sum wraps.  The strategy is given the
    length [2 ^ 64 - 2], which is what [hc_wlan_data_unpack] computes for a
    record of two bytes; that length plus the 1380 bytes of the prefix
    exceeds the capacity of 1400 bytes, but the sum wraps to 1378 and the
    test passes: the scratch buffer is allocated, the prefix is stored in
    the output buffer, and the copy of the record leaves its buffers.  The
    status -EFBIG is not returned.  Such a call is made for a record that
    holds the two bytes 4c 5a, run-length data for 90 bytes of 0x4c, when
    the record that follows it has the identifier 0x524f. *)
Theorem lzor_length_wraps :
  let X := Sample.env [] [] Sample.ART_SIZE in
  let inlen := 2 ^ 64 - 2 in
  let record := [x4c; x5a]%byte in
  let wlan := ([x16; x00; x02; x00] ++ record)%byte in
  let next := [x4f; x52; x00; x00]%byte in
  let Xblob := Sample.env (Sample.flash (wlan ++ next)) [] 1400 in
  inlen + sizeof_hc_lzor_prefix > 1400
  /\ C.size_t C.LP64 (inlen + sizeof_hc_lzor_prefix) = 1378
  /\ hc_wlan_data_unpack_lzor C.LP64 LittleEndian X [x00; x00]%byte inlen
       (Some (repeat x00%byte 1400)) 1400 Sample.boot
     = Crashes
         {| klog := [EvKmalloc 1400; EvStore 0 sizeof_hc_lzor_prefix;
                     EvStore sizeof_hc_lzor_prefix inlen];
            kallocs := 1 |}
  /\ (exists d s' s'',
        rb_hardconfig_init C.LP64 LittleEndian Xblob Sample.boot
        = Returns (0, Some d) s'
        /\ hc_wlandata_battr d = {| wpld_ofs := 32; wpld_len := 2 |}
        /\ hc_wlan_data_bin_read C.LP64 LittleEndian Xblob d 0 128 s'
           = Crashes s''
        /\ events_of (hc_wlan_data_bin_read C.LP64 LittleEndian Xblob d 0 128)
             s'
           = [EvKmalloc 1400; EvUnpack 32 2; EvKmalloc 1400;
              EvStore 0 sizeof_hc_lzor_prefix;
              EvStore sizeof_hc_lzor_prefix inlen]).
Proof.
  intros X inlen record wlan next Xblob.
  split; [reflexivity |].
  split; [reflexivity |].
  split; [vm_compute; reflexivity |].
  eexists. eexists. eexists.
  split; [vm_compute; reflexivity |].
  repeat split; vm_compute; reflexivity.
Qed.

(** The size test on an input: a record of 100 bytes past the magic and an
    output buffer of 1000 bytes. *)
Lemma lzor_too_big_witness :
  let X := Sample.env [] [] Sample.ART_SIZE in
  (0 <= 100
   /\ 100 + sizeof_hc_lzor_prefix < 2 ^ C.size_bits C.LP64
   /\ 100 + sizeof_hc_lzor_prefix > 1000)
  /\ hc_wlan_data_unpack_lzor C.LP64 LittleEndian X [] 100 (Some []) 1000
       Sample.boot
     = Returns (- EFBIG, [], 1000) Sample.boot.
Proof.
  intros X.
  assert (H0 : 0 <= 100) by lia.
  assert (H1 : 100 + sizeof_hc_lzor_prefix < 2 ^ C.size_bits C.LP64)
    by reflexivity.
  assert (H2 : 100 + sizeof_hc_lzor_prefix > 1000) by reflexivity.
  split; [repeat split; assumption |].
  exact (proj1 (lzor_too_big C.LP64 LittleEndian X [] 100 [] 1000 Sample.boot
                  H0 H1 H2)).
Defined.

(** C10 on an input: a capacity of 16 bytes and a stored record of 20. *)
Lemma bin_read_too_large_witness :
  let X := Sample.env [] [] 16 in
  let d := {| hc_buf := []; hc_buflen := 0; hc_attrs := [];
              hc_wlandata_battr := {| wpld_ofs := 32; wpld_len := 20 |} |} in
  wpld_len (hc_wlandata_battr d) > C.size_t C.LP64 (RB_ART_SIZE X)
  /\ hc_wlan_data_bin_read C.LP64 LittleEndian X d 0 4096 Sample.boot
     = Returns (- EFBIG, []) Sample.boot.
Proof.
  intros X d.
  assert (H : wpld_len (hc_wlandata_battr d) > C.size_t C.LP64 (RB_ART_SIZE X))
    by reflexivity.
  split; [exact H |].
  exact (proj1 (bin_read_too_large C.LP64 LittleEndian X d 0 4096 Sample.boot H)).
Defined.

(** The region of the tag scan on an input: 16 bytes of decompressed data
    with the magic in the second word. *)
Lemma lzor_tag_region_witness :
  let X := Sample.env [] [] Sample.ART_SIZE in
  let tempbuf :=
    [x01; x02; x03; x04; x44; x52; x45; x00;
     x01; x00; x04; x00; xa5; x02; x5a; x02]%byte in
  let templen := C.size_t C.LP64 16 in
  (needle_loop LittleEndian X (scan_fuel templen) tempbuf templen 0
     = Some (ScanFound (4 + 4), [0; 4])
   /\ 4 + 4 <= templen)
  /\ filter is_tag_find
       (events_of
          (lzor_after_decompress C.LP64 LittleEndian X tempbuf templen [] 0)
          Sample.boot)
     = [EvTagFind [x01; x00; x04; x00; xa5; x02; x5a; x02]%byte 8 1].
Proof.
  intros X tempbuf templen.
  assert (H1 : needle_loop LittleEndian X (scan_fuel templen) tempbuf templen 0
               = Some (ScanFound (4 + 4), [0; 4])) by reflexivity.
  assert (H2 : 4 + 4 <= templen) by (vm_compute; discriminate).
  split; [split; assumption |].
  exact (proj2 (lzor_tag_region C.LP64 LittleEndian X tempbuf 16 [] 0
                  Sample.boot 4 [0; 4] H1 H2)).
Defined.

(** C6 on two inputs: a stream of 16 literal bytes followed by three bytes
    of padding, for which the stand-in decompressor reports "input not
    consumed", and a stream that ends before its 16 bytes, for which it
    reports an input overrun. *)
Lemma lzor_decompressor_status_witness :
  let X := Sample.env [] [] Sample.ART_SIZE in
  let block := fun i : nat => nth i [] x00%byte in
  let padded :=
    [x10; x01; x02; x03; x04; x44; x52; x45; x00;
     x01; x00; x04; x00; xa5; x02; x5a; x02; x00; x00; x00]%byte in
  let short := [x10; x01; x02; x03]%byte in
  let ob1 n := hc_lzor_prefix ++ repeat x00%byte n in
  ((C.size_t C.LP64 (20 + sizeof_hc_lzor_prefix) <= 1400
    /\ kmalloc_fn X (kallocs Sample.boot) 1400 = Some block
    /\ blit (repeat x00%byte 1400) 0 hc_lzor_prefix sizeof_hc_lzor_prefix
       = Some (ob1 20%nat)
    /\ blit (ob1 20%nat) sizeof_hc_lzor_prefix padded 20
       = Some (hc_lzor_prefix ++ padded)
    /\ lzo1x_decompress_safe_fn X (hc_lzor_prefix ++ padded)
         (C.size_t C.LP64 (20 + sizeof_hc_lzor_prefix)) 1400
       = (LZO_E_INPUT_NOT_CONSUMED, firstn 16 (skipn 1 padded), 16)
    /\ C.int LZO_E_INPUT_NOT_CONSUMED = LZO_E_INPUT_NOT_CONSUMED)
   /\ exists probes rest,
        events_of
          (hc_wlan_data_unpack_lzor C.LP64 LittleEndian X padded 20
             (Some (repeat x00%byte 1400)) 1400) Sample.boot
        = [EvKmalloc 1400; EvStore 0 sizeof_hc_lzor_prefix;
           EvStore sizeof_hc_lzor_prefix 20;
           EvLzo (hc_lzor_prefix ++ padded)
             (C.size_t C.LP64 (20 + sizeof_hc_lzor_prefix)) 1400]
          ++ map EvLoad32 (0 :: probes) ++ rest)
  /\ ((C.size_t C.LP64 (4 + sizeof_hc_lzor_prefix) <= 1384
       /\ kmalloc_fn X (kallocs Sample.boot) 1384 = Some block
       /\ blit (repeat x00%byte 1384) 0 hc_lzor_prefix sizeof_hc_lzor_prefix
          = Some (ob1 4%nat)
       /\ blit (ob1 4%nat) sizeof_hc_lzor_prefix short 4
          = Some (hc_lzor_prefix ++ short)
       /\ lzo1x_decompress_safe_fn X (hc_lzor_prefix ++ short)
            (C.size_t C.LP64 (4 + sizeof_hc_lzor_prefix)) 1384
          = (Sample.LZO_E_INPUT_OVERRUN, skipn 1 short, 3)
       /\ C.int Sample.LZO_E_INPUT_OVERRUN <> 0
       /\ C.int Sample.LZO_E_INPUT_OVERRUN <> LZO_E_INPUT_NOT_CONSUMED)
      /\ events_of
           (hc_wlan_data_unpack_lzor C.LP64 LittleEndian X short 4
              (Some (repeat x00%byte 1384)) 1384) Sample.boot
         = [EvKmalloc 1384; EvStore 0 sizeof_hc_lzor_prefix;
            EvStore sizeof_hc_lzor_prefix 4;
            EvLzo (hc_lzor_prefix ++ short) 1384 1384; EvKfree]).
Proof.
  intros X block padded short ob1.
  assert (A1 : C.size_t C.LP64 (20 + sizeof_hc_lzor_prefix) <= 1400)
    by (vm_compute; discriminate).
  assert (A2 : kmalloc_fn X (kallocs Sample.boot) 1400 = Some block)
    by reflexivity.
  assert (A3 : blit (repeat x00%byte 1400) 0 hc_lzor_prefix
                 sizeof_hc_lzor_prefix = Some (ob1 20%nat))
    by (vm_compute; reflexivity).
  assert (A4 : blit (ob1 20%nat) sizeof_hc_lzor_prefix padded 20
               = Some (hc_lzor_prefix ++ padded))
    by (vm_compute; reflexivity).
  assert (A5 : lzo1x_decompress_safe_fn X (hc_lzor_prefix ++ padded)
                 (C.size_t C.LP64 (20 + sizeof_hc_lzor_prefix)) 1400
               = (LZO_E_INPUT_NOT_CONSUMED, firstn 16 (skipn 1 padded), 16))
    by (vm_compute; reflexivity).
  assert (A6 : C.int LZO_E_INPUT_NOT_CONSUMED = LZO_E_INPUT_NOT_CONSUMED)
    by reflexivity.
  assert (B1 : C.size_t C.LP64 (4 + sizeof_hc_lzor_prefix) <= 1384)
    by (vm_compute; discriminate).
  assert (B2 : kmalloc_fn X (kallocs Sample.boot) 1384 = Some block)
    by reflexivity.
  assert (B3 : blit (repeat x00%byte 1384) 0 hc_lzor_prefix
                 sizeof_hc_lzor_prefix = Some (ob1 4%nat))
    by (vm_compute; reflexivity).
  assert (B4 : blit (ob1 4%nat) sizeof_hc_lzor_prefix short 4
               = Some (hc_lzor_prefix ++ short))
    by (vm_compute; reflexivity).
  assert (B5 : lzo1x_decompress_safe_fn X (hc_lzor_prefix ++ short)
                 (C.size_t C.LP64 (4 + sizeof_hc_lzor_prefix)) 1384
               = (Sample.LZO_E_INPUT_OVERRUN, skipn 1 short, 3))
    by (vm_compute; reflexivity).
  assert (B6 : C.int Sample.LZO_E_INPUT_OVERRUN <> 0)
    by (vm_compute; discriminate).
  assert (B7 : C.int Sample.LZO_E_INPUT_OVERRUN <> LZO_E_INPUT_NOT_CONSUMED)
    by (vm_compute; discriminate).
  split.
  - split; [repeat split; assumption |].
    exact (proj2 (proj1 (lzor_decompressor_status C.LP64 LittleEndian X padded
                           20 (repeat x00%byte 1400) 1400 Sample.boot block
                           (ob1 20%nat) (hc_lzor_prefix ++ padded)
                           LZO_E_INPUT_NOT_CONSUMED
                           (firstn 16 (skipn 1 padded)) 16
                           A1 A2 A3 A4 A5) A6)).
  - split; [repeat split; assumption |].
    exact (proj2 (proj2 (lzor_decompressor_status C.LP64 LittleEndian X short 4
                           (repeat x00%byte 1384) 1384 Sample.boot block
                           (ob1 4%nat) (hc_lzor_prefix ++ short)
                           Sample.LZO_E_INPUT_OVERRUN (skipn 1 short) 3
                           B1 B2 B3 B4 B5) B6 B7)).
Defined.

(** The dispatch on an input: the calibration record of [Sample.wlan_lzor],
    24 bytes at offset 32 of the blob, which starts with RB_MAGIC_LZOR. *)
Lemma hc_wlan_data_unpack_dispatch_witness :
  let blob := Sample.flash Sample.wlan_lzor in
  let X := Sample.env blob [] Sample.ART_SIZE in
  let d := {| hc_buf := blob; hc_buflen := 56; hc_attrs := [];
              hc_wlandata_battr := {| wpld_ofs := 32; wpld_len := 24 |} |} in
  (hc_buflen d = len (hc_buf d)
   /\ hc_buflen d < 2 ^ C.size_bits C.LP64
   /\ 0 <= 32 /\ 4 <= 24 /\ 32 + 24 <= hc_buflen d
   /\ C.u32 (RB_MAGIC_LZOR X) <> C.u32 (RB_MAGIC_ERD X))
  /\ hc_wlan_data_unpack C.LP64 LittleEndian X d 32 24 [] 0 Sample.boot
     = hc_wlan_data_unpack_lzor C.LP64 LittleEndian X
         (ptr_add (hc_buf d) (32 + 4)) (24 - 4) (Some []) 0
         (record [EvUnpack 32 24] Sample.boot).
Proof.
  intros blob X d.
  assert (H1 : hc_buflen d = len (hc_buf d)) by reflexivity.
  assert (H2 : hc_buflen d < 2 ^ C.size_bits C.LP64) by reflexivity.
  assert (H3 : 0 <= 32) by lia.
  assert (H4 : 4 <= 24) by lia.
  assert (H5 : 32 + 24 <= hc_buflen d) by (vm_compute; discriminate).
  assert (H6 : C.u32 (RB_MAGIC_LZOR X) <> C.u32 (RB_MAGIC_ERD X))
    by (vm_compute; discriminate).
  split; [repeat split; assumption |].
  destruct (hc_wlan_data_unpack_dispatch C.LP64 LittleEndian X d 32 24 [] 0
              Sample.boot H1 H2 H3 H4 H5 H6)
    as (b0 & b1 & b2 & b3 & rest & magic & Hrec & _ & _ & Hmagic & Hlzor & _).
  apply Hlzor. vm_compute in Hrec. injection Hrec as <- <- <- <- _.
  vm_compute in Hmagic. injection Hmagic as <-. reflexivity.
Defined.

(** C8 on an input: the run-length encoded record of [Sample.wlan_raw]
    decodes to 8 bytes in a buffer of 64; a read of 100 bytes at offset 3
    returns the 5 bytes that remain. *)
Lemma bin_read_window_witness :
  let blob := Sample.flash Sample.wlan_raw in
  let X := Sample.env blob [] 64 in
  let d := {| hc_buf := blob; hc_buflen := 40; hc_attrs := [];
              hc_wlandata_battr := {| wpld_ofs := 32; wpld_len := 8 |} |} in
  let block := fun i : nat => nth i [] x00%byte in
  let decoded :=
    ([xa5; xa5; xa5; x5a; x5a; x00; xff; xff] ++ repeat x00 56)%byte in
  let s2 :=
    {| klog := [EvKmalloc 64; EvUnpack 32 8; EvRle (skipn 32 blob) 8 64];
       kallocs := 1 |} in
  let cap := C.size_t C.LP64 (RB_ART_SIZE X) in
  (wpld_len (hc_wlandata_battr d) <> 0
   /\ wpld_len (hc_wlandata_battr d) <= cap
   /\ kmalloc_fn X (kallocs Sample.boot) cap = Some block
   /\ hc_wlan_data_unpack C.LP64 LittleEndian X d 32 8
        (map block (seq 0 (Z.to_nat cap))) cap
        {| klog := klog Sample.boot ++ [EvKmalloc cap];
           kallocs := S (kallocs Sample.boot) |}
      = Returns (0, decoded, 8) s2
   /\ 8 <= cap
   /\ 0 <= 3 < 2 ^ 63
   /\ 0 <= 100 < 2 ^ (C.size_bits C.LP64 - 1))
  /\ hc_wlan_data_bin_read C.LP64 LittleEndian X d 3 100 Sample.boot
     = Returns (5, [x5a; x5a; x00; xff; xff]%byte) (record [EvKfree] s2).
Proof.
  intros blob X d block decoded s2 cap.
  assert (H1 : wpld_len (hc_wlandata_battr d) <> 0) by discriminate.
  assert (H2 : wpld_len (hc_wlandata_battr d) <= cap)
    by (vm_compute; discriminate).
  assert (H3 : kmalloc_fn X (kallocs Sample.boot) cap = Some block)
    by reflexivity.
  assert (H4 : hc_wlan_data_unpack C.LP64 LittleEndian X d 32 8
                 (map block (seq 0 (Z.to_nat cap))) cap
                 {| klog := klog Sample.boot ++ [EvKmalloc cap];
                    kallocs := S (kallocs Sample.boot) |}
               = Returns (0, decoded, 8) s2)
    by (vm_compute; reflexivity).
  assert (H5 : 8 <= cap) by (vm_compute; discriminate).
  assert (H6 : 0 <= 3 < 2 ^ 63) by lia.
  assert (H7 : 0 <= 100 < 2 ^ (C.size_bits C.LP64 - 1))
    by (split; [lia | reflexivity]).
  split; [repeat split; try assumption; lia |].
  exact (proj1 (bin_read_window C.LP64 LittleEndian X d 3 100 Sample.boot
                  block decoded 8 s2 H1 H2 H3 H4 H5 H6 H7)).
Defined.


(** ** The further properties on concrete inputs *)

(** X1 on an input: 16 bytes with the magic in the second word.  The word
    at offset 0 is not the magic and the word at offset 4 is. *)
Lemma needle_scan_first_match_witness :
  let X := Sample.env [] [] Sample.ART_SIZE in
  let tempbuf :=
    [x01; x02; x03; x04; x44; x52; x45; x00;
     x01; x00; x04; x00; xa5; x02; x5a; x02]%byte in
  needle_loop LittleEndian X (scan_fuel 16) tempbuf 16 0
    = Some (ScanFound 8, [0; 4])
  /\ load_u32 LittleEndian (ptr_add tempbuf (8 - 4))
     = Some (C.u32 (RB_MAGIC_ERD X))
  /\ (forall k, 0 <= k -> 4 * k < 8 - 4 ->
      exists w, load_u32 LittleEndian (ptr_add tempbuf (4 * k)) = Some w
                /\ w <> C.u32 (RB_MAGIC_ERD X)).
Proof.
  intros X tempbuf.
  assert (H : needle_loop LittleEndian X (scan_fuel 16) tempbuf 16 0
              = Some (ScanFound 8, [0; 4])) by reflexivity.
  split; [exact H |].
  destruct (needle_scan_first_match LittleEndian X tempbuf 16 (ScanFound 8)
              [0; 4] H) as (_ & _ & Hword & Hbefore).
  split; [exact Hword | exact Hbefore].
Defined.

(** X2 on an input: a record of 20 bytes (a stream of 16 literal bytes and
    three bytes of padding) and an output buffer of 1400 bytes. *)
Lemma hc_wlan_data_unpack_lzor_accesses_witness :
  let X := Sample.env [] [] Sample.ART_SIZE in
  let block := fun i : nat => nth i [] x00%byte in
  let padded :=
    [x10; x01; x02; x03; x04; x44; x52; x45; x00;
     x01; x00; x04; x00; xa5; x02; x5a; x02; x00; x00; x00]%byte in
  let outbuf := repeat x00%byte 1400 in
  let run :=
    hc_wlan_data_unpack_lzor C.LP64 LittleEndian X padded 20 (Some outbuf)
      1400 in
  (0 <= 20 <= len padded
   /\ 20 + sizeof_hc_lzor_prefix < 2 ^ C.size_bits C.LP64
   /\ 0 <= 1400 <= len outbuf
   /\ 1400 < 2 ^ C.size_bits C.LP64
   /\ 1400 mod 4 = 0
   /\ kmalloc_fn X (kallocs Sample.boot) 1400 = Some block)
  /\ (exists a s', run Sample.boot = Returns a s')
  /\ filter is_access (events_of run Sample.boot)
     = [EvStore 0 sizeof_hc_lzor_prefix; EvStore sizeof_hc_lzor_prefix 20;
        EvLoad32 0; EvLoad32 4]
  /\ (forall p, In (EvLoad32 p) (events_of run Sample.boot) ->
      0 <= p /\ p + 4 <= 1400).
Proof.
  intros X block padded outbuf run.
  assert (H1 : 0 <= 20 <= len padded) by (vm_compute; split; discriminate).
  assert (H2 : 20 + sizeof_hc_lzor_prefix < 2 ^ C.size_bits C.LP64)
    by reflexivity.
  assert (H3 : 0 <= 1400 <= len outbuf) by (vm_compute; split; discriminate).
  assert (H4 : 1400 < 2 ^ C.size_bits C.LP64) by reflexivity.
  assert (H5 : 1400 mod 4 = 0) by reflexivity.
  assert (H6 : kmalloc_fn X (kallocs Sample.boot) 1400 = Some block)
    by reflexivity.
  assert (H7 : let src :=
                 hc_lzor_prefix ++ firstn (Z.to_nat 20) padded
                 ++ skipn (Z.to_nat (sizeof_hc_lzor_prefix + 20)) outbuf in
               let '(_, _, out_len) :=
                 lzo1x_decompress_safe_fn X src (20 + sizeof_hc_lzor_prefix)
                   1400 in
               C.size_t C.LP64 out_len <= 1400)
    by (vm_compute; discriminate).
  split; [repeat split; try assumption; lia |].
  destruct (hc_wlan_data_unpack_lzor_accesses C.LP64 LittleEndian X padded 20
              outbuf 1400 Sample.boot block H1 H2 H3 H4 H5 H6 H7)
    as (Hret & _ & Hloads).
  split; [exact Hret |]. split; [vm_compute; reflexivity | exact Hloads].
Defined.

(** X3 on the same input: the decompressor is given the prefix followed by
    the 20 bytes of the record. *)
Lemma hc_wlan_data_unpack_lzor_concat_witness :
  let X := Sample.env [] [] Sample.ART_SIZE in
  let padded :=
    [x10; x01; x02; x03; x04; x44; x52; x45; x00;
     x01; x00; x04; x00; xa5; x02; x5a; x02; x00; x00; x00]%byte in
  let outbuf := repeat x00%byte 1400 in
  (0 <= 20 <= len padded
   /\ 20 + sizeof_hc_lzor_prefix <= 1400
   /\ 1400 <= len outbuf
   /\ 1400 < 2 ^ C.size_bits C.LP64)
  /\ find is_decode
       (events_of
          (hc_wlan_data_unpack_lzor C.LP64 LittleEndian X padded 20
             (Some outbuf) 1400) Sample.boot)
     = Some (EvLzo (hc_lzor_prefix ++ padded) 1400 1400).
Proof.
  intros X padded outbuf.
  assert (H1 : 0 <= 20 <= len padded) by (vm_compute; split; discriminate).
  assert (H2 : 20 + sizeof_hc_lzor_prefix <= 1400)
    by (vm_compute; discriminate).
  assert (H3 : 1400 <= len outbuf) by (vm_compute; discriminate).
  assert (H4 : 1400 < 2 ^ C.size_bits C.LP64) by reflexivity.
  split; [repeat split; try assumption; lia |].
  exact (hc_wlan_data_unpack_lzor_concat C.LP64 LittleEndian X padded 20
           outbuf 1400 Sample.boot H1 H2 H3 H4).
Defined.

(** X4 on an input: the blob whose calibration record is behind
    RB_MAGIC_LZOR, unpacked into 1400 bytes. *)
Lemma hc_wlan_data_unpack_balanced_witness :
  let blob := Sample.flash Sample.wlan_lzor in
  let X := Sample.env blob [] 1400 in
  let d := {| hc_buf := blob; hc_buflen := 56; hc_attrs := [];
              hc_wlandata_battr := {| wpld_ofs := 32; wpld_len := 24 |} |} in
  let run :=
    hc_wlan_data_unpack C.LP64 LittleEndian X d 32 24 (repeat x00%byte 1400)
      1400 in
  exists a s',
    run Sample.boot = Returns a s'
    /\ allocations (events_of run Sample.boot)
       = releases (events_of run Sample.boot)
    /\ (allocations (events_of run Sample.boot) <= 1)%nat.
Proof.
  intros blob X d run.
  assert (H : exists a s', run Sample.boot = Returns a s')
    by (eexists; eexists; vm_compute; reflexivity).
  destruct H as (a & s' & H).
  exists a, s'. split; [exact H |].
  exact (hc_wlan_data_unpack_balanced C.LP64 LittleEndian X d 32 24
           (repeat x00%byte 1400) 1400 Sample.boot a s' H).
Defined.

(** X5 on the same blob: a read of two bytes at offset 1 allocates twice
    and frees twice. *)
Lemma hc_wlan_data_bin_read_balanced_witness :
  let blob := Sample.flash Sample.wlan_lzor in
  let X := Sample.env blob [] 1400 in
  let d := {| hc_buf := blob; hc_buflen := 56; hc_attrs := [];
              hc_wlandata_battr := {| wpld_ofs := 32; wpld_len := 24 |} |} in
  let run := hc_wlan_data_bin_read C.LP64 LittleEndian X d 1 2 in
  exists s',
    (run Sample.boot = Returns (2, [xa5; x5a]%byte) s'
     /\ kmalloc_fn X (kallocs Sample.boot) (C.size_t C.LP64 (RB_ART_SIZE X))
        <> None)
    /\ allocations (events_of run Sample.boot)
       = releases (events_of run Sample.boot)
    /\ (allocations (events_of run Sample.boot) <= 2)%nat.
Proof.
  intros blob X d run.
  assert (H : exists s', run Sample.boot = Returns (2, [xa5; x5a]%byte) s')
    by (eexists; vm_compute; reflexivity).
  destruct H as (s' & H).
  assert (Hk : kmalloc_fn X (kallocs Sample.boot)
                 (C.size_t C.LP64 (RB_ART_SIZE X)) <> None)
    by discriminate.
  exists s'. split; [split; assumption |].
  exact (hc_wlan_data_bin_read_balanced C.LP64 LittleEndian X d 1 2
           Sample.boot (2, [xa5; x5a]%byte) s' H Hk).
Defined.

(** X6 on an input: a partition that does not start with RB_MAGIC_HARD.
    The initialisation fails with -EINVAL, looks for no tag, publishes
    nothing and frees the buffer it had allocated. *)
Lemma rb_hardconfig_init_failure_witness :
  let blob := ([x00; x00; x00; x00] ++ Sample.mac_record)%byte in
  let X := Sample.env blob [] Sample.ART_SIZE in
  let s' := {| klog := [EvKmalloc 16; EvKfree]; kallocs := 1 |} in
  let es := events_of (rb_hardconfig_init C.LP64 LittleEndian X) Sample.boot in
  rb_hardconfig_init C.LP64 LittleEndian X Sample.boot
    = Returns (- EINVAL, None) s'
  /\ filter is_sysfs es = []
  /\ filter is_tag_find es = []
  /\ allocations es = releases es.
Proof.
  intros blob X s' es.
  assert (H : rb_hardconfig_init C.LP64 LittleEndian X Sample.boot
              = Returns (- EINVAL, None) s') by (vm_compute; reflexivity).
  split; [exact H |].
  destruct (rb_hardconfig_init_failure C.LP64 LittleEndian X Sample.boot s'
              (- EINVAL) None H) as (_ & Hfail).
  destruct (Hfail eq_refl) as (Hsysfs & Hfind & Hfree).
  split; [exact Hsysfs |]. split; [exact Hfind |].
  apply Hfree. intros mtd Hmtd. discriminate.
Defined.

(** X11 on an input: the record of 20 bytes behind RB_MAGIC_LZOR.  The
    stream gives 16 bytes with the magic in the second word; the record of
    id 1 that follows holds two runs, which the run-length decoder expands
    to four bytes at the start of the output buffer. *)
Lemma hc_wlan_data_unpack_lzor_decodes_witness :
  let X := Sample.env [] [] Sample.ART_SIZE in
  let block := fun i : nat => nth i [] x00%byte in
  let padded :=
    [x10; x01; x02; x03; x04; x44; x52; x45; x00;
     x01; x00; x04; x00; xa5; x02; x5a; x02; x00; x00; x00]%byte in
  let outbuf := repeat x00%byte 1400 in
  let src :=
    hc_lzor_prefix ++ firstn (Z.to_nat 20) padded
    ++ skipn (Z.to_nat (sizeof_hc_lzor_prefix + 20)) outbuf in
  let written := firstn 16 (skipn 1 padded) in
  let tempbuf := deposit written (map block (seq 0 (Z.to_nat 1400))) in
  let templen := C.size_t C.LP64 16 in
  let expanded := [xa5; xa5; x5a; x5a]%byte in
  (0 <= 20 <= len padded
   /\ 20 + sizeof_hc_lzor_prefix <= 1400
   /\ 1400 <= len outbuf
   /\ 1400 < 2 ^ C.size_bits C.LP64
   /\ kmalloc_fn X (kallocs Sample.boot) 1400 = Some block
   /\ lzo1x_decompress_safe_fn X src (20 + sizeof_hc_lzor_prefix) 1400
      = (LZO_E_INPUT_NOT_CONSUMED, written, 16)
   /\ (C.int LZO_E_INPUT_NOT_CONSUMED = 0
       \/ C.int LZO_E_INPUT_NOT_CONSUMED = LZO_E_INPUT_NOT_CONSUMED)
   /\ needle_loop LittleEndian X (scan_fuel templen) tempbuf templen 0
      = Some (ScanFound (4 + 4), [0; 4])
   /\ 4 + 4 <= templen
   /\ routerboot_tag_find_fn X (ptr_add tempbuf (4 + 4)) (templen - 4 - 4) 1
      = (0, 4, 4)
   /\ C.int 0 = 0
   /\ C.u16 4 <= templen - 4 - 4
   /\ routerboot_rle_decode_fn X (ptr_add tempbuf (4 + 4 + C.u16 4)) (C.u16 4)
        1400
      = (0, expanded, 4))
  /\ exists s',
       hc_wlan_data_unpack_lzor C.LP64 LittleEndian X padded 20 (Some outbuf)
         1400
         Sample.boot
       = Returns (0, expanded ++ skipn 4 (hc_lzor_prefix ++ padded), 4) s'.
Proof.
  intros X block padded outbuf src written tempbuf templen expanded.
  assert (H1 : 0 <= 20 <= len padded) by (vm_compute; split; discriminate).
  assert (H2 : 20 + sizeof_hc_lzor_prefix <= 1400)
    by (vm_compute; discriminate).
  assert (H3 : 1400 <= len outbuf) by (vm_compute; discriminate).
  assert (H4 : 1400 < 2 ^ C.size_bits C.LP64) by reflexivity.
  assert (H5 : kmalloc_fn X (kallocs Sample.boot) 1400 = Some block)
    by reflexivity.
  assert (H6 : lzo1x_decompress_safe_fn X src (20 + sizeof_hc_lzor_prefix)
                 1400
               = (LZO_E_INPUT_NOT_CONSUMED, written, 16))
    by (vm_compute; reflexivity).
  assert (H7 : C.int LZO_E_INPUT_NOT_CONSUMED = 0
               \/ C.int LZO_E_INPUT_NOT_CONSUMED = LZO_E_INPUT_NOT_CONSUMED)
    by (right; reflexivity).
  assert (H8 : needle_loop LittleEndian X (scan_fuel templen) tempbuf templen 0
               = Some (ScanFound (4 + 4), [0; 4]))
    by (vm_compute; reflexivity).
  assert (H9 : 4 + 4 <= templen) by (vm_compute; discriminate).
  assert (H10 : routerboot_tag_find_fn X (ptr_add tempbuf (4 + 4))
                  (templen - 4 - 4) 1 = (0, 4, 4))
    by (vm_compute; reflexivity).
  assert (H11 : C.int 0 = 0) by reflexivity.
  assert (H12 : C.u16 4 <= templen - 4 - 4) by (vm_compute; discriminate).
  assert (H13 : routerboot_rle_decode_fn X
                  (ptr_add tempbuf (4 + 4 + C.u16 4)) (C.u16 4) 1400
                = (0, expanded, 4))
    by (vm_compute; reflexivity).
  split; [repeat split; try assumption; lia |].
  destruct (hc_wlan_data_unpack_lzor_decodes C.LP64 LittleEndian X padded 20
              outbuf 1400 Sample.boot block LZO_E_INPUT_NOT_CONSUMED written
              16 4 [0; 4] 0 4 4 0 expanded 4 H1 H2 H3 H4 H5 H6 H7 H8 H9 H10
              H11 H12 H13) as (s' & Hrun & _).
  exists s'. exact Hrun.
Defined.


(** X8 on the same blob: the calibration record is found at offset 28 of
    the region that follows the magic, with 8 bytes, and the binary
    attribute points at offset 32 of the blob. *)
Lemma rb_hardconfig_init_offsets_witness :
  let blob := Sample.flash Sample.wlan_raw in
  let X := Sample.env blob [] Sample.ART_SIZE in
  exists d s',
    (rb_hardconfig_init C.LP64 LittleEndian X Sample.boot
       = Returns (0, Some d) s'
     /\ routerboot_tag_find_fn X (ptr_add (hc_buf d) 4)
          (C.size_t C.LP64 (hc_buflen d - 4)) RB_ID_WLAN_DATA = (0, 28, 8)
     /\ C.int 0 = 0 /\ C.u16 8 <> 0 /\ C.u16 28 + 4 < 2 ^ 16)
    /\ hc_wlandata_battr d = {| wpld_ofs := 32; wpld_len := 8 |}
    /\ ptr_add (hc_buf d) (wpld_ofs (hc_wlandata_battr d))
       = [xa5; x03; x5a; x02; x00; x01; xff; x02]%byte.
Proof.
  intros blob X. eexists. eexists.
  split.
  { split; [vm_compute; reflexivity |].
    split; [vm_compute; reflexivity |].
    split; [reflexivity |].
    split; [vm_compute; discriminate | reflexivity]. }
  match goal with |- hc_wlandata_battr ?d0 = _ /\ _ => set (d := d0) end.
  assert (H : exists s', rb_hardconfig_init C.LP64 LittleEndian X Sample.boot
                         = Returns (0, Some d) s')
    by (eexists; vm_compute; reflexivity).
  destruct H as (s' & H).
  assert (Hfind : routerboot_tag_find_fn X (ptr_add (hc_buf d) 4)
                    (C.size_t C.LP64 (hc_buflen d - 4)) RB_ID_WLAN_DATA
                  = (0, 28, 8))
    by (vm_compute; reflexivity).
  assert (Hret : C.int 0 = 0) by reflexivity.
  assert (Hlen : C.u16 8 <> 0) by (vm_compute; discriminate).
  assert (Hofs : C.u16 28 + 4 < 2 ^ 16) by reflexivity.
  destruct (rb_hardconfig_init_offsets C.LP64 LittleEndian X Sample.boot s' d
              H RB_ID_WLAN_DATA 0 28 8 Hfind Hret Hlen Hofs) as (_ & Hwlan).
  destruct (Hwlan eq_refl) as (Hattr & Hptr).
  split; [exact Hattr |].
  rewrite Hptr. vm_compute. reflexivity.
Defined.

(** X9 on an input: two payloads that differ in their last two bytes
    only give the same text. *)
Lemma hc_tag_show_mac_text_witness :
  let p := [x00; x0c; x42; xaa; xbb; xcc; x00; x00]%byte in
  let q := [x00; x0c; x42; xaa; xbb; xcc; x11; x22]%byte in
  let text := String.append "00:0c:42:aa:bb:cc" NL in
  (hc_tag_show_mac p 8 Sample.boot = Returns (18, text) Sample.boot
   /\ hc_tag_show_mac q 8 Sample.boot = Returns (18, text) Sample.boot)
  /\ String.length text = 18%nat
  /\ firstn 6 p = firstn 6 q.
Proof.
  intros p q text.
  assert (Hp : hc_tag_show_mac p 8 Sample.boot
               = Returns (18, text) Sample.boot) by reflexivity.
  assert (Hq : hc_tag_show_mac q 8 Sample.boot
               = Returns (18, text) Sample.boot) by reflexivity.
  split; [split; assumption |].
  destruct (hc_tag_show_mac_text p q Sample.boot Sample.boot 18 18 text
              Sample.boot Sample.boot Hp Hq) as (_ & Hlen & _ & Hsame).
  split; [exact Hlen | exact Hsame].
Defined.

(** X10 on an input: the options 0x00200005, three of which are set. *)
Lemma hc_tag_show_hwoptions_length_witness :
  let pld := [x05; x00; x20; x00]%byte in
  exists text,
    hc_tag_show_hwoptions LittleEndian pld 4 Sample.boot
      = Returns (247, text) Sample.boot
    /\ exists data,
         load_u32 LittleEndian pld = Some data
         /\ 247 = Z.of_nat (String.length text)
         /\ 247 = 250 - Z.of_nat (List.length
                                    (filter (fun o => negb (Z.land data (fst o) =? 0))
                                       hc_hwopts)).
Proof.
  intros pld.
  assert (H : exists text,
             hc_tag_show_hwoptions LittleEndian pld 4 Sample.boot
             = Returns (247, text) Sample.boot)
    by (eexists; vm_compute; reflexivity).
  destruct H as (text & H).
  exists text. split; [exact H |].
  destruct (hc_tag_show_hwoptions_length LittleEndian pld Sample.boot 247 text
              Sample.boot H) as (data & Hload & _ & Hlen & Hcount & _).
  exists data. split; [exact Hload |]. split; [exact Hlen | exact Hcount].
Defined.

(** X12 on an input: eight decoded bytes read at offset 3, two bytes and
    then up to a hundred. *)
Lemma hc_wlan_data_bin_read_pieces_witness :
  let blob := Sample.flash Sample.wlan_raw in
  let X := Sample.env blob [] 64 in
  let d := {| hc_buf := blob; hc_buflen := 40; hc_attrs := [];
              hc_wlandata_battr := {| wpld_ofs := 32; wpld_len := 8 |} |} in
  let block := fun i : nat => nth i [] x00%byte in
  let decoded :=
    ([xa5; xa5; xa5; x5a; x5a; x00; xff; xff] ++ repeat x00 56)%byte in
  let s2 :=
    {| klog := [EvKmalloc 64; EvUnpack 32 8; EvRle (skipn 32 blob) 8 64];
       kallocs := 1 |} in
  let cap := C.size_t C.LP64 (RB_ART_SIZE X) in
  (wpld_len (hc_wlandata_battr d) <> 0
   /\ wpld_len (hc_wlandata_battr d) <= cap
   /\ kmalloc_fn X (kallocs Sample.boot) cap = Some block
   /\ hc_wlan_data_unpack C.LP64 LittleEndian X d 32 8
        (map block (seq 0 (Z.to_nat cap))) cap
        {| klog := klog Sample.boot ++ [EvKmalloc cap];
           kallocs := S (kallocs Sample.boot) |}
      = Returns (0, decoded, 8) s2
   /\ 8 <= cap
   /\ 3 + 2 + 100 < 2 ^ (C.size_bits C.LP64 - 1))
  /\ exists n1 data1 n2 data2,
       hc_wlan_data_bin_read C.LP64 LittleEndian X d 3 2 Sample.boot
       = Returns (n1, data1) (record [EvKfree] s2)
       /\ hc_wlan_data_bin_read C.LP64 LittleEndian X d (3 + n1) 100 Sample.boot
          = Returns (n2, data2) (record [EvKfree] s2)
       /\ hc_wlan_data_bin_read C.LP64 LittleEndian X d 3 (2 + 100) Sample.boot
          = Returns (n1 + n2, data1 ++ data2) (record [EvKfree] s2).
Proof.
  intros blob X d block decoded s2 cap.
  assert (H1 : wpld_len (hc_wlandata_battr d) <> 0) by discriminate.
  assert (H2 : wpld_len (hc_wlandata_battr d) <= cap)
    by (vm_compute; discriminate).
  assert (H3 : kmalloc_fn X (kallocs Sample.boot) cap = Some block)
    by reflexivity.
  assert (H4 : hc_wlan_data_unpack C.LP64 LittleEndian X d 32 8
                 (map block (seq 0 (Z.to_nat cap))) cap
                 {| klog := klog Sample.boot ++ [EvKmalloc cap];
                    kallocs := S (kallocs Sample.boot) |}
               = Returns (0, decoded, 8) s2)
    by (vm_compute; reflexivity).
  assert (H5 : 8 <= cap) by (vm_compute; discriminate).
  assert (H6 : 3 + 2 + 100 < 2 ^ (C.size_bits C.LP64 - 1)) by reflexivity.
  split; [repeat split; assumption |].
  destruct (hc_wlan_data_bin_read_pieces C.LP64 LittleEndian X d 3 2 100
              Sample.boot Sample.boot block block decoded decoded 8 s2 s2
              H1 H2 H3 H4 H3 H4 eq_refl H5 ltac:(lia) ltac:(lia) ltac:(lia)
              H6)
    as (n1 & data1 & n2 & data2 & Hr1 & Hr2 & Hr & _).
  exists n1, data1, n2, data2.
  split; [exact Hr1 |]. split; [exact Hr2 | exact Hr].
Defined.

(** X13 on an input: the record of 20 bytes and a NULL output buffer. *)
Lemma hc_wlan_data_unpack_lzor_frees_witness :
  let X := Sample.env [] [] Sample.ART_SIZE in
  let padded :=
    [x10; x01; x02; x03; x04; x44; x52; x45; x00;
     x01; x00; x04; x00; xa5; x02; x5a; x02; x00; x00; x00]%byte in
  let run := hc_wlan_data_unpack_lzor C.LP64 LittleEndian X padded 20 None 1400 in
  let s' := {| klog := [EvKmalloc 1400]; kallocs := 1 |} in
  run Sample.boot = Returns (- ENOMEM, [], 1400) s'
  /\ events_of run Sample.boot = [EvKmalloc 1400]
  /\ allocations (events_of run Sample.boot) = 1%nat
  /\ releases (events_of run Sample.boot) = 0%nat.
Proof.
  intros X padded run s'.
  assert (H : run Sample.boot = Returns (- ENOMEM, [], 1400) s')
    by (vm_compute; reflexivity).
  split; [exact H |].
  assert (Hfit : C.size_t C.LP64 (20 + sizeof_hc_lzor_prefix) <= 1400)
    by (vm_compute; discriminate).
  destruct (hc_wlan_data_unpack_lzor_frees C.LP64 LittleEndian X padded 20
              None 1400 Sample.boot (- ENOMEM, [], 1400) s' H)
    as (_ & _ & Hnull).
  destruct (Hnull eq_refl Hfit) as (_ & Hes & Ha & Hr).
  split; [exact Hes |]. split; [exact Ha | exact Hr].
Defined.
